(** * Single-node K3s / Rancher bootstrap: a shallow embedding of [bootstrap.py]

    The script drives external installers and command-line tools.  The
    embedding keeps the control flow of every method of the script and
    replaces the operating system by an explicit [World]: an oracle that
    answers each request of the script (child processes, file tests, the
    clock, ...) from the history of everything the run did so far.  A run is
    a function from a world and a history to a result and the list of events
    it appended; an event records a request together with its answer.

    Conventions of the embedding:
    - a Python [str] is a Rocq [string]; each character stands for one code
      point below 256;
    - a child process that [subprocess.run] starts does start; what the
      script observes of it is the exit status and, when captured, the
      standard output, and [check=True] turns a non-zero status into
      [CalledProcessError];
    - [time.time()] readings are rationals (seconds);
    - a [pathlib.Path] is the string [str(path)], joined with "/";
    - the [for] loops over [range(60)] are recursions on their budget; the
      [while] loop of [wait_ready], whose end depends on the clock, takes
      fuel, and [OutOfFuel] marks a run that the embedding cut off. *)

From Stdlib Require Import String Ascii List Bool ZArith NArith QArith Lia Lqa.
From Stdlib Require Import DecimalString.
Import ListNotations.
Local Close Scope Q_scope.
Local Open Scope string_scope.
Local Open Scope list_scope.

(** ** Python string methods used by the script *)

Module PyStr.

(** [str.isspace] on one character (code points below 256). *)
Definition isspace (c : ascii) : bool :=
  let n := N_of_ascii c in
  (((9 <=? n) && (n <=? 13)) || ((28 <=? n) && (n <=? 32))
   || (n =? 133) || (n =? 160))%N.

(** Line boundaries of [str.splitlines] (code points below 256). *)
Definition islinebreak (c : ascii) : bool :=
  let n := N_of_ascii c in
  (((10 <=? n) && (n <=? 13)) || ((28 <=? n) && (n <=? 30)) || (n =? 133))%N.

Definition CR : ascii := ascii_of_N 13.
Definition LF : ascii := ascii_of_N 10.

Fixpoint lstrip (s : string) : string :=
  match s with
  | EmptyString => EmptyString
  | String c s' => if isspace c then lstrip s' else s
  end.

Fixpoint rstrip (s : string) : string :=
  match s with
  | EmptyString => EmptyString
  | String c s' =>
      match rstrip s' with
      | EmptyString => if isspace c then EmptyString else String c EmptyString
      | r => String c r
      end
  end.

(** [s.strip()] *)
Definition strip (s : string) : string := rstrip (lstrip s).

(** [s.splitlines()]: [cur] is the line being read. *)
Fixpoint splitlines_from (cur : string) (s : string) : list string :=
  match s with
  | EmptyString => if (cur =? "")%string then [] else [cur]
  | String c s' =>
      if islinebreak c then
        match s' with
        | String d s'' =>
            if (Ascii.eqb c CR && Ascii.eqb d LF)%bool
            then cur :: splitlines_from "" s''
            else cur :: splitlines_from "" s'
        | EmptyString => [cur]
        end
      else splitlines_from (cur ++ String c "") s'
  end.

Definition splitlines (s : string) : list string := splitlines_from "" s.

(** [s.split()] with no separator: runs of whitespace separate the
    tokens and no token is empty. *)
Fixpoint split_from (cur : string) (s : string) : list string :=
  match s with
  | EmptyString => if (cur =? "")%string then [] else [cur]
  | String c s' =>
      if isspace c then
        (if (cur =? "")%string then split_from "" s'
         else cur :: split_from "" s')
      else split_from (cur ++ String c "") s'
  end.

Definition split (s : string) : list string := split_from "" s.

(** [needle in hay] *)
Fixpoint contains (needle hay : string) : bool :=
  if String.prefix needle hay then true
  else match hay with
       | EmptyString => false
       | String _ hay' => contains needle hay'
       end.

(** [sep.join(parts)] *)
Fixpoint join (sep : string) (parts : list string) : string :=
  match parts with
  | [] => ""
  | [p] => p
  | p :: rest => p ++ sep ++ join sep rest
  end.

(** [str(n)] for a natural number. *)
Definition of_nat (n : nat) : string :=
  NilZero.string_of_uint (Nat.to_uint n).

(** Truth value of a string: the empty string is false. *)
Definition truthy (s : string) : bool := negb (s =? "")%string.

(** [a or b] on strings. *)
Definition or_ (a b : string) : string := if truthy a then a else b.

End PyStr.

(** ** The operating system as seen by the script *)

(** [os.environ] and the [env=] argument of [subprocess.run]: a dict with
    string keys, in insertion order. *)
Definition environ := list (string * string).

Fixpoint env_get (k : string) (e : environ) : option string :=
  match e with
  | [] => None
  | (k', v) :: e' => if (k' =? k)%string then Some v else env_get k e'
  end.

(** [e[k] = v] *)
Fixpoint env_set (k v : string) (e : environ) : environ :=
  match e with
  | [] => [(k, v)]
  | (k', v') :: e' =>
      if (k' =? k)%string then (k, v) :: e' else (k', v') :: env_set k v e'
  end.

(** What the script reads of a [subprocess.CompletedProcess]; [stdout] is
    the empty string when the output was not captured (the script never
    reads it then). *)
Record CompletedProcess := mkCompleted { returncode : Z; stdout : string }.

(** One interaction of the run with its environment, with the answer. *)
Inductive event :=
  | Spawn (args : list string) (env : option environ) (cp : CompletedProcess)
  | Print (line : string)
  | Sleep (secs : Z)
  | Clock (now : Q)
  | Stat (path : string) (present : bool)
  | Which (name : string) (found : option string)
  | GetEuid (uid : Z)
  | WriteFile (path contents : string) (error : option string)
  | Chmod (path : string) (mode : Z) (error : option string).

Definition history := list event.

(** The answers of the environment.  Every answer may depend on the whole
    history of the run (oldest event first). *)
Record World := mkWorld {
  os_environ : environ;
  os_geteuid : Z;
  script_dir : string;
  spawn : history -> list string -> option environ -> Z * string;
  path_exists : history -> string -> bool;
  shutil_which : history -> string -> option string;
  time_time : history -> Q;
  open_write : history -> string -> string -> option string;
  os_chmod : history -> string -> Z -> option string
  }.

(** ** Results and the monad of runs *)

Inductive exn :=
  | SystemExit (code : Z)
  | CalledProcessError (returncode : Z) (cmd : list string)
  | OSError (msg : string).

(** [OutOfFuel] is the answer of a [while] loop cut off by the embedding;
    it is not a behaviour of the script. *)
Inductive result (A : Type) :=
  | Return (a : A)
  | Raise (e : exn)
  | OutOfFuel.
Arguments Return {A} a.
Arguments Raise {A} e.
Arguments OutOfFuel {A}.

(** A computation reads the world and the history so far and answers with
    its result and the events it appends to the history. *)
Definition M (A : Type) := World -> history -> result A * list event.

Definition ret {A} (a : A) : M A := fun _ _ => (Return a, []).

Definition bind {A B} (m : M A) (f : A -> M B) : M B :=
  fun w h =>
    match m w h with
    | (Return a, e1) =>
        match f a w (h ++ e1) with
        | (r, e2) => (r, e1 ++ e2)
        end
    | (Raise x, e1) => (Raise x, e1)
    | (OutOfFuel, e1) => (OutOfFuel, e1)
    end.

Definition raise {A} (x : exn) : M A := fun _ _ => (Raise x, []).
Definition out_of_fuel {A} : M A := fun _ _ => (OutOfFuel, []).

(** [try: body except <class>: handler]; [catches] tells which exceptions
    belong to the class. *)
Definition try_except {A} (body : M A) (catches : exn -> bool)
    (handler : exn -> M A) : M A :=
  fun w h =>
    match body w h with
    | (Raise x, e1) =>
        if catches x then
          match handler x w (h ++ e1) with
          | (r, e2) => (r, e1 ++ e2)
          end
        else (Raise x, e1)
    | other => other
    end.

Declare Scope run_scope.
Delimit Scope run_scope with run.
Notation "x <- m ;; k" := (bind m (fun x => k))
  (at level 61, m at next level, right associativity) : run_scope.
Notation "m ;; k" := (bind m (fun _ => k))
  (at level 61, right associativity) : run_scope.
Local Open Scope run_scope.

Definition is_CalledProcessError (x : exn) : bool :=
  match x with CalledProcessError _ _ => true | _ => false end.

(** [except Exception] does not catch [SystemExit]. *)
Definition is_Exception (x : exn) : bool :=
  match x with SystemExit _ => false | _ => true end.

(** Exit status of the interpreter for the result of [main]: 0 on normal
    completion, the argument of [sys.exit], 1 for any other exception that
    is not caught. *)
Definition exit_status (r : result unit) : option Z :=
  match r with
  | Return _ => Some 0%Z
  | Raise (SystemExit c) => Some c
  | Raise _ => Some 1%Z
  | OutOfFuel => None
  end.

(** *** Primitive operations *)

Definition print (line : string) : M unit :=
  fun _ _ => (Return tt, [Print line]).

(** [subprocess.run(args, check=, text=True, capture_output=, env=)] *)
Definition subprocess_run (args : list string) (check capture : bool)
    (env : option environ) : M CompletedProcess :=
  fun w h =>
    let (rc, out) := spawn w h args env in
    let cp := mkCompleted rc (if capture then out else "") in
    if (check && negb (rc =? 0)%Z)%bool
    then (Raise (CalledProcessError rc args), [Spawn args env cp])
    else (Return cp, [Spawn args env cp]).

Definition time_sleep (secs : Z) : M unit :=
  fun _ _ => (Return tt, [Sleep secs]).

Definition time_now : M Q :=
  fun w h => let t := time_time w h in (Return t, [Clock t]).

Definition exists_ (path : string) : M bool :=
  fun w h => let b := path_exists w h path in (Return b, [Stat path b]).

Definition which (name : string) : M (option string) :=
  fun w h => let r := shutil_which w h name in (Return r, [Which name r]).

Definition geteuid : M Z :=
  fun w _ => (Return (os_geteuid w), [GetEuid (os_geteuid w)]).

Definition get_environ : M environ := fun w _ => (Return (os_environ w), []).

Definition get_script_dir : M string := fun w _ => (Return (script_dir w), []).

(** [with open(path, "w") as f: f.write(contents)] *)
Definition write_file (path contents : string) : M unit :=
  fun w h =>
    match open_write w h path contents with
    | Some msg => (Raise (OSError msg), [WriteFile path contents (Some msg)])
    | None => (Return tt, [WriteFile path contents None])
    end.

Definition chmod (path : string) (mode : Z) : M unit :=
  fun w h =>
    match os_chmod w h path mode with
    | Some msg => (Raise (OSError msg), [Chmod path mode (Some msg)])
    | None => (Return tt, [Chmod path mode None])
    end.

Definition sys_exit {A} (code : Z) : M A := raise (SystemExit code).

(** Truth value of an optional string ([None] and [""] are false). *)
Definition truthy_opt (o : option string) : bool :=
  match o with Some s => PyStr.truthy s | None => false end.

(** ** class Log *)

Module Log.
Local Open Scope string_scope.

Definition ESC : string := String (ascii_of_N 27) "".
Definition NL : string := String PyStr.LF "".

Definition COLORS : environ :=
  [ ("INFO", ESC ++ "[36m");
    ("SUCCESS", ESC ++ "[32m");
    ("WARN", ESC ++ "[33m");
    ("ERROR", ESC ++ "[31m");
    ("RESET", ESC ++ "[0m");
    ("SECTION", ESC ++ "[35m") ].

Definition color_of (key : string) : string :=
  match env_get key COLORS with Some c => c | None => "" end.

Definition _stamp (level msg : string) : string :=
  let color := color_of level in
  let reset := color_of "RESET" in
  if PyStr.truthy color
  then "[" ++ level ++ "] " ++ color ++ msg ++ reset
  else "[" ++ level ++ "] " ++ msg.

Definition info (msg : string) : M unit := print (_stamp "INFO" msg).
Definition success (msg : string) : M unit := print (_stamp "SUCCESS" msg).
Definition warn (msg : string) : M unit := print (_stamp "WARN" msg).
Definition error (msg : string) : M unit := print (_stamp "ERROR" msg).

Fixpoint repeat_str (s : string) (n : nat) : string :=
  match n with O => "" | S n' => s ++ repeat_str s n' end.

Definition section (title : string) : M unit :=
  let bar := repeat_str "=" 64 in
  print (color_of "SECTION" ++ bar ++ NL ++ title ++ NL ++ bar
         ++ color_of "RESET").

End Log.

(** [run(cmd, check=, capture=, env=, cwd=)]: logs the command line, then
    starts it. *)
Definition run (cmd : list string) (check capture : bool)
    (env : option environ) (cwd : option string) : M CompletedProcess :=
  let printable := PyStr.join " " cmd in
  Log.info ("$ " ++ printable
            ++ match cwd with
               | Some d => if PyStr.truthy d then " (cwd=" ++ d ++ ")" else ""
               | None => ""
               end)%string ;;
  subprocess_run cmd check capture env.

(** [Path(a) / b] on the string form of paths. *)
Definition path_join (a b : string) : string :=
  if (a =? "/")%string then a ++ b else a ++ "/" ++ b.

(** [str(z)] for an integer. *)
Definition str_of_Z (z : Z) : string := NilZero.string_of_int (Z.to_int z).

Definition DQ : string := String (ascii_of_N 34) "".

(** [str(e)] for the exceptions whose text the script prints: the file
    operations of [ensure_kubectl], which raise [OSError] only. *)
Definition str_of_exn (e : exn) : string :=
  match e with
  | OSError msg => msg
  | _ => ""
  end.

(** ** class HostEnv *)

Module HostEnv.
Local Open Scope string_scope.

Record t := mk {
    user : string;
    user_home : string;
    env : environ;
    _primary_ip : string
  }.

(** The value computed from the captured output of [hostname -I]:
    [parts = (r.stdout or "").split(); parts[0] if parts else "127.0.0.1"]. *)
Definition primary_ip_of_output (out : string) : string :=
  match PyStr.split (PyStr.or_ out "") with
  | p :: _ => p
  | [] => "127.0.0.1"
  end.

Definition _detect_primary_ip : M string :=
  r <- subprocess_run ["hostname"; "-I"] false true None ;;
  ret (primary_ip_of_output (stdout r)).

(** [os.environ.get("SUDO_USER") or os.environ.get("USER") or "unknown"] *)
Definition invoking_user (e : environ) : string :=
  if truthy_opt (env_get "SUDO_USER" e) then
    match env_get "SUDO_USER" e with Some u => u | None => "unknown" end
  else if truthy_opt (env_get "USER" e) then
    match env_get "USER" e with Some u => u | None => "unknown" end
  else "unknown".

Definition __init__ : M t :=
  e <- get_environ ;;
  let user := invoking_user e in
  let user_home :=
    if negb (user =? "root") then "/home/" ++ user else "/root" in
  ip <- _detect_primary_ip ;;
  ret (mk user user_home e ip).

Definition primary_ip (self : t) : string := _primary_ip self.

Definition kubeconfig_path (self : t) : string :=
  path_join (path_join (user_home self) ".kube") "config".

Definition ensure_kube_dir (self : t) : M unit :=
  let kube_dir := path_join (user_home self) ".kube" in
  run ["mkdir"; "-p"; kube_dir] false false None None ;;
  run ["chown"; "-R"; user self ++ ":" ++ user self; kube_dir]
      false false None None ;;
  run ["chmod"; "700"; kube_dir] false false None None ;;
  ret tt.

Definition kube_env (self : t) : M environ :=
  e <- get_environ ;;
  ret (env_set "KUBECONFIG" (kubeconfig_path self) e).

End HostEnv.

(** ** class K3sCluster *)

Module K3sCluster.
Local Open Scope string_scope.

Definition ensure_hosts (h : HostEnv.t) : M unit :=
  r <- subprocess_run ["hostname"] false true None ;;
  let hostname := PyStr.strip (stdout r) in
  let ip := PyStr.or_ (HostEnv.primary_ip h) "127.0.1.1" in
  Log.info ("Checking /etc/hosts entry for " ++ hostname ++ " (" ++ ip ++ ")") ;;
  let grep_cmd :=
    ["grep"; "-Eq"; "^[0-9A-Fa-f:.]+\s+" ++ hostname ++ "(\s|$)"; "/etc/hosts"] in
  g <- subprocess_run grep_cmd false false None ;;
  if negb (returncode g =? 0)%Z then
    let line := ip ++ " " ++ hostname in
    Log.info ("Adding: " ++ line) ;;
    run ["bash"; "-c"; "echo '" ++ line ++ "' >> /etc/hosts"]
        false false None None ;;
    ret tt
  else
    Log.info "Host entry already present.".

Definition kcfg : string := "/etc/rancher/k3s/k3s.yaml".

Definition k3s_install_cmd : list string :=
  ["bash"; "-lc";
   "curl -sfL https://get.k3s.io | INSTALL_K3S_EXEC='server --disable traefik' sh -"].

(** [for _ in range(n): if kcfg.exists(): break; time.sleep(2)]; the
    answer is [true] when the loop was left by [break]. *)
Fixpoint wait_kubeconfig (n : nat) : M bool :=
  match n with
  | O => ret false
  | S n' =>
      present <- exists_ kcfg ;;
      if present then ret true
      else time_sleep 2 ;; wait_kubeconfig n'
  end.

Definition _fix_kubeconfig_permissions (h : HostEnv.t) : M unit :=
  let k3s_cfg := "/etc/rancher/k3s/k3s.yaml" in
  present <- exists_ k3s_cfg ;;
  if negb present then
    Log.error "kubeconfig not found, skipping copy."
  else
    HostEnv.ensure_kube_dir h ;;
    let dest := HostEnv.kubeconfig_path h in
    let dest_parent := path_join (HostEnv.user_home h) ".kube" in
    run ["cp"; k3s_cfg; dest] false false None None ;;
    run ["chown"; "-R"; HostEnv.user h ++ ":" ++ HostEnv.user h; dest_parent]
        false false None None ;;
    run ["chmod"; "600"; dest] false false None None ;;
    Log.info ("Kubeconfig copied to " ++ dest).

Definition get_nodes_cmd : list string :=
  ["k3s"; "kubectl"; "get"; "nodes"; "--no-headers"].

(** [lines = result.stdout.strip().splitlines()] *)
Definition node_lines (out : string) : list string :=
  PyStr.splitlines (PyStr.strip out).

(** [total = len(lines)] *)
Definition total_of (out : string) : nat := length (node_lines out).

(** [ready = sum(1 for l in lines if "Ready" in l)] *)
Definition ready_of (out : string) : nat :=
  length (filter (PyStr.contains "Ready") (node_lines out)).

(** [total > 0 and ready == total] *)
Definition nodes_converged (out : string) : bool :=
  (0 <? total_of out)%nat && (ready_of out =? total_of out)%nat.

(** The loop of [_wait_nodes_ready] with a budget of [n] attempts; the
    answer is [true] when the method returned from inside the loop. *)
Fixpoint wait_nodes_loop (n : nat) : M bool :=
  match n with
  | O => ret false
  | S n' =>
      result <- subprocess_run get_nodes_cmd false true None ;;
      let total := total_of (stdout result) in
      let ready := ready_of (stdout result) in
      if nodes_converged (stdout result) then
        Log.success ("All " ++ PyStr.of_nat ready ++ "/" ++ PyStr.of_nat total
                     ++ " nodes Ready.") ;;
        ret true
      else time_sleep 2 ;; wait_nodes_loop n'
  end.

Definition nodes_timeout_msg : string :=
  "Nodes not fully ready after 2 minutes. Continue verifying with `kubectl get nodes`.".

Definition _wait_nodes_ready : M unit :=
  Log.info "Checking node readiness (2 min timeout)..." ;;
  returned <- wait_nodes_loop 60 ;;
  if returned then ret tt
  else Log.warn nodes_timeout_msg.

Definition kubeconfig_timeout_msg : string :=
  "Timed out waiting for /etc/rancher/k3s/k3s.yaml".

Definition install_or_verify (h : HostEnv.t) : M unit :=
  a <- subprocess_run ["systemctl"; "is-active"; "--quiet"; "k3s"]
                      false false None ;;
  active <- (if (returncode a =? 0)%Z then exists_ kcfg else ret false) ;;
  (if active then Log.info "k3s server already active."
   else
     Log.info "Installing K3s server (traefik disabled)..." ;;
     run k3s_install_cmd true false None None ;;
     ret tt) ;;
  Log.info "Waiting for K3s kubeconfig..." ;;
  found <- wait_kubeconfig 60 ;;
  (if found then ret tt
   else Log.error kubeconfig_timeout_msg ;; sys_exit 1) ;;
  _fix_kubeconfig_permissions h ;;
  _wait_nodes_ready.

Definition shim_contents : string :=
  "#!/bin/sh" ++ Log.NL ++ "exec k3s kubectl " ++ DQ ++ "$@" ++ DQ ++ Log.NL.

Definition ensure_kubectl : M unit :=
  k <- which "kubectl" ;;
  if truthy_opt k then Log.info "kubectl already present in PATH."
  else
    k3s <- which "k3s" ;;
    if negb (truthy_opt k3s) then
      Log.warn "k3s binary not found; cannot create kubectl shim."
    else
      let target_path := "/usr/local/bin/kubectl" in
      present <- exists_ target_path ;;
      if negb present then
        Log.info "Creating kubectl shim using 'k3s kubectl' ..." ;;
        try_except
          (write_file target_path shim_contents ;;
           chmod target_path 493 ;;
           Log.success ("kubectl shim created at " ++ target_path))
          is_Exception
          (fun e =>
             Log.error ("Failed to create kubectl shim: " ++ str_of_exn e))
      else ret tt.

Definition apply_bootstrap_yaml (h : HostEnv.t) : M unit :=
  dir <- get_script_dir ;;
  let tmpl := path_join (path_join dir "templates") "bootstrap.yaml" in
  present <- exists_ tmpl ;;
  if present then
    Log.info ("Applying " ++ tmpl) ;;
    e <- HostEnv.kube_env h ;;
    run ["kubectl"; "apply"; "-f"; tmpl] false false (Some e) None ;;
    ret tt
  else Log.info "No bootstrap.yaml found; skipping.".

Definition get_helm_cmd : list string :=
  ["bash"; "-lc";
   "curl -fsSL https://raw.githubusercontent.com/helm/helm/main/scripts/get-helm-3 | bash"].

Definition helm_missing_msg : string := "helm not found after install attempt.".

Definition ensure_helm : M unit :=
  present <- which "helm" ;;
  if truthy_opt present then Log.info "helm present."
  else
    Log.info "Installing helm (get-helm-3)..." ;;
    run get_helm_cmd true false None None ;;
    again <- which "helm" ;;
    if negb (truthy_opt again) then
      Log.error helm_missing_msg ;; sys_exit 2
    else ret tt.

End K3sCluster.

(** ** class RancherDeployment *)

Module RancherDeployment.
Local Open Scope string_scope.

Definition helm_status_cmd : list string :=
  ["helm"; "status"; "rancher"; "-n"; "cattle-system"].

Definition repo_add_cmd : list string :=
  ["helm"; "repo"; "add"; "rancher-stable";
   "https://releases.rancher.com/server-charts/stable"].

Definition repo_update_cmd : list string := ["helm"; "repo"; "update"].

Definition helm_cmd (h : HostEnv.t) : list string :=
  let ip := HostEnv.primary_ip h in
  let external_https := "https://" ++ ip ++ ":30444" in
  let hostname := ip ++ ".nip.io" in
  ["helm"; "--kubeconfig"; HostEnv.kubeconfig_path h;
   "upgrade"; "--install"; "rancher"; "rancher-stable/rancher";
   "--namespace"; "cattle-system";
   "--create-namespace";
   "--set"; "replicas=1";
   "--set"; "ingress.enabled=false";
   "--set"; "ingress.tls.source=secret";
   "--set"; "hostname=" ++ hostname;
   "--set"; "service.type=ClusterIP";
   "--set"; "global.cattle.psp.enabled=false";
   "--set"; "bootstrapPassword=admin123";
   "--set"; "extraEnv[0].name=CATTLE_SERVER_URL";
   "--set"; "extraEnv[0].value=" ++ external_https].

Definition checking_msg : string :=
  "Checking if Rancher helm release already exists (skip install if present)...".
Definition present_msg : string :=
  "Rancher helm release already present; skipping install/upgrade per request.".
Definition absent_msg : string :=
  "Rancher release not found; proceeding with initial install (no cert-manager)...".

Definition install (h : HostEnv.t) : M unit :=
  e <- HostEnv.kube_env h ;;
  Log.info checking_msg ;;
  status_cp <- subprocess_run helm_status_cmd false true (Some e) ;;
  if (returncode status_cp =? 0)%Z then
    Log.info present_msg
  else
    Log.info absent_msg ;;
    run repo_add_cmd false false None None ;;
    run repo_update_cmd false false None None ;;
    run (helm_cmd h) true false (Some e) None ;;
    ret tt.

Definition rollout_cmd (timeout_sec : Z) : list string :=
  ["kubectl"; "-n"; "cattle-system"; "rollout"; "status"; "deploy/rancher";
   "--timeout=" ++ str_of_Z timeout_sec ++ "s"].

Definition get_pods_cmd : list string :=
  ["kubectl"; "-n"; "cattle-system"; "get"; "pods"; "-l"; "app=rancher";
   "-o"; "jsonpath={range .items[*]}{.status.phase}{" ++ DQ ++ "\n" ++ DQ
         ++ "}{end}"].

(** [[p.strip() for p in (r.stdout or "").splitlines() if p.strip()]] *)
Definition phases_of (out : string) : list string :=
  map PyStr.strip
      (filter (fun p => PyStr.truthy (PyStr.strip p))
              (PyStr.splitlines (PyStr.or_ out ""))).

(** [phases and all(p == "Running" for p in phases)] *)
Definition phases_converged (phases : list string) : bool :=
  match phases with
  | [] => false
  | _ => forallb (fun p => (p =? "Running")%string) phases
  end.

Definition Qltb (a b : Q) : bool := negb (Qle_bool b a).

(** [while time.time() < deadline: ...]; each unit of [fuel] pays for one
    test of the loop condition.  The answer is [true] when the method
    returned from inside the loop. *)
Fixpoint poll_pods (fuel : nat) (e : environ) (deadline : Q) : M bool :=
  match fuel with
  | O => out_of_fuel
  | S fuel' =>
      now <- time_now ;;
      if Qltb now deadline then
        r <- subprocess_run get_pods_cmd false true (Some e) ;;
        let phases := phases_of (stdout r) in
        if phases_converged phases then
          Log.success "Rancher pods are Running." ;;
          ret true
        else time_sleep 3 ;; poll_pods fuel' e deadline
      else ret false
  end.

Definition rollout_warn_msg : string :=
  "rollout status timed out; checking pods directly...".
Definition not_ready_msg : string :=
  "Rancher not ready within timeout; check with: kubectl -n cattle-system get pods".

Definition wait_ready (fuel : nat) (h : HostEnv.t) (timeout_sec : Z) : M unit :=
  e <- HostEnv.kube_env h ;;
  Log.info "Waiting for Rancher to be ready..." ;;
  rolled <- try_except
              (run (rollout_cmd timeout_sec) true false (Some e) None ;;
               Log.success "Rancher deployment is ready." ;;
               ret true)
              is_CalledProcessError
              (fun _ => Log.warn rollout_warn_msg ;; ret false) ;;
  if rolled then ret tt
  else
    start <- time_now ;;
    let deadline := (start + inject_Z timeout_sec)%Q in
    returned <- poll_pods fuel e deadline ;;
    if returned then ret tt
    else Log.warn not_ready_msg.

End RancherDeployment.

(** ** class ClusterBanner *)

Module ClusterBanner.
Local Open Scope string_scope.

Definition verify_cluster (h : HostEnv.t) : M unit :=
  Log.section "Cluster Verification" ;;
  e <- HostEnv.kube_env h ;;
  result <- run ["kubectl"; "get"; "nodes"] false true (Some e) None ;;
  (if PyStr.truthy (stdout result) then print (stdout result)
   else Log.warn "Could not get nodes output" ;; print "None") ;;
  if PyStr.truthy (stdout result) && PyStr.contains "Ready" (stdout result)
  then Log.success "Cluster appears healthy and responsive."
  else Log.warn "Cluster not fully ready, check systemctl status k3s and logs.".

Definition access (h : HostEnv.t) : M unit :=
  let ip := HostEnv.primary_ip h in
  Log.section "Rancher Access" ;;
  Log.info ("HTTPS Endpoint : https://" ++ ip ++ ":30444") ;;
  Log.info "Namespace      : cattle-system" ;;
  Log.info "NodePort Svc    : rancher-nodeport".

Definition final_msg (h : HostEnv.t) : string :=
  "You can now run: KUBECONFIG=" ++ HostEnv.kubeconfig_path h
  ++ " kubectl -n cattle-system get pods".

Definition final (h : HostEnv.t) : M unit :=
  Log.section "Bootstrap Complete" ;;
  Log.info (final_msg h).

End ClusterBanner.

(** ** class BootstrapOrchestrator *)

Module BootstrapOrchestrator.
Local Open Scope string_scope.

(** The constructor builds the [HostEnv]; the other three objects only
    keep a reference to it. *)
Definition __init__ : M HostEnv.t := HostEnv.__init__.

Definition sudo_msg : string :=
  "This script must be run as root (sudo). Exiting.".

Definition require_sudo : M unit :=
  uid <- geteuid ;;
  if negb (uid =? 0)%Z then
    Log.error sudo_msg ;; sys_exit 1
  else ret tt.

Definition show_mode (h : HostEnv.t) : M unit :=
  Log.section "K3s Cluster Bootstrap" ;;
  Log.info ("Current user : " ++ HostEnv.user h) ;;
  Log.info ("Home dir     : " ++ HostEnv.user_home h) ;;
  Log.info ("Host IP      : " ++ HostEnv.primary_ip h).

Definition run (fuel : nat) (h : HostEnv.t) : M unit :=
  require_sudo ;;
  show_mode h ;;
  K3sCluster.ensure_hosts h ;;
  K3sCluster.install_or_verify h ;;
  K3sCluster.ensure_kubectl ;;
  K3sCluster.apply_bootstrap_yaml h ;;
  K3sCluster.ensure_helm ;;
  RancherDeployment.install h ;;
  RancherDeployment.wait_ready fuel h 300 ;;
  ClusterBanner.verify_cluster h ;;
  ClusterBanner.access h ;;
  ClusterBanner.final h.

End BootstrapOrchestrator.

(** [main()]: build the orchestrator, then run it. *)
Definition main (fuel : nat) : M unit :=
  h <- BootstrapOrchestrator.__init__ ;;
  BootstrapOrchestrator.run fuel h.

(** The whole process in a world, from the empty history. *)
Definition process (fuel : nat) (w : World) : result unit * list event :=
  main fuel w [].

(** ** Vocabulary of the statements *)

(** A string of whitespace only (the empty string included). *)
Fixpoint blank (s : string) : bool :=
  match s with
  | "" => true
  | String c s' => PyStr.isspace c && blank s'
  end.

(** A string without whitespace. *)
Fixpoint solid (s : string) : bool :=
  match s with
  | "" => true
  | String c s' => negb (PyStr.isspace c) && solid s'
  end.

(** [rest] is empty or starts with a whitespace character. *)
Definition token_ends (rest : string) : Prop :=
  rest = "" \/ exists c r, rest = String c r /\ PyStr.isspace c = true.

(** [tok] is the first whitespace-separated token of [s]. *)
Definition first_token (tok s : string) : Prop :=
  exists ws rest,
    s = (ws ++ tok ++ rest)%string /\ blank ws = true /\ tok <> ""
    /\ solid tok = true /\ token_ends rest.

(** Equality test on argument lists. *)
Fixpoint args_eqb (a b : list string) : bool :=
  match a, b with
  | [], [] => true
  | x :: a', y :: b' => (x =? y)%string && args_eqb a' b'
  | _, _ => false
  end.

(** The standard outputs the run observed for the command [cmd], in order. *)
Fixpoint outputs_of (cmd : list string) (ev : list event) : list string :=
  match ev with
  | [] => []
  | Spawn args _ cp :: ev' =>
      if args_eqb args cmd then stdout cp :: outputs_of cmd ev'
      else outputs_of cmd ev'
  | _ :: ev' => outputs_of cmd ev'
  end.

(** Number of [time.sleep] calls in a list of events. *)
Fixpoint sleeps (ev : list event) : nat :=
  match ev with
  | [] => 0
  | Sleep _ :: ev' => S (sleeps ev')
  | _ :: ev' => sleeps ev'
  end.

(** Number of file tests of [path] in a list of events. *)
Fixpoint stats_of (path : string) (ev : list event) : nat :=
  match ev with
  | [] => 0
  | Stat p _ :: ev' =>
      if (p =? path)%string then S (stats_of path ev') else stats_of path ev'
  | _ :: ev' => stats_of path ev'
  end.

(** A result with events put in front of its own. *)
Definition prepend {A} (e1 : list event) (r : result A * list event)
  : result A * list event :=
  (fst r, e1 ++ snd r).

(** The process as the script sees it after [subprocess.run]. *)
Definition completed_of (w : World) (h : history) (args : list string)
    (capture : bool) (env : option environ) : CompletedProcess :=
  mkCompleted (fst (spawn w h args env))
              (if capture then snd (spawn w h args env) else ""%string).

(** ** Example worlds *)

(** Seconds elapsed over a history in which every sleep takes its time and
    every child process takes [pace] seconds. *)
Fixpoint elapsed (pace : Z) (h : history) : Z :=
  match h with
  | [] => 0
  | Sleep secs :: h' => Z.max 0 secs + elapsed pace h'
  | Spawn _ _ _ :: h' => pace + elapsed pace h'
  | _ :: h' => elapsed pace h'
  end.

(** A world with fixed answers: [answer] gives the exit status and output
    of each command line, [present] the files that exist, [found] the
    programs on the PATH; every child process takes [pace] seconds. *)
Definition scripted_world (uid : Z) (answer : list string -> Z * string)
    (present : string -> bool) (found : string -> option string)
    (pace : Z) : World :=
  {| os_environ := [("SUDO_USER", "alice"); ("USER", "root")]%string;
     os_geteuid := uid;
     script_dir := "/opt/bootstrap";
     spawn := fun _ args _ => answer args;
     path_exists := fun _ p => present p;
     shutil_which := fun _ name => found name;
     time_time := fun h => inject_Z (elapsed pace h);
     open_write := fun _ _ _ => None;
     os_chmod := fun _ _ _ => None |}.

(** Answers of a host on which everything is installed and ready. *)
Definition healthy_answer (args : list string) : Z * string :=
  if args_eqb args ["hostname"; "-I"]%string
  then (0%Z, "192.168.1.10 10.0.0.7 " ++ Log.NL)%string
  else if args_eqb args ["hostname"]%string
  then (0%Z, "node1" ++ Log.NL)%string
  else if args_eqb args K3sCluster.get_nodes_cmd
  then (0%Z, "node1   Ready   control-plane,master   5m   v1.28.2+k3s1"
             ++ Log.NL)%string
  else if args_eqb args ["kubectl"; "get"; "nodes"]%string
  then (0%Z, "NAME    STATUS   ROLES" ++ Log.NL
             ++ "node1   Ready    control-plane,master" ++ Log.NL)%string
  else (0%Z, ""%string).

Definition everything_present (p : string) : bool := true.
Definition everything_found (name : string) : option string :=
  Some ("/usr/local/bin/" ++ name)%string.

(** The already-converged host, run as root. *)
Definition converged_world : World :=
  scripted_world 0 healthy_answer everything_present everything_found 0.

(** The same host, run without privilege. *)
Definition unprivileged_world : World :=
  scripted_world 1000 healthy_answer everything_present everything_found 0.

(** [answer] with the answer to the command line [cmd] replaced. *)
Definition answer_with (cmd : list string) (a : Z * string)
    (answer : list string -> Z * string) (args : list string) : Z * string :=
  if args_eqb args cmd then a else answer args.

(** A host whose nodes all report [NotReady]. *)
Definition not_ready_output : string :=
  ("node1   NotReady   control-plane,master   5m   v1.28.2+k3s1" ++ Log.NL
   ++ "node2   NotReady   <none>                 4m   v1.28.2+k3s1" ++ Log.NL)%string.

Definition not_ready_world : World :=
  scripted_world 0
    (answer_with K3sCluster.get_nodes_cmd (0%Z, not_ready_output) healthy_answer)
    everything_present everything_found 0.

(** A host on which [kubectl get nodes] prints nothing. *)
Definition no_nodes_world : World :=
  scripted_world 0
    (answer_with K3sCluster.get_nodes_cmd (1%Z, ""%string) healthy_answer)
    everything_present everything_found 0.

(** A host with three nodes, all [Ready]. *)
Definition three_nodes_output : string :=
  ("node1   Ready   control-plane,master   5m   v1.28.2+k3s1" ++ Log.NL
   ++ "node2   Ready   <none>                 4m   v1.28.2+k3s1" ++ Log.NL
   ++ "node3   Ready   <none>                 4m   v1.28.2+k3s1" ++ Log.NL)%string.

Definition three_nodes_world : World :=
  scripted_world 0
    (answer_with K3sCluster.get_nodes_cmd (0%Z, three_nodes_output) healthy_answer)
    everything_present everything_found 0.

(** ** Assumptions on the clock *)

(** The clock never runs backwards. *)
Definition clock_monotone (w : World) : Prop :=
  forall h ev, (time_time w h <= time_time w (h ++ ev))%Q.

(** [time.sleep(secs)] takes at least [secs] seconds. *)
Definition sleep_elapses (w : World) : Prop :=
  forall h secs,
    (time_time w h + inject_Z secs <= time_time w (h ++ [Sleep secs]))%Q.

(** The line that [run] logs before it starts [cmd]. *)
Definition command_line (cmd : list string) : string :=
  Log._stamp "INFO" ("$ " ++ PyStr.join " " cmd ++ "").

(** ** Shapes of the events of [wait_ready] *)

(** The environment that [kube_env] passes to the cluster tools. *)
Definition kube_environ (w : World) (h : HostEnv.t) : environ :=
  env_set "KUBECONFIG" (HostEnv.kubeconfig_path h) (os_environ w).

Definition waiting_line : string :=
  Log._stamp "INFO" "Waiting for Rancher to be ready...".

(** What the rollout-status command answered in [wait_ready]. *)
Definition rollout_result (w : World) (h : HostEnv.t) (timeout_sec : Z)
    (hist : history) : CompletedProcess :=
  completed_of w
    (hist ++ [Print waiting_line;
              Print (command_line (RancherDeployment.rollout_cmd timeout_sec))])
    (RancherDeployment.rollout_cmd timeout_sec) false (Some (kube_environ w h)).

(** The events of [wait_ready] up to the start of the pod-phase loop, when
    the rollout-status command failed. *)
Definition fallback_prefix (w : World) (h : HostEnv.t) (timeout_sec : Z)
    (hist : history) : list event :=
  let p2 :=
    [Print waiting_line;
     Print (command_line (RancherDeployment.rollout_cmd timeout_sec));
     Spawn (RancherDeployment.rollout_cmd timeout_sec)
           (Some (kube_environ w h)) (rollout_result w h timeout_sec hist);
     Print (Log._stamp "WARN" RancherDeployment.rollout_warn_msg)] in
  p2 ++ [Clock (time_time w (hist ++ p2))].

(** The reading of the clock from which the deadline is computed. *)
Definition fallback_start (w : World) (h : HostEnv.t) (timeout_sec : Z)
    (hist : history) : Q :=
  time_time w
    (hist ++ [Print waiting_line;
              Print (command_line (RancherDeployment.rollout_cmd timeout_sec));
              Spawn (RancherDeployment.rollout_cmd timeout_sec)
                    (Some (kube_environ w h)) (rollout_result w h timeout_sec hist);
              Print (Log._stamp "WARN" RancherDeployment.rollout_warn_msg)]).

(** The pod-phase loop as [wait_ready] runs it after a failed rollout
    status. *)
Definition fallback_poll (fuel : nat) (w : World) (h : HostEnv.t)
    (timeout_sec : Z) (hist : history) : result bool * list event :=
  RancherDeployment.poll_pods fuel (kube_environ w h)
    (fallback_start w h timeout_sec hist + inject_Z timeout_sec)%Q
    w (hist ++ fallback_prefix w h timeout_sec hist).

(** The rest of [BootstrapOrchestrator.run] from [wait_ready] on. *)
Definition run_from_wait_ready (fuel : nat) (h : HostEnv.t) : M unit :=
  RancherDeployment.wait_ready fuel h 300 ;;
  ClusterBanner.verify_cluster h ;;
  ClusterBanner.access h ;;
  ClusterBanner.final h.

(** ** Predicates on computations *)

(** [m] returns normally from every history of the world [w]. *)
Definition returns_in {A} (w : World) (m : M A) : Prop :=
  forall h, exists a, fst (m w h) = Return a.

(** No event that [m] appends in the world [w] satisfies [P]. *)
Definition quiet_in {A} (w : World) (P : event -> bool) (m : M A) : Prop :=
  forall h, Forall (fun e => P e = false) (snd (m w h)).

(** ** Observations on the events of a run *)

(** [ev] ends with the events [suffix]. *)
Definition ends_with (suffix ev : list event) : Prop :=
  exists pre, ev = pre ++ suffix.

(** The last line of a completed run. *)
Definition final_line (h : HostEnv.t) : string :=
  Log._stamp "INFO" (ClusterBanner.final_msg h).

(** The largest number of probes of the pod-phase loop for a budget of
    [timeout_sec] seconds when every sleep takes its three seconds. *)
Definition pod_probe_bound (timeout_sec : Z) : nat :=
  Z.to_nat ((timeout_sec + 2) / 3).

(** A host record as [HostEnv()] builds it for the example worlds. *)
Definition example_host : HostEnv.t :=
  HostEnv.mk "alice" "/home/alice"
    [("SUDO_USER", "alice"); ("USER", "root")]%string "192.168.1.10".

(** A host on which the Rancher rollout never finishes and the pods stay
    [Pending]; every child process takes [pace] seconds. *)
Definition pending_world (pace : Z) : World :=
  scripted_world 0
    (answer_with (RancherDeployment.rollout_cmd 300) (1%Z, ""%string)
       (answer_with RancherDeployment.get_pods_cmd
          (0%Z, ("Pending" ++ Log.NL)%string) healthy_answer))
    everything_present everything_found pace.

(** ** The run as a whole *)

(** The host record that [HostEnv()] builds in the world [w] at the
    history [hist]. *)
Definition host_of (w : World) (hist : history) : HostEnv.t :=
  let user := HostEnv.invoking_user (os_environ w) in
  HostEnv.mk user
    (if negb (user =? "root")%string then ("/home/" ++ user)%string
     else "/root"%string)
    (os_environ w)
    (HostEnv.primary_ip_of_output
       (snd (spawn w hist ["hostname"; "-I"]%string None))).

(** The address probe as the constructor starts it. *)
Definition address_probe (w : World) (hist : history) : event :=
  Spawn ["hostname"; "-I"]%string None
    (completed_of w hist ["hostname"; "-I"]%string true None).

(** Number of child processes in a list of events. *)
Fixpoint spawned (ev : list event) : nat :=
  match ev with
  | [] => 0
  | Spawn _ _ _ :: ev' => S (spawned ev')
  | _ :: ev' => spawned ev'
  end.

(** A test on the command line of child processes, as a test on events. *)
Definition on_spawn (p : list string -> bool) (e : event) : bool :=
  match e with
  | Spawn args _ _ => p args
  | _ => false
  end.

(** [helm ... upgrade ...]: the installation of the chart. *)
Definition is_chart_install (args : list string) : bool :=
  (nth 0 args "" =? "helm")%string && existsb (String.eqb "upgrade") args.

(** [helm repo ...]: registration and refresh of the chart repository. *)
Definition is_repo_command (args : list string) : bool :=
  (nth 0 args "" =? "helm")%string && (nth 1 args "" =? "repo")%string.

(** [helm status ...]: the release-presence query. *)
Definition is_release_query (args : list string) : bool :=
  (nth 0 args "" =? "helm")%string && (nth 1 args "" =? "status")%string.

(** What the release-presence query answered in [install]. *)
Definition status_result (w : World) (h : HostEnv.t) (hist : history)
  : CompletedProcess :=
  completed_of w
    (hist ++ [Print (Log._stamp "INFO" RancherDeployment.checking_msg)])
    RancherDeployment.helm_status_cmd true (Some (kube_environ w h)).

(** The events of [install] when the release is present. *)
Definition install_skipped (w : World) (h : HostEnv.t) (hist : history)
  : list event :=
  [Print (Log._stamp "INFO" RancherDeployment.checking_msg);
   Spawn RancherDeployment.helm_status_cmd (Some (kube_environ w h))
         (status_result w h hist);
   Print (Log._stamp "INFO" RancherDeployment.present_msg)].

(** The events of [install] when the release is absent; [add], [update]
    and [chart] are the results of the three commands. *)
Definition install_performed (w : World) (h : HostEnv.t) (hist : history)
    (add update chart : CompletedProcess) : list event :=
  [Print (Log._stamp "INFO" RancherDeployment.checking_msg);
   Spawn RancherDeployment.helm_status_cmd (Some (kube_environ w h))
         (status_result w h hist);
   Print (Log._stamp "INFO" RancherDeployment.absent_msg);
   Print (command_line RancherDeployment.repo_add_cmd);
   Spawn RancherDeployment.repo_add_cmd None add;
   Print (command_line RancherDeployment.repo_update_cmd);
   Spawn RancherDeployment.repo_update_cmd None update;
   Print (command_line (RancherDeployment.helm_cmd h));
   Spawn (RancherDeployment.helm_cmd h) (Some (kube_environ w h)) chart].

(** Any [helm] command. *)
Definition is_helm (args : list string) : bool :=
  (nth 0 args "" =? "helm")%string.

(** The events [ev] hold no [helm] command, or hold the events of one call
    of [install] between events without [helm] commands. *)
Definition helm_only_in_install (w : World) (ev : list event) : Prop :=
  Forall (fun e => on_spawn is_helm e = false) ev
  \/ exists pre h hist post,
       ev = pre ++ snd (RancherDeployment.install h w hist) ++ post
       /\ Forall (fun e => on_spawn is_helm e = false) pre
       /\ Forall (fun e => on_spawn is_helm e = false) post.

(** ** Observations on the end of a run *)

(** [n] failed tests of the credential file, each followed by its sleep. *)
Fixpoint failed_tests (n : nat) : list event :=
  match n with
  | O => []
  | S n' => Stat K3sCluster.kcfg false :: Sleep 2 :: failed_tests n'
  end.












(** The last event of a list. *)
Definition last_event (ev : list event) : option event :=
  last (map Some ev) None.

(** A host on which the chart installation fails. *)
Definition chart_failure_world : World :=
  scripted_world 0
    (answer_with RancherDeployment.helm_status_cmd (1%Z, ""%string)
       (answer_with (RancherDeployment.helm_cmd example_host) (1%Z, ""%string)
          healthy_answer))
    everything_present everything_found 0.




(** The rest of [install_or_verify] from the credential wait on. *)
Definition credential_gate (h : HostEnv.t) : M unit :=
  Log.info "Waiting for K3s kubeconfig..." ;;
  found <- K3sCluster.wait_kubeconfig 60 ;;
  (if found then ret tt
   else Log.error K3sCluster.kubeconfig_timeout_msg ;; sys_exit 1) ;;
  K3sCluster._fix_kubeconfig_permissions h ;;
  K3sCluster._wait_nodes_ready.

(** Whether the run printed [line]. *)
Definition printed (line : string) (ev : list event) : bool :=
  existsb (fun e => match e with
                    | Print s => (s =? line)%string
                    | _ => false
                    end) ev.

(** ** Vocabulary of the further properties *)

(** The command lines of the child processes in a list of events, in
    order. *)
Fixpoint spawn_args (ev : list event) : list (list string) :=
  match ev with
  | [] => []
  | Spawn args _ _ :: ev' => args :: spawn_args ev'
  | _ :: ev' => spawn_args ev'
  end.

Definition systemctl_cmd : list string :=
  ["systemctl"; "is-active"; "--quiet"; "k3s"]%string.

(** The command lines that the script hands to [subprocess.run] itself,
    not to its [run] helper: the two [hostname] probes, the [grep] on
    /etc/hosts, the [systemctl] test, and the node, release and pod
    queries. *)
Definition unlogged_command (args : list string) : bool :=
  args_eqb args ["hostname"; "-I"]%string
  || args_eqb args ["hostname"]%string
  || (nth 0 args "" =? "grep")%string
  || args_eqb args systemctl_cmd
  || args_eqb args K3sCluster.get_nodes_cmd
  || args_eqb args RancherDeployment.helm_status_cmd
  || args_eqb args RancherDeployment.get_pods_cmd.

(** Lists of events in which every child process is an unlogged probe or
    comes right after the line that [run] prints for it. *)
Inductive logged : list event -> Prop :=
| logged_nil : logged []
| logged_other e ev :
    on_spawn (fun _ => true) e = false -> logged ev -> logged (e :: ev)
| logged_probe args env cp ev :
    unlogged_command args = true -> logged ev ->
    logged (Spawn args env cp :: ev)
| logged_run cmd env cp ev :
    logged ev ->
    logged (Print (command_line cmd) :: Spawn cmd env cp :: ev).

(** Every event list of [m] in the world [w] is [logged]. *)
Definition logged_in {A} (w : World) (m : M A) : Prop :=
  forall h, logged (snd (m w h)).

(** Number of times the command line [cmd] was started. *)
Definition runs_of (cmd : list string) (ev : list event) : nat :=
  length (outputs_of cmd ev).

(** What [install_or_verify] finds: the K3s service is active and its
    credential file exists (the file is only looked at when the service is
    active). *)
Definition k3s_active (w : World) (hist : history) : bool :=
  let a := completed_of w hist systemctl_cmd false None in
  (returncode a =? 0)%Z
  && path_exists w (hist ++ [Spawn systemctl_cmd None a]) K3sCluster.kcfg.

(** A host without K3s on which the K3s installer fails. *)
Definition k3s_failure_world : World :=
  scripted_world 0
    (answer_with systemctl_cmd (3%Z, ""%string)
       (answer_with K3sCluster.k3s_install_cmd (7%Z, ""%string) healthy_answer))
    everything_present everything_found 0.

(** The answer to the last lookup of the program [name] in a list of
    events. *)
Fixpoint last_which (name : string) (ev : list event)
  : option (option string) :=
  match ev with
  | [] => None
  | Which n r :: ev' =>
      match last_which name ev' with
      | Some x => Some x
      | None => if (n =? name)%string then Some r else None
      end
  | _ :: ev' => last_which name ev'
  end.

Definition shim_target : string := "/usr/local/bin/kubectl".

(** What [ensure_kubectl] finds when it decides to write the shim: no
    [kubectl] on the PATH, a [k3s] binary on it, and no file at the place
    of the shim. *)
Definition shim_wanted (w : World) (hist : history) : bool :=
  let k := shutil_which w hist "kubectl" in
  let h1 := hist ++ [Which "kubectl" k] in
  let k3s := shutil_which w h1 "k3s" in
  let h2 := h1 ++ [Which "k3s" k3s] in
  negb (truthy_opt k) && truthy_opt k3s && negb (path_exists w h2 shim_target).

(** The writes and mode changes in a list of events. *)
Definition is_file_op (e : event) : bool :=
  match e with
  | WriteFile _ _ _ | Chmod _ _ _ => true
  | _ => false
  end.

Definition file_ops (ev : list event) : list event := filter is_file_op ev.

(** The child-process events of a list of events. *)
Definition spawns (ev : list event) : list event :=
  filter (on_spawn (fun _ => true)) ev.

(** The banner that [Log.section] prints. *)
Definition section_line (title : string) : string :=
  (Log.color_of "SECTION" ++ Log.repeat_str "=" 64 ++ Log.NL ++ title
   ++ Log.NL ++ Log.repeat_str "=" 64 ++ Log.color_of "RESET")%string.

(** The host name that [ensure_hosts] reads, and the answer of its
    [grep] on /etc/hosts. *)
Definition hosts_name (w : World) (hist : history) : string :=
  PyStr.strip (stdout (completed_of w hist ["hostname"]%string true None)).

Definition hosts_ip (h : HostEnv.t) : string :=
  PyStr.or_ (HostEnv.primary_ip h) "127.0.1.1".

Definition hosts_grep_cmd (hostname : string) : list string :=
  ["grep"; "-Eq"; "^[0-9A-Fa-f:.]+\s+" ++ hostname ++ "(\s|$)";
   "/etc/hosts"]%string.

Definition hosts_append_cmd (ip hostname : string) : list string :=
  ["bash"; "-c";
   "echo '" ++ (ip ++ " " ++ hostname) ++ "' >> /etc/hosts"]%string.

Definition hosts_grep (h : HostEnv.t) (w : World) (hist : history)
  : CompletedProcess :=
  completed_of w
    (hist ++ [Spawn ["hostname"]%string None
                (completed_of w hist ["hostname"]%string true None);
              Print (Log._stamp "INFO"
                       ("Checking /etc/hosts entry for " ++ hosts_name w hist
                        ++ " (" ++ hosts_ip h ++ ")"))])
    (hosts_grep_cmd (hosts_name w hist)) false None.


(** The command lines of the copy of the credential file, in order. *)
Definition credential_copy_cmds (h : HostEnv.t) : list (list string) :=
  let kube_dir := path_join (HostEnv.user_home h) ".kube" in
  let owner := (HostEnv.user h ++ ":" ++ HostEnv.user h)%string in
  [ ["mkdir"; "-p"; kube_dir];
    ["chown"; "-R"; owner; kube_dir];
    ["chmod"; "700"; kube_dir];
    ["cp"; K3sCluster.kcfg; HostEnv.kubeconfig_path h];
    ["chown"; "-R"; owner; kube_dir];
    ["chmod"; "600"; HostEnv.kubeconfig_path h] ]%string.

(** The answer to [kubectl get nodes] in [verify_cluster]. *)
Definition get_nodes_banner_cmd : list string :=
  ["kubectl"; "get"; "nodes"]%string.

Definition nodes_report (h : HostEnv.t) (w : World) (hist : history)
  : CompletedProcess :=
  completed_of w
    (hist ++ [Print (section_line "Cluster Verification");
              Print (command_line get_nodes_banner_cmd)])
    get_nodes_banner_cmd true
    (Some (env_set "KUBECONFIG" (HostEnv.kubeconfig_path h) (os_environ w))).

Definition healthy_line : string :=
  Log._stamp "SUCCESS" "Cluster appears healthy and responsive.".

Definition unhealthy_line : string :=
  Log._stamp "WARN"
    "Cluster not fully ready, check systemctl status k3s and logs.".

(** A host on which [kubectl get nodes] lists a node that is not ready. *)
Definition banner_not_ready_world : World :=
  scripted_world 0
    (answer_with get_nodes_banner_cmd
       (0%Z, ("NAME    STATUS     ROLES" ++ Log.NL
              ++ "node1   NotReady   control-plane,master" ++ Log.NL)%string)
       healthy_answer)
    everything_present everything_found 0.

(** Events that a run must have seen before it can complete. *)
Definition root_checked (e : event) : bool :=
  match e with GetEuid uid => (uid =? 0)%Z | _ => false end.

Definition credential_seen (e : event) : bool :=
  match e with
  | Stat p true => (p =? K3sCluster.kcfg)%string
  | _ => false
  end.

Definition helm_found (e : event) : bool :=
  match e with
  | Which n p => (n =? "helm")%string && truthy_opt p
  | _ => false
  end.

(** The release query or the chart installation exited with status zero. *)
Definition release_settled (e : event) : bool :=
  match e with
  | Spawn args _ cp =>
      (is_release_query args || is_chart_install args)
      && (returncode cp =? 0)%Z
  | _ => false
  end.

(** When [m] returns in the world [w], its events hold one that satisfies
    [G]. *)
Definition ensures_in {A} (w : World) (G : event -> bool) (m : M A) : Prop :=
  forall h a, fst (m w h) = Return a -> existsb G (snd (m w h)) = true.

(** Every event of [ev] that satisfies [Q] comes after one that satisfies
    [G]. *)
Definition guarded_by (G Q : event -> bool) (ev : list event) : Prop :=
  forall pre e post,
    ev = pre ++ e :: post -> Q e = true -> existsb G pre = true.

(** The events before and after the first one that satisfies [Q]. *)
Fixpoint before (Q : event -> bool) (ev : list event) : list event :=
  match ev with
  | [] => []
  | e :: ev' => if Q e then [] else e :: before Q ev'
  end.

Fixpoint after (Q : event -> bool) (ev : list event) : list event :=
  match ev with
  | [] => []
  | e :: ev' => if Q e then ev' else after Q ev'
  end.

(** Seconds asked of [time.sleep] over a list of events. *)
Fixpoint slept (ev : list event) : Z :=
  match ev with
  | [] => 0
  | Sleep secs :: ev' => secs + slept ev'
  | _ :: ev' => slept ev'
  end.

(** [m] asks for at most [b] seconds of sleep in the world [w]. *)
Definition naps_in {A} (w : World) (b : Z) (m : M A) : Prop :=
  forall h, (slept (snd (m w h)) <= b)%Z.

(** The commands that are handed the environment of [kube_env]: every
    [kubectl], the release query and the chart installation. *)
Definition uses_kubeconfig (args : list string) : bool :=
  (nth 0 args "" =? "kubectl")%string
  || is_release_query args || is_chart_install args.

(** The environment of a child process is the one of [kube_env] for the
    commands above and the inherited one for all others. *)
Definition env_as_expected (w : World) (h : HostEnv.t) (e : event) : Prop :=
  match e with
  | Spawn args env _ =>
      env = if uses_kubeconfig args then Some (kube_environ w h) else None
  | _ => True
  end.

(** Every event that [m] appends in the world [w] satisfies [P]. *)
Definition every_in {A} (w : World) (P : event -> Prop) (m : M A) : Prop :=
  forall hist, Forall P (snd (m w hist)).

(** * Properties *)

(** ** Strings *)

Section StringFacts.
Local Open Scope string_scope.

Lemma append_nil_r (s : string) : s ++ "" = s.
Proof. induction s as [|c s IH]; simpl; [reflexivity | now rewrite IH]. Qed.

Lemma append_assoc (a b c : string) : (a ++ b) ++ c = a ++ (b ++ c).
Proof. induction a as [|x a IH]; simpl; [reflexivity | now rewrite IH]. Qed.

Lemma append_snoc (a : string) (c : ascii) (b : string) :
  (a ++ String c "") ++ b = a ++ String c b.
Proof. now rewrite append_assoc. Qed.

Lemma prefix_iff (n h : string) :
  String.prefix n h = true <-> exists post, h = n ++ post.
Proof.
  revert h; induction n as [|a n IH]; intros h; simpl.
  - destruct h; split; intros _; try reflexivity; eexists; reflexivity.
  - destruct h as [|b h]; simpl.
    + split; [discriminate | intros [post H]; discriminate].
    + destruct (ascii_dec a b) as [->|Hab].
      * rewrite IH. split; intros [post H]; exists post.
        -- now rewrite H.
        -- now inversion H.
      * split; [discriminate|].
intros [post H]. simpl in H. injection H as H1 H2. congruence.
Qed.

(** [needle in hay] holds exactly when [hay] has [needle] as a substring. *)
Lemma contains_iff (n h : string) :
  PyStr.contains n h = true <-> exists pre post, h = pre ++ n ++ post.
Proof.
induction h as [|c h IH].
- assert (E : PyStr.contains n "" = String.prefix n "")
    by (cbn [PyStr.contains]; now destruct (String.prefix n "")).
  rewrite E, prefix_iff. split.
  + intros [post H]. now exists "", post.
  + intros [pre [post H]]. destruct pre; [|discriminate]. now exists post.
- assert (E : PyStr.contains n (String c h)
              = String.prefix n (String c h) || PyStr.contains n h)
    by (cbn [PyStr.contains]; now destruct (String.prefix n (String c h))).
  rewrite E, orb_true_iff, prefix_iff, IH. split.
  + intros [[post H] | [pre [post H]]].
    * now exists "", post.
    * exists (String c pre), post. simpl. now rewrite H.
  + intros [pre [post H]]. destruct pre as [|d pre]; simpl in H.
    * left. now exists post.
    * right. injection H as H1 H2. now exists pre, post.
Qed.

Lemma solid_snoc (a : string) (c : ascii) :
  solid a = true -> PyStr.isspace c = false -> solid (a ++ String c "") = true.
Proof.
  induction a as [|x a IH]; simpl; intros Ha Hc.
  - now rewrite Hc.
  - apply andb_true_iff in Ha as [Hx Ha]. rewrite Hx. simpl. now apply IH.
Qed.

Lemma snoc_not_empty (a : string) (c : ascii) : a ++ String c "" <> "".
Proof. destruct a; discriminate. Qed.

(** With a token under way, [split_from] completes it with the longest
    whitespace-free prefix of the input. *)
Lemma split_from_pending (s cur : string) :
  cur <> "" ->
  exists p rest l,
    PyStr.split_from cur s = (cur ++ p) :: l /\ s = p ++ rest
    /\ solid p = true /\ token_ends rest.
Proof.
  revert cur; induction s as [|c s IH]; intros cur Hcur.
  - exists "", "", []. simpl.
    apply String.eqb_neq in Hcur. rewrite Hcur, append_nil_r.
    repeat split; now left.
  - simpl. destruct (PyStr.isspace c) eqn:Hc.
    + apply String.eqb_neq in Hcur. rewrite Hcur.
      exists "", (String c s), (PyStr.split_from "" s). rewrite append_nil_r.
      repeat split. right; eauto.
    + destruct (IH (cur ++ String c "") (snoc_not_empty cur c))
        as [p [rest [l [H1 [H2 [H3 H4]]]]]].
      exists (String c p), rest, l. rewrite H1, append_snoc.
      repeat split; try assumption.
      * simpl. now rewrite H2.
      * simpl. now rewrite Hc, H3.
Qed.

(** [s.split()] is empty exactly on blank strings; otherwise its head is
    the first token of [s]. *)
Lemma split_first_token (s : string) :
  (blank s = true /\ PyStr.split s = [])
  \/ (blank s = false /\ exists tok l, PyStr.split s = tok :: l /\ first_token tok s).
Proof.
  unfold PyStr.split. induction s as [|c s IH].
  - left; split; reflexivity.
  - simpl. destruct (PyStr.isspace c) eqn:Hc; simpl.
    + destruct IH as [[Hb Hs] | [Hb [tok [l [Hs Hf]]]]].
      * left; split; assumption.
      * right; split; [assumption|]. exists tok, l. split; [assumption|].
        destruct Hf as [ws [rest [H1 [H2 [H3 [H4 H5]]]]]].
        exists (String c ws), rest. simpl. rewrite Hc, H2, H1.
        repeat split; assumption.
    + right; split; [reflexivity|].
      destruct (split_from_pending s (String c "") ltac:(discriminate))
        as [p [rest [l [H1 [H2 [H3 H4]]]]]].
      exists (String c p), l. simpl in H1. split; [exact H1|].
      exists "", rest. simpl. rewrite Hc, H3, H2.
      repeat split; try assumption. discriminate.
Qed.

End StringFacts.

Example splitlines_crlf :
  PyStr.splitlines ("a" ++ String PyStr.CR (String PyStr.LF "b") ++ String PyStr.LF "")
  = ["a"; "b"].
Proof. reflexivity. Qed.

(** ** The monad of runs *)

Section MonadFacts.
Context {A B : Type}.

Lemma bind_Return (m : M A) (f : A -> M B) w h a e1 :
  m w h = (Return a, e1) -> bind m f w h = prepend e1 (f a w (h ++ e1)).
Proof.
unfold bind, prepend. intros ->. now destruct (f a w (h ++ e1)).
Qed.

Lemma bind_Raise (m : M A) (f : A -> M B) w h x e1 :
  m w h = (Raise x, e1) -> bind m f w h = (Raise x, e1).
Proof. unfold bind. now intros ->. Qed.

Lemma bind_OutOfFuel (m : M A) (f : A -> M B) w h e1 :
  m w h = (OutOfFuel, e1) -> bind m f w h = (OutOfFuel, e1).
Proof. unfold bind. now intros ->. Qed.

Lemma bind_ret (a : A) (f : A -> M B) w h : bind (ret a) f w h = f a w h.
Proof.
unfold bind, ret. rewrite app_nil_r. now destruct (f a w h).
Qed.

Lemma bind_assoc {C} (m : M A) (f : A -> M B) (g : B -> M C) w h :
  bind (bind m f) g w h = bind m (fun x => bind (f x) g) w h.
Proof.
unfold bind. destruct (m w h) as [[a|x|] e1]; try reflexivity.
destruct (f a w (h ++ e1)) as [[b|x|] e2]; try reflexivity.
rewrite <- app_assoc. destruct (g b w (h ++ e1 ++ e2)) as [r e3].
now rewrite app_assoc.
Qed.

Lemma fst_prepend e1 (r : result A * list event) : fst (prepend e1 r) = fst r.
Proof. reflexivity. Qed.

Lemma snd_prepend e1 (r : result A * list event) :
  snd (prepend e1 r) = e1 ++ snd r.
Proof. reflexivity. Qed.

Lemma prepend_prepend e1 e2 (r : result A * list event) :
  prepend e1 (prepend e2 r) = prepend (e1 ++ e2) r.
Proof. unfold prepend. simpl. now rewrite app_assoc. Qed.

End MonadFacts.

Section PrimitiveFacts.
Context {B : Type}.

Lemma bind_print s (f : unit -> M B) w h :
  bind (print s) f w h = prepend [Print s] (f tt w (h ++ [Print s])).
Proof. now apply bind_Return. Qed.

Lemma bind_sleep z (f : unit -> M B) w h :
  bind (time_sleep z) f w h = prepend [Sleep z] (f tt w (h ++ [Sleep z])).
Proof. now apply bind_Return. Qed.

Lemma bind_time (f : Q -> M B) w h :
  bind time_now f w h
  = prepend [Clock (time_time w h)]
            (f (time_time w h) w (h ++ [Clock (time_time w h)])).
Proof. now apply bind_Return. Qed.

Lemma bind_exists p (f : bool -> M B) w h :
  bind (exists_ p) f w h
  = prepend [Stat p (path_exists w h p)]
            (f (path_exists w h p) w (h ++ [Stat p (path_exists w h p)])).
Proof. now apply bind_Return. Qed.

Lemma bind_which n (f : option string -> M B) w h :
  bind (which n) f w h
  = prepend [Which n (shutil_which w h n)]
            (f (shutil_which w h n) w (h ++ [Which n (shutil_which w h n)])).
Proof. now apply bind_Return. Qed.

Lemma bind_geteuid (f : Z -> M B) w h :
  bind geteuid f w h
  = prepend [GetEuid (os_geteuid w)]
            (f (os_geteuid w) w (h ++ [GetEuid (os_geteuid w)])).
Proof. now apply bind_Return. Qed.

Lemma bind_get_environ (f : environ -> M B) w h :
  bind get_environ f w h = f (os_environ w) w h.
Proof. apply (bind_ret (os_environ w)). Qed.


Lemma subprocess_run_unchecked args capture env w h :
  subprocess_run args false capture env w h
  = (Return (completed_of w h args capture env),
     [Spawn args env (completed_of w h args capture env)]).
Proof.
unfold subprocess_run, completed_of. now destruct (spawn w h args env).
Qed.

Lemma subprocess_run_checked args capture env w h :
  subprocess_run args true capture env w h
  = let cp := completed_of w h args capture env in
    if (returncode cp =? 0)%Z
    then (Return cp, [Spawn args env cp])
    else (Raise (CalledProcessError (returncode cp) args), [Spawn args env cp]).
Proof.
unfold subprocess_run, completed_of. destruct (spawn w h args env) as [rc out].
simpl. now destruct (rc =? 0)%Z.
Qed.

Lemma bind_subprocess_run_unchecked args capture env (f : CompletedProcess -> M B) w h :
  bind (subprocess_run args false capture env) f w h
  = let cp := completed_of w h args capture env in
    prepend [Spawn args env cp] (f cp w (h ++ [Spawn args env cp])).
Proof. apply bind_Return, subprocess_run_unchecked. Qed.

End PrimitiveFacts.

(** ** Primary address detection *)

Lemma length_append (a b : string) :
  String.length (a ++ b) = String.length a + String.length b.
Proof. induction a as [|c a IH]; simpl; [reflexivity | now rewrite IH]. Qed.

(** C10, as stated, fails: the output of [hostname -I] on a host without
    addresses is a single newline, which is not empty, has no token, and
    yields the loopback address. *)
Lemma primary_ip_blank_output_counterexample :
  ~ (forall out : string,
       out <> ""%string ->
       first_token (HostEnv.primary_ip_of_output out) out).
Proof.
intros H. specialize (H Log.NL ltac:(discriminate)).
destruct H as [ws [rest [H _]]].
apply (f_equal String.length) in H.
rewrite !length_append in H. simpl in H. lia.
Qed.

(** C10 (amended): primary-IP detection returns the first
    whitespace-separated token of the captured output when the output has a
    character that is not whitespace, and "127.0.0.1" when the output is
    empty or whitespace only; the exit status of the probe is not
    consulted. *)
Theorem primary_ip_detection :
  (forall out, blank out = false ->
               first_token (HostEnv.primary_ip_of_output out) out)
  /\ (forall out, blank out = true ->
                  HostEnv.primary_ip_of_output out = "127.0.0.1"%string)
  /\ (forall w h,
        HostEnv._detect_primary_ip w h
        = (Return (HostEnv.primary_ip_of_output
                     (snd (spawn w h ["hostname"; "-I"]%string None))),
           [Spawn ["hostname"; "-I"]%string None
              (completed_of w h ["hostname"; "-I"]%string true None)])).
Proof.
assert (Hor : forall out, PyStr.or_ out "" = out).
{ intros out. unfold PyStr.or_, PyStr.truthy. now destruct out. }
split; [|split].
- intros out Hb. unfold HostEnv.primary_ip_of_output. rewrite Hor.
  destruct (split_first_token out) as [[Hb' _] | [_ [tok [l [Hs Hf]]]]].
  + congruence.
  + now rewrite Hs.
- intros out Hb. unfold HostEnv.primary_ip_of_output. rewrite Hor.
  destruct (split_first_token out) as [[_ Hs] | [Hb' _]].
  + now rewrite Hs.
  + congruence.
- intros w h. unfold HostEnv._detect_primary_ip.
  rewrite bind_subprocess_run_unchecked. reflexivity.
Qed.

Lemma primary_ip_detection_witness :
  first_token "192.168.1.10" "192.168.1.10 10.0.0.7 "
  /\ HostEnv.primary_ip_of_output "  " = "127.0.0.1"%string.
Proof.
split.
- exact (proj1 primary_ip_detection "192.168.1.10 10.0.0.7 "%string eq_refl).
- exact (proj1 (proj2 primary_ip_detection) "  "%string eq_refl).
Defined.

(** ** Observations in a list of events *)

Lemma args_eqb_refl (a : list string) : args_eqb a a = true.
Proof.
induction a as [|x a IH]; simpl; [reflexivity|].
now rewrite String.eqb_refl, IH.
Qed.

Lemma args_eqb_eq (a b : list string) : args_eqb a b = true <-> a = b.
Proof.
revert b; induction a as [|x a IH]; intros [|y b]; simpl;
  try (split; [discriminate | discriminate]); try tauto.
rewrite andb_true_iff, String.eqb_eq, IH. split.
- now intros [-> ->].
- intros H; now inversion H.
Qed.

Lemma outputs_of_app cmd (a b : list event) :
  outputs_of cmd (a ++ b) = outputs_of cmd a ++ outputs_of cmd b.
Proof.
induction a as [|e a IH]; simpl; [reflexivity|].
destruct e; try assumption.
destruct (args_eqb args cmd); simpl; now rewrite IH.
Qed.

Lemma sleeps_app (a b : list event) : sleeps (a ++ b) = sleeps a + sleeps b.
Proof.
induction a as [|e a IH]; simpl; [reflexivity|].
destruct e; simpl; now rewrite IH.
Qed.

Lemma stats_of_app p (a b : list event) :
  stats_of p (a ++ b) = stats_of p a + stats_of p b.
Proof.
induction a as [|e a IH]; simpl; [reflexivity|].
destruct e; try assumption.
destruct (path =? p)%string; simpl; now rewrite IH.
Qed.

(** ** Set-based convergence: the pod-phase wait *)

Lemma phases_converged_iff (phases : list string) :
  RancherDeployment.phases_converged phases = true
  <-> phases <> [] /\ (forall p, In p phases -> p = "Running"%string).
Proof.
unfold RancherDeployment.phases_converged.
destruct phases as [|p0 l].
- split; [discriminate | intros [H _]; now elim H].
- rewrite forallb_forall. split.
  + intros H. split; [discriminate|].
    intros p Hp. now apply String.eqb_eq, H.
  + intros [_ H] p Hp. now apply String.eqb_eq, H.
Qed.

Lemma poll_pods_step fuel e deadline w h :
  RancherDeployment.poll_pods (S fuel) e deadline w h
  = let now := time_time w h in
    let h1 := h ++ [Clock now] in
    let cp := completed_of w h1 RancherDeployment.get_pods_cmd true (Some e) in
    let sp := Spawn RancherDeployment.get_pods_cmd (Some e) cp in
    if RancherDeployment.Qltb now deadline then
      if RancherDeployment.phases_converged
           (RancherDeployment.phases_of (stdout cp))
      then (Return true,
            [Clock now; sp;
             Print (Log._stamp "SUCCESS" "Rancher pods are Running.")])
      else prepend [Clock now; sp; Sleep 3]
             (RancherDeployment.poll_pods fuel e deadline w
                (h ++ [Clock now; sp; Sleep 3]))
    else (Return false, [Clock now]).
Proof.
cbn [RancherDeployment.poll_pods]. rewrite bind_time. cbv zeta.
destruct (RancherDeployment.Qltb (time_time w h) deadline).
- rewrite bind_subprocess_run_unchecked. cbv zeta.
  destruct (RancherDeployment.phases_converged _).
  + unfold Log.success. rewrite bind_print. reflexivity.
  + rewrite bind_sleep, !prepend_prepend, <- !app_assoc. reflexivity.
- reflexivity.
Qed.

(** The pod-phase loop returns from inside exactly when one of the outputs
    it observed yields a converged list of phases. *)
Lemma poll_pods_true_iff fuel e deadline w h :
  fst (RancherDeployment.poll_pods fuel e deadline w h) = Return true
  <-> exists out,
        In out (outputs_of RancherDeployment.get_pods_cmd
                  (snd (RancherDeployment.poll_pods fuel e deadline w h)))
        /\ RancherDeployment.phases_converged
             (RancherDeployment.phases_of out) = true.
Proof.
revert h. induction fuel as [|fuel IH]; intros h.
- simpl. split; [discriminate | intros [out [[] _]]].
- rewrite poll_pods_step. cbv zeta.
  destruct (RancherDeployment.Qltb (time_time w h) deadline).
  + set (cp := completed_of _ _ _ _ _).
    destruct (RancherDeployment.phases_converged
                (RancherDeployment.phases_of (stdout cp))) eqn:Hc.
    * simpl. split; [intros _ | reflexivity].
      exists (stdout cp). split; [now left | exact Hc].
    * rewrite fst_prepend, snd_prepend, outputs_of_app.
      cbn [outputs_of]. rewrite args_eqb_refl. cbn [app In].
      rewrite IH. split.
      -- intros [out [Hin Hout]]. exists out. split; [now right | exact Hout].
      -- intros [out [[Heq | Hin] Hout]].
         ++ subst out. congruence.
         ++ now exists out.
  + simpl. split; [discriminate | intros [out [[] _]]].
Qed.

(** C4: the set-based wait converges exactly on a non-empty list of phases
    whose entries all equal "Running"; the three lists of the specification
    behave as it says; and the pod-phase wait returns from inside its loop
    exactly when one of the outputs it observed yields such a list. *)
Theorem pod_phase_convergence :
  (forall phases,
     RancherDeployment.phases_converged phases = true
     <-> phases <> [] /\ Forall (fun p => p = "Running"%string) phases)
  /\ RancherDeployment.phases_converged ["Running"; "Running"]%string = true
  /\ RancherDeployment.phases_converged ["Running"; "Pending"]%string = false
  /\ RancherDeployment.phases_converged [] = false
  /\ (forall fuel e deadline w h,
        let r := RancherDeployment.poll_pods fuel e deadline w h in
        fst r = Return true
        <-> exists out,
              In out (outputs_of RancherDeployment.get_pods_cmd (snd r))
              /\ RancherDeployment.phases_converged
                   (RancherDeployment.phases_of out) = true).
Proof.
split; [|split; [reflexivity | split; [reflexivity | split; [reflexivity|]]]].
- intros phases. rewrite phases_converged_iff, Forall_forall. tauto.
- intros fuel e deadline w h r. apply poll_pods_true_iff.
Qed.

Lemma pod_phase_convergence_witness :
  RancherDeployment.phases_converged ["Running"]%string = true.
Proof.
apply (proj1 pod_phase_convergence).
split; [discriminate | repeat constructor].
Defined.

(** ** Count-based convergence: the node-readiness wait *)

Lemma filter_length_all {X} (f : X -> bool) (l : list X) :
  length (filter f l) = length l <-> (forall x, In x l -> f x = true).
Proof.
induction l as [|a l IH]; simpl.
- split; [intros _ x [] | reflexivity].
- pose proof (filter_length_le f l) as Hle.
  destruct (f a) eqn:Ha; simpl.
  + split.
    * intros H x [<- | Hx]; [assumption|]. apply IH; [lia | assumption].
    * intros H. f_equal. apply IH. intros x Hx. apply H. now right.
  + split; [lia|]. intros H. specialize (H a (or_introl eq_refl)). congruence.
Qed.

Lemma nodes_converged_iff (out : string) :
  K3sCluster.nodes_converged out = true
  <-> 0 < K3sCluster.total_of out
      /\ K3sCluster.ready_of out = K3sCluster.total_of out.
Proof.
unfold K3sCluster.nodes_converged.
now rewrite andb_true_iff, Nat.ltb_lt, Nat.eqb_eq.
Qed.

Lemma wait_nodes_loop_step n w h :
  K3sCluster.wait_nodes_loop (S n) w h
  = let cp := completed_of w h K3sCluster.get_nodes_cmd true None in
    let sp := Spawn K3sCluster.get_nodes_cmd None cp in
    if K3sCluster.nodes_converged (stdout cp) then
      (Return true,
       [sp;
        Print (Log._stamp "SUCCESS"
                 ("All " ++ PyStr.of_nat (K3sCluster.ready_of (stdout cp))
                  ++ "/" ++ PyStr.of_nat (K3sCluster.total_of (stdout cp))
                  ++ " nodes Ready."))])
    else prepend [sp; Sleep 2]
           (K3sCluster.wait_nodes_loop n w (h ++ [sp; Sleep 2])).
Proof.
cbn [K3sCluster.wait_nodes_loop].
rewrite bind_subprocess_run_unchecked. cbv zeta.
destruct (K3sCluster.nodes_converged _).
- unfold Log.success. rewrite bind_print. reflexivity.
- rewrite bind_sleep, !prepend_prepend, <- !app_assoc. reflexivity.
Qed.

(** The loop always returns: its answer is [true] or [false]. *)
Lemma wait_nodes_loop_returns n w h :
  fst (K3sCluster.wait_nodes_loop n w h) = Return true
  \/ fst (K3sCluster.wait_nodes_loop n w h) = Return false.
Proof.
revert h; induction n as [|n IH]; intros h.
- now right.
- rewrite wait_nodes_loop_step. cbv zeta.
  destruct (K3sCluster.nodes_converged _); [now left|].
  rewrite fst_prepend. apply IH.
Qed.

(** A node probe that never converges uses the whole budget: [n] probes,
    [n] sleeps, and the answer [false]. *)
Lemma wait_nodes_loop_exhausted n w :
  (forall h', K3sCluster.nodes_converged
                (snd (spawn w h' K3sCluster.get_nodes_cmd None)) = false) ->
  forall h,
    fst (K3sCluster.wait_nodes_loop n w h) = Return false
    /\ length (outputs_of K3sCluster.get_nodes_cmd
                 (snd (K3sCluster.wait_nodes_loop n w h))) = n
    /\ sleeps (snd (K3sCluster.wait_nodes_loop n w h)) = n.
Proof.
intros Hnever. induction n as [|n IH]; intros h.
- repeat split.
- rewrite wait_nodes_loop_step. cbv zeta.
  change (stdout (completed_of w h K3sCluster.get_nodes_cmd true None))
    with (snd (spawn w h K3sCluster.get_nodes_cmd None)).
  rewrite Hnever, fst_prepend, snd_prepend, outputs_of_app, sleeps_app.
  rewrite List.length_app.
  destruct (IH (h ++ [Spawn K3sCluster.get_nodes_cmd None
                        (completed_of w h K3sCluster.get_nodes_cmd true None);
                      Sleep 2])) as [H1 [H2 H3]].
  rewrite H1, H2, H3. cbn [outputs_of sleeps]. rewrite args_eqb_refl.
  repeat split.
Qed.

Lemma wait_nodes_ready_unfold w h :
  K3sCluster._wait_nodes_ready w h
  = let line := Print (Log._stamp "INFO"
                         "Checking node readiness (2 min timeout)...") in
    let r := K3sCluster.wait_nodes_loop 60 w (h ++ [line]) in
    match fst r with
    | Return true => (Return tt, line :: snd r)
    | Return false =>
        (Return tt,
         line :: snd r
         ++ [Print (Log._stamp "WARN" K3sCluster.nodes_timeout_msg)])
    | Raise x => (Raise x, line :: snd r)
    | OutOfFuel => (OutOfFuel, line :: snd r)
    end.
Proof.
unfold K3sCluster._wait_nodes_ready, Log.info. rewrite bind_print. cbv zeta.
unfold bind.
destruct (K3sCluster.wait_nodes_loop 60 w _) as [[[|]| x |] ev];
  cbn [fst snd prepend app]; try reflexivity.
unfold ret. now rewrite app_nil_r.
Qed.

(** C2: the count-based wait returns from inside its loop exactly when one
    of the outputs it observed has [total > 0] and [matching = total]; a
    probe that always reports no node never converges, whatever the budget;
    a probe that reports three nodes, all matching, on the first attempt
    converges without any sleep; [_wait_nodes_ready] is this loop with a
    budget of 60, after its first line and before its warning. *)
Theorem nodes_wait_convergence :
  (forall n w h,
     let r := K3sCluster.wait_nodes_loop n w h in
     (fst r = Return true \/ fst r = Return false)
     /\ (fst r = Return true
         <-> exists out,
               In out (outputs_of K3sCluster.get_nodes_cmd (snd r))
               /\ 0 < K3sCluster.total_of out
               /\ K3sCluster.ready_of out = K3sCluster.total_of out))
  /\ (forall n w h,
        (forall h', K3sCluster.total_of
                      (snd (spawn w h' K3sCluster.get_nodes_cmd None)) = 0) ->
        fst (K3sCluster.wait_nodes_loop n w h) = Return false)
  /\ (forall n w h,
        K3sCluster.total_of (snd (spawn w h K3sCluster.get_nodes_cmd None)) = 3 ->
        K3sCluster.ready_of (snd (spawn w h K3sCluster.get_nodes_cmd None)) = 3 ->
        fst (K3sCluster.wait_nodes_loop (S n) w h) = Return true
        /\ sleeps (snd (K3sCluster.wait_nodes_loop (S n) w h)) = 0)
  /\ (forall w h,
        let line := Print (Log._stamp "INFO"
                             "Checking node readiness (2 min timeout)...") in
        let r := K3sCluster.wait_nodes_loop 60 w (h ++ [line]) in
        fst (K3sCluster._wait_nodes_ready w h) = Return tt
        /\ exists tail,
             snd (K3sCluster._wait_nodes_ready w h) = line :: snd r ++ tail
             /\ (fst r = Return true /\ tail = []
                 \/ fst r = Return false
                    /\ tail = [Print (Log._stamp "WARN"
                                        K3sCluster.nodes_timeout_msg)])).
Proof.
split; [|split; [|split]]; cycle 3.
{ intros w h line r. rewrite wait_nodes_ready_unfold. cbv zeta.
  fold line. fold r.
  destruct (wait_nodes_loop_returns 60 w (h ++ [line])) as [H | H];
    fold r in H; rewrite H; cbn [fst snd]; split; try reflexivity.
  - exists []. rewrite app_nil_r. split; [reflexivity | now left].
  - eexists. split; [reflexivity | now right]. }
- intros n w h r. split; [apply wait_nodes_loop_returns|].
  subst r. revert h. induction n as [|n IH]; intros h.
  + simpl. split; [discriminate | intros [out [[] _]]].
  + rewrite wait_nodes_loop_step. cbv zeta.
    set (cp := completed_of _ _ _ _ _).
    destruct (K3sCluster.nodes_converged (stdout cp)) eqn:Hc.
    * simpl. split; [intros _ | reflexivity].
      exists (stdout cp). split; [now left | now apply nodes_converged_iff].
    * rewrite fst_prepend, snd_prepend, outputs_of_app.
      cbn [outputs_of]. rewrite args_eqb_refl. cbn [app In].
      rewrite IH. split.
      -- intros [out [Hin Hout]]. exists out. split; [now right | exact Hout].
      -- intros [out [[Heq | Hin] Hout]].
         ++ subst out. apply nodes_converged_iff in Hout. congruence.
         ++ now exists out.
- intros n w h Hzero. apply wait_nodes_loop_exhausted.
  intros h'. unfold K3sCluster.nodes_converged. now rewrite Hzero.
- intros n w h Ht Hr. rewrite wait_nodes_loop_step. cbv zeta.
  change (stdout (completed_of w h K3sCluster.get_nodes_cmd true None))
    with (snd (spawn w h K3sCluster.get_nodes_cmd None)).
  unfold K3sCluster.nodes_converged. rewrite Ht, Hr. simpl. split; reflexivity.
Qed.

Lemma nodes_wait_convergence_witness :
  fst (K3sCluster.wait_nodes_loop 60 no_nodes_world []) = Return false
  /\ fst (K3sCluster.wait_nodes_loop 60 three_nodes_world []) = Return true
  /\ sleeps (snd (K3sCluster.wait_nodes_loop 60 three_nodes_world [])) = 0.
Proof.
split.
- apply (proj1 (proj2 nodes_wait_convergence) 60 no_nodes_world []).
  intros h'. reflexivity.
- apply (proj1 (proj2 (proj2 nodes_wait_convergence)) 59 three_nodes_world []);
    reflexivity.
Defined.

(** C9: a line counts as matching exactly when "Ready" occurs somewhere in
    it, so the count equals the total exactly when every line has that
    substring; an observation with at least one line, all of whose lines
    contain "Ready", converges, and so does one whose lines all contain
    "NotReady": the wait returns on that attempt without sleeping (two
    nodes reporting NotReady converge; an observation without lines does
    not). *)
Theorem ready_substring_match :
  (forall l, PyStr.contains "Ready" l = true
             <-> exists pre post, l = (pre ++ "Ready" ++ post)%string)
  /\ (forall out,
        K3sCluster.ready_of out = K3sCluster.total_of out
        <-> forall l, In l (K3sCluster.node_lines out) ->
                      exists pre post, l = (pre ++ "Ready" ++ post)%string)
  /\ (forall out,
        K3sCluster.node_lines out <> [] ->
        (forall l, In l (K3sCluster.node_lines out) ->
                   exists pre post, l = (pre ++ "Ready" ++ post)%string) ->
        K3sCluster.nodes_converged out = true)
  /\ (forall n w h,
        let out := snd (spawn w h K3sCluster.get_nodes_cmd None) in
        K3sCluster.node_lines out <> [] ->
        (forall l, In l (K3sCluster.node_lines out) ->
                   exists pre post, l = (pre ++ "NotReady" ++ post)%string) ->
        fst (K3sCluster.wait_nodes_loop (S n) w h) = Return true
        /\ sleeps (snd (K3sCluster.wait_nodes_loop (S n) w h)) = 0)
  /\ K3sCluster.nodes_converged not_ready_output = true
  /\ K3sCluster.nodes_converged "" = false.
Proof.
assert (Hcount : forall out,
          K3sCluster.ready_of out = K3sCluster.total_of out
          <-> forall l, In l (K3sCluster.node_lines out) ->
                        exists pre post, l = (pre ++ "Ready" ++ post)%string).
{ intros out. unfold K3sCluster.ready_of, K3sCluster.total_of.
  rewrite filter_length_all. split; intros H l Hl.
  - now apply contains_iff, H.
  - now apply contains_iff, H. }
assert (Hconv : forall out,
          K3sCluster.node_lines out <> [] ->
          (forall l, In l (K3sCluster.node_lines out) ->
                     exists pre post, l = (pre ++ "Ready" ++ post)%string) ->
          K3sCluster.nodes_converged out = true).
{ intros out Hne Hall. apply nodes_converged_iff. split.
  - unfold K3sCluster.total_of.
    destruct (K3sCluster.node_lines out); [now elim Hne | simpl; lia].
  - now apply Hcount. }
split; [intros l; apply contains_iff | split; [exact Hcount | split; [exact Hconv|]]].
split; [|split; reflexivity].
intros n w h out Hne Hall.
rewrite wait_nodes_loop_step. cbv zeta.
change (stdout (completed_of w h K3sCluster.get_nodes_cmd true None)) with out.
rewrite Hconv; [split; reflexivity | exact Hne |].
intros l Hl. destruct (Hall l Hl) as [pre [post ->]].
exists (pre ++ "Not")%string, post. now rewrite append_assoc.
Qed.

Lemma ready_substring_match_witness :
  fst (K3sCluster.wait_nodes_loop 60 not_ready_world []) = Return true
  /\ sleeps (snd (K3sCluster.wait_nodes_loop 60 not_ready_world [])) = 0.
Proof.
apply (proj1 (proj2 (proj2 (proj2 ready_substring_match))) 59 not_ready_world []).
- discriminate.
- intros l [<- | [<- | []]].
  + now exists "node1   "%string,
               "   control-plane,master   5m   v1.28.2+k3s1"%string.
  + now exists "node2   "%string,
               "   <none>                 4m   v1.28.2+k3s1"%string.
Defined.

(** ** The [run] helper *)

Section RunFacts.
Context {B : Type}.

Lemma run_unchecked cmd capture env w h :
  run cmd false capture env None w h
  = let cp := completed_of w (h ++ [Print (command_line cmd)]) cmd capture env in
    (Return cp, [Print (command_line cmd); Spawn cmd env cp]).
Proof.
unfold run, Log.info. rewrite bind_print, subprocess_run_unchecked. reflexivity.
Qed.

Lemma run_checked cmd capture env w h :
  run cmd true capture env None w h
  = let cp := completed_of w (h ++ [Print (command_line cmd)]) cmd capture env in
    if (returncode cp =? 0)%Z
    then (Return cp, [Print (command_line cmd); Spawn cmd env cp])
    else (Raise (CalledProcessError (returncode cp) cmd),
          [Print (command_line cmd); Spawn cmd env cp]).
Proof.
unfold run, Log.info. rewrite bind_print, subprocess_run_checked. cbv zeta.
now destruct (returncode _ =? 0)%Z.
Qed.

Lemma bind_run_unchecked cmd capture env (f : CompletedProcess -> M B) w h :
  bind (run cmd false capture env None) f w h
  = let cp := completed_of w (h ++ [Print (command_line cmd)]) cmd capture env in
    prepend [Print (command_line cmd); Spawn cmd env cp]
      (f cp w (h ++ [Print (command_line cmd); Spawn cmd env cp])).
Proof. apply bind_Return, run_unchecked. Qed.

Lemma bind_run_checked cmd capture env (f : CompletedProcess -> M B) w h :
  bind (run cmd true capture env None) f w h
  = let cp := completed_of w (h ++ [Print (command_line cmd)]) cmd capture env in
    if (returncode cp =? 0)%Z
    then prepend [Print (command_line cmd); Spawn cmd env cp]
           (f cp w (h ++ [Print (command_line cmd); Spawn cmd env cp]))
    else (Raise (CalledProcessError (returncode cp) cmd),
          [Print (command_line cmd); Spawn cmd env cp]).
Proof.
cbv zeta. pose proof (run_checked cmd capture env w h) as H. cbv zeta in H.
destruct (returncode _ =? 0)%Z.
- now apply bind_Return.
- now apply bind_Raise.
Qed.

End RunFacts.

(** ** The wait for Rancher *)

Lemma prepend_nil {A} (r : result A * list event) : prepend [] r = r.
Proof. now destruct r. Qed.

Lemma bind_kube_env {B} h (f : environ -> M B) w hist :
  bind (HostEnv.kube_env h) f w hist
  = f (env_set "KUBECONFIG" (HostEnv.kubeconfig_path h) (os_environ w)) w hist.
Proof.
rewrite (bind_Return _ _ _ _
           (env_set "KUBECONFIG" (HostEnv.kubeconfig_path h) (os_environ w)) []).
- now rewrite prepend_nil, app_nil_r.
- unfold HostEnv.kube_env. now rewrite bind_get_environ.
Qed.

Lemma Qltb_true (a b : Q) : RancherDeployment.Qltb a b = true <-> (a < b)%Q.
Proof.
unfold RancherDeployment.Qltb. rewrite negb_true_iff. split.
- intros H. apply Qnot_le_lt. intros Hle.
  apply Qle_bool_iff in Hle. congruence.
- intros H. destruct (Qle_bool b a) eqn:E; [|reflexivity].
  apply Qle_bool_iff in E. now apply Qle_not_lt in E.
Qed.

Lemma Qltb_false (a b : Q) : RancherDeployment.Qltb a b = false <-> (b <= a)%Q.
Proof.
unfold RancherDeployment.Qltb. rewrite negb_false_iff. apply Qle_bool_iff.
Qed.

Lemma budget_succ (k : nat) :
  (inject_Z (3 * Z.of_nat (S k)) == inject_Z (3 * Z.of_nat k) + 3)%Q.
Proof.
replace (3 * Z.of_nat (S k))%Z with (3 * Z.of_nat k + 3)%Z by lia.
now rewrite inject_Z_plus.
Qed.

(** Under a clock that moves forward, and by at least three seconds with
    every sleep of the loop, the pod-phase loop ends within [k] probes when
    the deadline is at most [3 * k] seconds away, whatever the probes say,
    as soon as the fuel exceeds [k]. *)
Lemma poll_pods_terminates w e deadline :
  clock_monotone w -> sleep_elapses w ->
  forall k h fuel,
    (deadline - time_time w h <= inject_Z (3 * Z.of_nat k))%Q ->
    k < fuel ->
    (fst (RancherDeployment.poll_pods fuel e deadline w h) = Return true
     \/ fst (RancherDeployment.poll_pods fuel e deadline w h) = Return false)
    /\ length (outputs_of RancherDeployment.get_pods_cmd
                 (snd (RancherDeployment.poll_pods fuel e deadline w h))) <= k.
Proof.
intros Hmono Hsleep. induction k as [|k IH]; intros h fuel Hk Hfuel.
- destruct fuel as [|fuel]; [lia|].
  rewrite poll_pods_step. cbv zeta.
  assert (E : RancherDeployment.Qltb (time_time w h) deadline = false).
  { apply Qltb_false. simpl in Hk. change (inject_Z 0) with 0%Q in Hk. lra. }
  rewrite E. simpl. split; [now right | lia].
- destruct fuel as [|fuel]; [lia|].
  rewrite poll_pods_step. cbv zeta.
  destruct (RancherDeployment.Qltb (time_time w h) deadline) eqn:E.
  + set (cp := completed_of _ _ _ _ _).
    destruct (RancherDeployment.phases_converged _).
    * cbn [fst snd outputs_of]. rewrite args_eqb_refl. simpl. split; [now left | lia].
    * rewrite fst_prepend, snd_prepend, outputs_of_app, List.length_app.
      cbn [outputs_of]. rewrite args_eqb_refl. cbn [length].
      set (h' := h ++ _).
      assert (Hk' : (deadline - time_time w h' <= inject_Z (3 * Z.of_nat k))%Q).
      { rewrite budget_succ in Hk.
        pose proof (Hmono h [Clock (time_time w h);
                             Spawn RancherDeployment.get_pods_cmd (Some e) cp]) as H1.
        pose proof (Hsleep (h ++ [Clock (time_time w h);
                                  Spawn RancherDeployment.get_pods_cmd (Some e) cp])
                           3%Z) as H2.
        rewrite <- app_assoc in H2. cbn [app] in H2. fold h' in H2.
        change (inject_Z 3) with 3%Q in H2. lra. }
      destruct (IH h' fuel Hk' ltac:(lia)) as [H1 H2].
      split; [exact H1 | lia].
  + simpl. split; [now right | lia].
Qed.


Lemma wait_ready_unfold fuel h timeout_sec w hist :
  RancherDeployment.wait_ready fuel h timeout_sec w hist
  = let cmd := RancherDeployment.rollout_cmd timeout_sec in
    let cp := rollout_result w h timeout_sec hist in
    if (returncode cp =? 0)%Z then
      (Return tt,
       [Print waiting_line; Print (command_line cmd);
        Spawn cmd (Some (kube_environ w h)) cp;
        Print (Log._stamp "SUCCESS" "Rancher deployment is ready.")])
    else
      let r := fallback_poll fuel w h timeout_sec hist in
      match fst r with
      | Return true => (Return tt, fallback_prefix w h timeout_sec hist ++ snd r)
      | Return false =>
          (Return tt,
           fallback_prefix w h timeout_sec hist ++ snd r
           ++ [Print (Log._stamp "WARN" RancherDeployment.not_ready_msg)])
      | Raise x => (Raise x, fallback_prefix w h timeout_sec hist ++ snd r)
      | OutOfFuel => (OutOfFuel, fallback_prefix w h timeout_sec hist ++ snd r)
      end.
Proof.
unfold RancherDeployment.wait_ready. rewrite bind_kube_env.
fold (kube_environ w h). unfold Log.info at 1. rewrite bind_print.
fold waiting_line. cbv zeta.
set (e := kube_environ w h).
set (cmd := RancherDeployment.rollout_cmd timeout_sec).
set (h1 := hist ++ [Print waiting_line]).
assert (Hbody :
  try_except
    (run cmd true false (Some e) None ;;
     Log.success "Rancher deployment is ready." ;; ret true)
    is_CalledProcessError
    (fun _ => Log.warn RancherDeployment.rollout_warn_msg ;; ret false) w h1
  = let cp := completed_of w (h1 ++ [Print (command_line cmd)]) cmd false (Some e) in
    if (returncode cp =? 0)%Z
    then (Return true,
          [Print (command_line cmd); Spawn cmd (Some e) cp;
           Print (Log._stamp "SUCCESS" "Rancher deployment is ready.")])
    else (Return false,
          [Print (command_line cmd); Spawn cmd (Some e) cp;
           Print (Log._stamp "WARN" RancherDeployment.rollout_warn_msg)])).
{ unfold try_except. rewrite bind_run_checked. cbv zeta.
  destruct (returncode _ =? 0)%Z.
  - unfold Log.success. rewrite bind_print. reflexivity.
  - cbn [is_CalledProcessError]. unfold Log.warn. rewrite bind_print.
    reflexivity. }
cbv zeta in Hbody. subst e cmd h1.
rewrite <- !app_assoc in Hbody. cbn [app] in Hbody.
change (completed_of w
          (hist ++ [Print waiting_line;
                    Print (command_line (RancherDeployment.rollout_cmd timeout_sec))])
          (RancherDeployment.rollout_cmd timeout_sec) false
          (Some (kube_environ w h)))
  with (rollout_result w h timeout_sec hist) in Hbody.
destruct (returncode (rollout_result w h timeout_sec hist) =? 0)%Z eqn:Hrc.
- rewrite (bind_Return _ _ _ _ _ _ Hbody). reflexivity.
- rewrite (bind_Return _ _ _ _ _ _ Hbody). cbv beta iota.
  rewrite bind_time. cbv zeta.
  rewrite prepend_prepend.
  unfold fallback_poll, fallback_prefix, fallback_start.
  rewrite <- !app_assoc. cbn [app].
  set (start := time_time w _).
  rewrite prepend_prepend. cbn [app]. unfold bind.
  set (poll := RancherDeployment.poll_pods _ _ _ _ _).
  destruct poll as [[[|]| x |] ev]; cbn [fst snd prepend app].
  + unfold ret. now rewrite ?app_nil_r.
  + unfold Log.warn, print. reflexivity.
  + reflexivity.
  + reflexivity.
Qed.

(** ** Steps that always return *)

Section Returns.
Variable w : World.

Lemma returns_ret {A} (a : A) : returns_in w (ret a).
Proof. intros h. now exists a. Qed.

Lemma returns_bind {A B} (m : M A) (f : A -> M B) :
  returns_in w m -> (forall a, returns_in w (f a)) -> returns_in w (bind m f).
Proof.
intros Hm Hf h. destruct (Hm h) as [a Ha].
destruct (m w h) as [r e1] eqn:E. simpl in Ha. subst r.
rewrite (bind_Return _ _ _ _ _ _ E), fst_prepend. apply Hf.
Qed.

Lemma returns_print s : returns_in w (print s).
Proof. intros h. now exists tt. Qed.

Lemma returns_sleep z : returns_in w (time_sleep z).
Proof. intros h. now exists tt. Qed.

Lemma returns_time : returns_in w time_now.
Proof. intros h. now eexists. Qed.

Lemma returns_exists p : returns_in w (exists_ p).
Proof. intros h. now eexists. Qed.

Lemma returns_which n : returns_in w (which n).
Proof. intros h. now eexists. Qed.

Lemma returns_get_environ : returns_in w get_environ.
Proof. intros h. now eexists. Qed.

Lemma returns_get_script_dir : returns_in w get_script_dir.
Proof. intros h. now eexists. Qed.

Lemma returns_subprocess_run args capture env :
  returns_in w (subprocess_run args false capture env).
Proof. intros h. rewrite subprocess_run_unchecked. now eexists. Qed.

Lemma returns_run cmd capture env :
  returns_in w (run cmd false capture env None).
Proof. intros h. rewrite run_unchecked. now eexists. Qed.

Lemma returns_kube_env h0 : returns_in w (HostEnv.kube_env h0).
Proof.
unfold HostEnv.kube_env. apply returns_bind; [apply returns_get_environ|].
intros e. apply returns_ret.
Qed.


End Returns.

Ltac returns_step :=
  first
    [ apply returns_ret
    | apply returns_print
    | apply returns_sleep
    | apply returns_time
    | apply returns_exists
    | apply returns_which
    | apply returns_get_environ
    | apply returns_get_script_dir
    | apply returns_subprocess_run
    | apply returns_run
    | apply returns_kube_env
    | apply returns_bind; [|intros ?]
    | match goal with
      | |- returns_in _ (if ?b then _ else _) => destruct b
      end ].

Ltac returns_auto :=
  unfold Log.info, Log.success, Log.warn, Log.error, Log.section;
  repeat returns_step.

Section ReturningSteps.
Variable w : World.

Lemma returns_init : returns_in w HostEnv.__init__.
Proof.
unfold HostEnv.__init__, HostEnv._detect_primary_ip. returns_auto.
Qed.



Lemma returns_ensure_kube_dir h : returns_in w (HostEnv.ensure_kube_dir h).
Proof. unfold HostEnv.ensure_kube_dir. returns_auto. Qed.

Lemma returns_fix_kubeconfig_permissions h :
  returns_in w (K3sCluster._fix_kubeconfig_permissions h).
Proof.
unfold K3sCluster._fix_kubeconfig_permissions. returns_auto.
Qed.

Lemma returns_wait_nodes_loop n : returns_in w (K3sCluster.wait_nodes_loop n).
Proof.
intros h. destruct (wait_nodes_loop_returns n w h) as [H | H]; eauto.
Qed.

Lemma returns_wait_nodes_ready : returns_in w K3sCluster._wait_nodes_ready.
Proof.
unfold K3sCluster._wait_nodes_ready, Log.info, Log.warn.
apply returns_bind; [apply returns_print | intros _].
apply returns_bind; [apply returns_wait_nodes_loop | intros b].
destruct b; [apply returns_ret | apply returns_print].
Qed.






End ReturningSteps.

Lemma ends_with_app suffix pre ev :
  ends_with suffix ev -> ends_with suffix (pre ++ ev).
Proof. intros [p ->]. exists (pre ++ p). now rewrite app_assoc. Qed.

Lemma ends_with_refl_app pre suffix : ends_with suffix (pre ++ suffix).
Proof. now exists pre. Qed.


Lemma outputs_of_fallback_prefix cmd w h timeout_sec hist :
  args_eqb (RancherDeployment.rollout_cmd timeout_sec) cmd = false ->
  outputs_of cmd (fallback_prefix w h timeout_sec hist) = [].
Proof. intros H. unfold fallback_prefix. cbn [app outputs_of]. now rewrite H. Qed.


Lemma budget_covers (timeout_sec : Z) :
  (inject_Z timeout_sec
   <= inject_Z (3 * Z.of_nat (pod_probe_bound timeout_sec)))%Q.
Proof.
rewrite <- Zle_Qle. unfold pod_probe_bound.
destruct (Z_lt_le_dec timeout_sec 0) as [Hneg | Hpos].
- assert ((timeout_sec + 2) / 3 < 1)%Z by (apply Z.div_lt_upper_bound; lia).
  lia.
- rewrite Z2Nat.id by (apply Z.div_pos; lia).
  pose proof (Z.mul_succ_div_gt (timeout_sec + 2) 3 ltac:(lia)). lia.
Qed.

(** With a sane clock the fallback loop of [wait_ready] ends within its
    bound of probes. *)
Lemma fallback_poll_terminates fuel w h timeout_sec hist :
  clock_monotone w -> sleep_elapses w ->
  pod_probe_bound timeout_sec < fuel ->
  (fst (fallback_poll fuel w h timeout_sec hist) = Return true
   \/ fst (fallback_poll fuel w h timeout_sec hist) = Return false)
  /\ length (outputs_of RancherDeployment.get_pods_cmd
               (snd (fallback_poll fuel w h timeout_sec hist)))
     <= pod_probe_bound timeout_sec.
Proof.
intros Hmono Hsleep Hfuel. unfold fallback_poll.
apply poll_pods_terminates; try assumption.
pose proof (budget_covers timeout_sec) as Hb.
pose proof (Hmono (hist ++ [Print waiting_line;
              Print (command_line (RancherDeployment.rollout_cmd timeout_sec));
              Spawn (RancherDeployment.rollout_cmd timeout_sec)
                    (Some (kube_environ w h)) (rollout_result w h timeout_sec hist);
              Print (Log._stamp "WARN" RancherDeployment.rollout_warn_msg)])
             [Clock (fallback_start w h timeout_sec hist)]) as Hm.
fold (fallback_start w h timeout_sec hist) in Hm.
unfold fallback_prefix. cbn [app].
rewrite <- app_assoc in Hm. cbn [app] in Hm.
fold (fallback_start w h timeout_sec hist).
lra.
Qed.

(** ** The clock of the example worlds *)

Lemma elapsed_app pace (a b : history) :
  elapsed pace (a ++ b) = (elapsed pace a + elapsed pace b)%Z.
Proof.
induction a as [|e a IH]; simpl; [reflexivity|].
destruct e; rewrite ?IH; lia.
Qed.

Lemma elapsed_nonneg pace (h : history) :
  (0 <= pace)%Z -> (0 <= elapsed pace h)%Z.
Proof.
intros Hp. induction h as [|e h IH]; simpl; [lia|]. destruct e; lia.
Qed.

Lemma scripted_clock_monotone uid answer present found pace :
  (0 <= pace)%Z ->
  clock_monotone (scripted_world uid answer present found pace).
Proof.
intros Hp h ev. cbn [time_time scripted_world].
rewrite <- Zle_Qle, elapsed_app.
pose proof (elapsed_nonneg pace ev Hp). lia.
Qed.

Lemma scripted_sleep_elapses uid answer present found pace :
  sleep_elapses (scripted_world uid answer present found pace).
Proof.
intros h secs. cbn [time_time scripted_world].
rewrite <- inject_Z_plus, <- Zle_Qle, elapsed_app. simpl. lia.
Qed.

(** ** [wait_ready]: fallback and warnings *)


Lemma rollout_not_pods timeout_sec :
  args_eqb (RancherDeployment.rollout_cmd timeout_sec)
           RancherDeployment.get_pods_cmd = false.
Proof. reflexivity. Qed.


(** After a failed rollout status, [wait_ready] is its prefix, the
    pod-phase loop, and the closing warning when the loop timed out. *)
Lemma wait_ready_fallback fuel h timeout_sec w hist :
  returncode (rollout_result w h timeout_sec hist) <> 0%Z ->
  (fst (fallback_poll fuel w h timeout_sec hist) = Return true ->
   RancherDeployment.wait_ready fuel h timeout_sec w hist
   = (Return tt,
      fallback_prefix w h timeout_sec hist
      ++ snd (fallback_poll fuel w h timeout_sec hist)))
  /\ (fst (fallback_poll fuel w h timeout_sec hist) = Return false ->
      RancherDeployment.wait_ready fuel h timeout_sec w hist
      = (Return tt,
         fallback_prefix w h timeout_sec hist
         ++ snd (fallback_poll fuel w h timeout_sec hist)
         ++ [Print (Log._stamp "WARN" RancherDeployment.not_ready_msg)])).
Proof.
intros Hrc. apply Z.eqb_neq in Hrc.
rewrite wait_ready_unfold. cbv zeta. rewrite Hrc.
split; intros H; now rewrite H.
Qed.



(** ** Bounded waits *)

Lemma wait_kubeconfig_step n w h :
  K3sCluster.wait_kubeconfig (S n) w h
  = let b := path_exists w h K3sCluster.kcfg in
    if b then (Return true, [Stat K3sCluster.kcfg true])
    else prepend [Stat K3sCluster.kcfg false; Sleep 2]
           (K3sCluster.wait_kubeconfig n w
              (h ++ [Stat K3sCluster.kcfg false; Sleep 2])).
Proof.
cbn [K3sCluster.wait_kubeconfig]. rewrite bind_exists. cbv zeta.
destruct (path_exists w h K3sCluster.kcfg).
- reflexivity.
- rewrite bind_sleep, prepend_prepend, <- app_assoc. reflexivity.
Qed.

(** A credential file that never appears uses the whole budget of the
    wait: [n] tests, [n] sleeps, and the answer [false]. *)
Lemma wait_kubeconfig_exhausted n w :
  (forall h', path_exists w h' K3sCluster.kcfg = false) ->
  forall h,
    fst (K3sCluster.wait_kubeconfig n w h) = Return false
    /\ stats_of K3sCluster.kcfg (snd (K3sCluster.wait_kubeconfig n w h)) = n
    /\ sleeps (snd (K3sCluster.wait_kubeconfig n w h)) = n.
Proof.
intros Hnever. induction n as [|n IH]; intros h.
- repeat split.
- rewrite wait_kubeconfig_step. cbv zeta. rewrite Hnever.
  rewrite fst_prepend, snd_prepend, stats_of_app, sleeps_app.
  destruct (IH (h ++ [Stat K3sCluster.kcfg false; Sleep 2])) as [H1 [H2 H3]].
  rewrite H1, H2, H3. repeat split.
Qed.



(** ** Start of the process and the privilege check *)

Lemma init_unfold w hist :
  HostEnv.__init__ w hist = (Return (host_of w hist), [address_probe w hist]).
Proof.
unfold HostEnv.__init__, HostEnv._detect_primary_ip.
rewrite bind_get_environ, bind_assoc, bind_subprocess_run_unchecked.
cbv zeta. rewrite bind_ret. reflexivity.
Qed.

Lemma require_sudo_unfold w hist :
  BootstrapOrchestrator.require_sudo w hist
  = if (os_geteuid w =? 0)%Z
    then (Return tt, [GetEuid (os_geteuid w)])
    else (Raise (SystemExit 1),
          [GetEuid (os_geteuid w);
           Print (Log._stamp "ERROR" BootstrapOrchestrator.sudo_msg)]).
Proof.
unfold BootstrapOrchestrator.require_sudo. rewrite bind_geteuid.
destruct (os_geteuid w =? 0)%Z; cbn [negb].
- reflexivity.
- unfold Log.error. rewrite bind_print. reflexivity.
Qed.

Lemma main_unfold fuel w hist :
  main fuel w hist
  = prepend [address_probe w hist]
      (BootstrapOrchestrator.run fuel (host_of w hist) w
         (hist ++ [address_probe w hist])).
Proof.
unfold main, BootstrapOrchestrator.__init__.
apply bind_Return, init_unfold.
Qed.

(** C5, as stated, fails: the constructor of the orchestrator starts
    [hostname -I] before [run] checks the privilege, so an unprivileged
    process does start one external command. *)
Lemma unprivileged_run_counterexample :
  ~ (forall fuel w,
       os_geteuid w <> 0%Z ->
       exit_status (fst (process fuel w)) = Some 1%Z
       /\ spawned (snd (process fuel w)) = 0).
Proof.
intros H.
destruct (H 0 unprivileged_world ltac:(discriminate)) as [_ Hs].
vm_compute in Hs. discriminate.
Qed.

(** Without privilege the run stops at the check. *)
Lemma process_unprivileged fuel w :
  os_geteuid w <> 0%Z ->
  process fuel w
  = (Raise (SystemExit 1),
     [address_probe w [];
      GetEuid (os_geteuid w);
      Print (Log._stamp "ERROR" BootstrapOrchestrator.sudo_msg)]).
Proof.
intros Huid. apply Z.eqb_neq in Huid.
unfold process. rewrite main_unfold.
unfold BootstrapOrchestrator.run.
rewrite (bind_Raise _ _ _ _ (SystemExit 1)
           [GetEuid (os_geteuid w);
            Print (Log._stamp "ERROR" BootstrapOrchestrator.sudo_msg)]).
- reflexivity.
- rewrite require_sudo_unfold. now rewrite Huid.
Qed.

(** C5 (amended): without privilege the process exits with status 1; its
    events are the address probe [hostname -I] that the constructor starts
    before the check, the privilege check, and the error line; no command
    is started after the check. *)
Theorem unprivileged_run :
  forall fuel w,
    os_geteuid w <> 0%Z ->
    process fuel w
    = (Raise (SystemExit 1),
       [address_probe w [];
        GetEuid (os_geteuid w);
        Print (Log._stamp "ERROR" BootstrapOrchestrator.sudo_msg)])
    /\ exit_status (fst (process fuel w)) = Some 1%Z
    /\ spawned (snd (process fuel w)) = 1.
Proof.
intros fuel w Huid. rewrite (process_unprivileged fuel w Huid). repeat split.
Qed.

Lemma unprivileged_run_witness :
  exit_status (fst (process 0 unprivileged_world)) = Some 1%Z
  /\ spawned (snd (process 0 unprivileged_world)) = 1.
Proof.
apply (unprivileged_run 0 unprivileged_world). discriminate.
Defined.

(** ** The installation of the chart *)

Lemma install_start h w hist :
  RancherDeployment.install h w hist
  = prepend [Print (Log._stamp "INFO" RancherDeployment.checking_msg);
             Spawn RancherDeployment.helm_status_cmd (Some (kube_environ w h))
                   (status_result w h hist)]
      ((if (returncode (status_result w h hist) =? 0)%Z then
          Log.info RancherDeployment.present_msg
        else
          Log.info RancherDeployment.absent_msg ;;
          run RancherDeployment.repo_add_cmd false false None None ;;
          run RancherDeployment.repo_update_cmd false false None None ;;
          run (RancherDeployment.helm_cmd h) true false
              (Some (kube_environ w h)) None ;;
          ret tt) w
         (hist ++ [Print (Log._stamp "INFO" RancherDeployment.checking_msg);
                   Spawn RancherDeployment.helm_status_cmd
                         (Some (kube_environ w h)) (status_result w h hist)])).
Proof.
unfold RancherDeployment.install. rewrite bind_kube_env.
fold (kube_environ w h). unfold Log.info at 1. rewrite bind_print. cbv beta.
rewrite bind_subprocess_run_unchecked. cbv beta zeta.
fold (status_result w h hist).
rewrite prepend_prepend, <- app_assoc. reflexivity.
Qed.

(** With the release present, [install] asks for its status and returns. *)
Lemma install_present h w hist :
  returncode (status_result w h hist) = 0%Z ->
  RancherDeployment.install h w hist = (Return tt, install_skipped w h hist).
Proof.
intros Hrc. rewrite install_start, Hrc. reflexivity.
Qed.

(** With the release absent, [install] registers and refreshes the
    repository, whatever these two commands answer, and installs the
    chart. *)
Lemma install_absent h w hist :
  returncode (status_result w h hist) <> 0%Z ->
  exists add update chart,
    RancherDeployment.install h w hist
    = (if (returncode chart =? 0)%Z then Return tt
       else Raise (CalledProcessError (returncode chart)
                     (RancherDeployment.helm_cmd h)),
       install_performed w h hist add update chart).
Proof.
intros Hrc. apply Z.eqb_neq in Hrc. rewrite install_start, Hrc. cbv iota.
unfold Log.info. rewrite bind_print. cbv beta.
rewrite bind_run_unchecked. cbv beta zeta.
rewrite bind_run_unchecked. cbv beta zeta.
rewrite bind_run_checked. cbv beta zeta.
match goal with
| |- context [if (returncode ?c =? 0)%Z then _ else _] =>
    exists (completed_of w
              (hist ++ [Print (Log._stamp "INFO" RancherDeployment.checking_msg);
                        Spawn RancherDeployment.helm_status_cmd
                              (Some (kube_environ w h)) (status_result w h hist);
                        Print (Log._stamp "INFO" RancherDeployment.absent_msg);
                        Print (command_line RancherDeployment.repo_add_cmd)])
              RancherDeployment.repo_add_cmd false None);
    eexists; exists c; destruct (returncode c =? 0)%Z
end.
- unfold ret, prepend. cbn [fst snd app]. rewrite <- !app_assoc. reflexivity.
- unfold prepend. cbn [fst snd app]. rewrite <- !app_assoc. reflexivity.
Qed.

Lemma chart_install_helm_cmd h :
  is_chart_install (RancherDeployment.helm_cmd h) = true.
Proof.
unfold is_chart_install, RancherDeployment.helm_cmd.
cbn [nth existsb]. rewrite String.eqb_refl.
rewrite (String.eqb_refl "upgrade"). cbn [andb].
now rewrite !orb_true_r.
Qed.

(** ** Steps that start no command of a given kind *)

Section Quiet.
Variable w : World.
Variable p : list string -> bool.

Lemma quiet_ret {A} (a : A) : quiet_in w (on_spawn p) (ret a).
Proof. intros h. constructor. Qed.

Lemma quiet_raise {A} x : quiet_in w (on_spawn p) (@raise A x).
Proof. intros h. constructor. Qed.

Lemma quiet_bind {A B} (m : M A) (f : A -> M B) :
  quiet_in w (on_spawn p) m -> (forall a, quiet_in w (on_spawn p) (f a)) ->
  quiet_in w (on_spawn p) (bind m f).
Proof.
intros Hm Hf h. specialize (Hm h). unfold bind.
destruct (m w h) as [[a|x|] e1]; cbn [snd] in *; try assumption.
specialize (Hf a (h ++ e1)). destruct (f a w (h ++ e1)) as [r e2].
cbn [snd] in *. apply Forall_app. now split.
Qed.

Lemma quiet_try_except {A} (body : M A) catches handler :
  quiet_in w (on_spawn p) body ->
  (forall x, quiet_in w (on_spawn p) (handler x)) ->
  quiet_in w (on_spawn p) (try_except body catches handler).
Proof.
intros Hb Hh h. specialize (Hb h). unfold try_except.
destruct (body w h) as [[a|x|] e1]; cbn [snd] in *; try assumption.
destruct (catches x); [|assumption].
specialize (Hh x (h ++ e1)). destruct (handler x w (h ++ e1)) as [r e2].
cbn [snd] in *. apply Forall_app. now split.
Qed.

Lemma quiet_print s : quiet_in w (on_spawn p) (print s).
Proof. intros h. repeat constructor. Qed.

Lemma quiet_sleep z : quiet_in w (on_spawn p) (time_sleep z).
Proof. intros h. repeat constructor. Qed.

Lemma quiet_time : quiet_in w (on_spawn p) time_now.
Proof. intros h. repeat constructor. Qed.

Lemma quiet_exists path : quiet_in w (on_spawn p) (exists_ path).
Proof. intros h. repeat constructor. Qed.

Lemma quiet_which n : quiet_in w (on_spawn p) (which n).
Proof. intros h. repeat constructor. Qed.

Lemma quiet_geteuid : quiet_in w (on_spawn p) geteuid.
Proof. intros h. repeat constructor. Qed.

Lemma quiet_get_environ : quiet_in w (on_spawn p) get_environ.
Proof. intros h. constructor. Qed.

Lemma quiet_get_script_dir : quiet_in w (on_spawn p) get_script_dir.
Proof. intros h. constructor. Qed.

Lemma quiet_write_file path contents :
  quiet_in w (on_spawn p) (write_file path contents).
Proof.
intros h. unfold write_file. destruct (open_write _ _ _ _); repeat constructor.
Qed.

Lemma quiet_chmod path mode : quiet_in w (on_spawn p) (chmod path mode).
Proof.
intros h. unfold chmod. destruct (os_chmod _ _ _ _); repeat constructor.
Qed.

Lemma quiet_subprocess_run args check capture env :
  p args = false ->
  quiet_in w (on_spawn p) (subprocess_run args check capture env).
Proof.
intros Hp h. unfold subprocess_run. destruct (spawn w h args env) as [rc out].
destruct (check && _)%bool; repeat constructor; exact Hp.
Qed.

Lemma quiet_run cmd check capture env cwd :
  p cmd = false -> quiet_in w (on_spawn p) (run cmd check capture env cwd).
Proof.
intros Hp. unfold run. apply quiet_bind; [apply quiet_print | intros _].
now apply quiet_subprocess_run.
Qed.

Lemma quiet_kube_env h : quiet_in w (on_spawn p) (HostEnv.kube_env h).
Proof.
unfold HostEnv.kube_env. apply quiet_bind; [apply quiet_get_environ|].
intros e. apply quiet_ret.
Qed.

Lemma quiet_wait_kubeconfig n :
  quiet_in w (on_spawn p) (K3sCluster.wait_kubeconfig n).
Proof.
induction n as [|n IH]; [apply quiet_ret|].
cbn [K3sCluster.wait_kubeconfig].
apply quiet_bind; [apply quiet_exists | intros b].
destruct b; [apply quiet_ret|].
apply quiet_bind; [apply quiet_sleep | intros _; exact IH].
Qed.

Lemma quiet_wait_nodes_loop n :
  p K3sCluster.get_nodes_cmd = false ->
  quiet_in w (on_spawn p) (K3sCluster.wait_nodes_loop n).
Proof.
intros Hp. induction n as [|n IH]; [apply quiet_ret|].
cbn [K3sCluster.wait_nodes_loop].
apply quiet_bind; [now apply quiet_subprocess_run | intros cp].
destruct (K3sCluster.nodes_converged _).
- apply quiet_bind; [apply quiet_print | intros _; apply quiet_ret].
- apply quiet_bind; [apply quiet_sleep | intros _; exact IH].
Qed.

Lemma quiet_poll_pods fuel e deadline :
  p RancherDeployment.get_pods_cmd = false ->
  quiet_in w (on_spawn p) (RancherDeployment.poll_pods fuel e deadline).
Proof.
intros Hp. induction fuel as [|fuel IH]; [intros h; constructor|].
cbn [RancherDeployment.poll_pods].
apply quiet_bind; [apply quiet_time | intros now].
destruct (RancherDeployment.Qltb now deadline); [|apply quiet_ret].
apply quiet_bind; [now apply quiet_subprocess_run | intros cp].
destruct (RancherDeployment.phases_converged _).
- apply quiet_bind; [apply quiet_print | intros _; apply quiet_ret].
- apply quiet_bind; [apply quiet_sleep | intros _; exact IH].
Qed.

End Quiet.

Ltac quiet_step :=
  first
    [ apply quiet_ret
    | apply quiet_raise
    | apply quiet_print
    | apply quiet_sleep
    | apply quiet_time
    | apply quiet_exists
    | apply quiet_which
    | apply quiet_geteuid
    | apply quiet_get_environ
    | apply quiet_get_script_dir
    | apply quiet_write_file
    | apply quiet_chmod
    | apply quiet_kube_env
    | apply quiet_wait_kubeconfig
    | apply quiet_wait_nodes_loop; reflexivity
    | apply quiet_poll_pods; reflexivity
    | apply quiet_subprocess_run; reflexivity
    | apply quiet_run; reflexivity
    | apply quiet_try_except; [|intros ?]
    | apply quiet_bind; [|intros ?]
    | match goal with
      | |- quiet_in _ _ (if ?b then _ else _) => destruct b
      end ].

Ltac quiet_auto :=
  unfold Log.info, Log.success, Log.warn, Log.error, Log.section, sys_exit;
  repeat quiet_step.

(** ** Where the run starts [helm] *)

Section HelmFreeSteps.
Variable w : World.

Lemma helm_free_require_sudo :
  quiet_in w (on_spawn is_helm) BootstrapOrchestrator.require_sudo.
Proof. unfold BootstrapOrchestrator.require_sudo. quiet_auto. Qed.

Lemma helm_free_show_mode h :
  quiet_in w (on_spawn is_helm) (BootstrapOrchestrator.show_mode h).
Proof. unfold BootstrapOrchestrator.show_mode. quiet_auto. Qed.

Lemma helm_free_ensure_hosts h :
  quiet_in w (on_spawn is_helm) (K3sCluster.ensure_hosts h).
Proof. unfold K3sCluster.ensure_hosts. quiet_auto. Qed.

Lemma helm_free_ensure_kube_dir h :
  quiet_in w (on_spawn is_helm) (HostEnv.ensure_kube_dir h).
Proof. unfold HostEnv.ensure_kube_dir. quiet_auto. Qed.

Lemma helm_free_fix_kubeconfig_permissions h :
  quiet_in w (on_spawn is_helm) (K3sCluster._fix_kubeconfig_permissions h).
Proof.
unfold K3sCluster._fix_kubeconfig_permissions, Log.error, Log.info.
apply quiet_bind; [apply quiet_exists | intros b].
destruct b; cbn [negb]; [|apply quiet_print].
apply quiet_bind; [apply helm_free_ensure_kube_dir | intros _].
quiet_auto.
Qed.

Lemma helm_free_wait_nodes_ready :
  quiet_in w (on_spawn is_helm) K3sCluster._wait_nodes_ready.
Proof.
unfold K3sCluster._wait_nodes_ready, Log.info, Log.warn.
apply quiet_bind; [apply quiet_print | intros _].
apply quiet_bind; [now apply quiet_wait_nodes_loop | intros b].
destruct b; [apply quiet_ret | apply quiet_print].
Qed.

Lemma helm_free_install_or_verify h :
  quiet_in w (on_spawn is_helm) (K3sCluster.install_or_verify h).
Proof.
unfold K3sCluster.install_or_verify, Log.info, Log.error, sys_exit.
apply quiet_bind; [now apply quiet_subprocess_run | intros a].
apply quiet_bind.
{ destruct (returncode a =? 0)%Z; [apply quiet_exists | apply quiet_ret]. }
intros active. apply quiet_bind.
{ destruct active; [apply quiet_print|].
  apply quiet_bind; [apply quiet_print | intros _].
  apply quiet_bind; [now apply quiet_run | intros _; apply quiet_ret]. }
intros _. apply quiet_bind; [apply quiet_print | intros _].
apply quiet_bind; [apply quiet_wait_kubeconfig | intros found].
apply quiet_bind.
{ destruct found; [apply quiet_ret|].
  apply quiet_bind; [apply quiet_print | intros _; apply quiet_raise]. }
intros _. apply quiet_bind;
  [apply helm_free_fix_kubeconfig_permissions | intros _].
apply helm_free_wait_nodes_ready.
Qed.

Lemma helm_free_ensure_kubectl :
  quiet_in w (on_spawn is_helm) K3sCluster.ensure_kubectl.
Proof. unfold K3sCluster.ensure_kubectl. quiet_auto. Qed.

Lemma helm_free_apply_bootstrap_yaml h :
  quiet_in w (on_spawn is_helm) (K3sCluster.apply_bootstrap_yaml h).
Proof. unfold K3sCluster.apply_bootstrap_yaml. quiet_auto. Qed.

Lemma helm_free_ensure_helm :
  quiet_in w (on_spawn is_helm) K3sCluster.ensure_helm.
Proof. unfold K3sCluster.ensure_helm. quiet_auto. Qed.

Lemma helm_free_wait_ready fuel h timeout_sec :
  quiet_in w (on_spawn is_helm)
    (RancherDeployment.wait_ready fuel h timeout_sec).
Proof.
unfold RancherDeployment.wait_ready, Log.info, Log.success, Log.warn.
apply quiet_bind; [apply quiet_kube_env | intros e].
apply quiet_bind; [apply quiet_print | intros _].
apply quiet_bind.
{ apply quiet_try_except.
  - apply quiet_bind; [now apply quiet_run | intros _].
    apply quiet_bind; [apply quiet_print | intros _; apply quiet_ret].
  - intros x. apply quiet_bind; [apply quiet_print | intros _; apply quiet_ret]. }
intros rolled. destruct rolled; [apply quiet_ret|].
apply quiet_bind; [apply quiet_time | intros start].
apply quiet_bind; [now apply quiet_poll_pods | intros b].
destruct b; [apply quiet_ret | apply quiet_print].
Qed.

Lemma helm_free_verify_cluster h :
  quiet_in w (on_spawn is_helm) (ClusterBanner.verify_cluster h).
Proof. unfold ClusterBanner.verify_cluster. quiet_auto. Qed.

Lemma helm_free_access h :
  quiet_in w (on_spawn is_helm) (ClusterBanner.access h).
Proof. unfold ClusterBanner.access. quiet_auto. Qed.

Lemma helm_free_final h :
  quiet_in w (on_spawn is_helm) (ClusterBanner.final h).
Proof. unfold ClusterBanner.final. quiet_auto. Qed.

Lemma helm_free_run_from_wait_ready fuel h :
  quiet_in w (on_spawn is_helm) (run_from_wait_ready fuel h).
Proof.
unfold run_from_wait_ready.
apply quiet_bind; [apply helm_free_wait_ready | intros _].
apply quiet_bind; [apply helm_free_verify_cluster | intros _].
apply quiet_bind; [apply helm_free_access | intros _].
apply helm_free_final.
Qed.

Lemma helm_only_bind {A B} (m : M A) (f : A -> M B) :
  quiet_in w (on_spawn is_helm) m ->
  (forall a hist, helm_only_in_install w (snd (f a w hist))) ->
  forall hist, helm_only_in_install w (snd (bind m f w hist)).
Proof.
intros Hm Hf hist. specialize (Hm hist). unfold bind.
destruct (m w hist) as [[a|x|] e1]; cbn [snd] in *; try (now left).
specialize (Hf a (hist ++ e1)). destruct (f a w (hist ++ e1)) as [r e2].
cbn [snd] in *. destruct Hf as [Hq | [pre [h [hi [post [-> [Hpre Hpost]]]]]]].
- left. apply Forall_app. now split.
- right. exists (e1 ++ pre), h, hi, post. rewrite <- app_assoc.
  repeat split; try assumption. apply Forall_app. now split.
Qed.

Lemma helm_only_install {B} h (k : M B) :
  quiet_in w (on_spawn is_helm) k ->
  forall hist,
    helm_only_in_install w
      (snd (bind (RancherDeployment.install h) (fun _ => k) w hist)).
Proof.
intros Hk hist. right. unfold bind.
destruct (RancherDeployment.install h w hist) as [[a|x|] e1] eqn:E.
- specialize (Hk (hist ++ e1)). destruct (k w (hist ++ e1)) as [r e2].
  cbn [snd] in *. exists [], h, hist, e2. rewrite E. cbn [snd app].
  repeat split; [constructor | assumption].
- exists [], h, hist, []. rewrite E. cbn [snd app]. rewrite app_nil_r.
  repeat split; constructor.
- exists [], h, hist, []. rewrite E. cbn [snd app]. rewrite app_nil_r.
  repeat split; constructor.
Qed.

(** The only [helm] commands of a run are those of its call of [install]. *)
Lemma process_helm_only fuel : helm_only_in_install w (snd (process fuel w)).
Proof.
unfold process, main, BootstrapOrchestrator.__init__.
apply helm_only_bind.
{ unfold HostEnv.__init__, HostEnv._detect_primary_ip. quiet_auto. }
intros h hist. unfold BootstrapOrchestrator.run.
apply helm_only_bind; [apply helm_free_require_sudo | intros _ hist1].
apply helm_only_bind; [apply helm_free_show_mode | intros _ hist2].
apply helm_only_bind; [apply helm_free_ensure_hosts | intros _ hist3].
apply helm_only_bind; [apply helm_free_install_or_verify | intros _ hist4].
apply helm_only_bind; [apply helm_free_ensure_kubectl | intros _ hist5].
apply helm_only_bind; [apply helm_free_apply_bootstrap_yaml | intros _ hist6].
apply helm_only_bind; [apply helm_free_ensure_helm | intros _ hist7].
apply (helm_only_install h (run_from_wait_ready fuel h)).
apply helm_free_run_from_wait_ready.
Qed.

End HelmFreeSteps.

(** ** Idempotency of the chart installation *)

Lemma helm_free_spawn (l : list event) args env cp :
  Forall (fun e => on_spawn is_helm e = false) l ->
  In (Spawn args env cp) l -> is_helm args = false.
Proof.
intros Hl Hin. rewrite Forall_forall in Hl. exact (Hl _ Hin).
Qed.

Lemma helm_free_weaken (p : list string -> bool) (l : list event) :
  (forall args, p args = true -> is_helm args = true) ->
  Forall (fun e => on_spawn is_helm e = false) l ->
  Forall (fun e => on_spawn p e = false) l.
Proof.
intros Hp Hl. eapply Forall_impl; [|exact Hl].
intros [args env cp| | | | | | | |] He; try reflexivity.
cbn [on_spawn] in *. destruct (p args) eqn:E; [|reflexivity].
apply Hp in E. congruence.
Qed.

Lemma chart_install_is_helm args :
  is_chart_install args = true -> is_helm args = true.
Proof. unfold is_chart_install. now intros H%andb_true_iff. Qed.

Lemma repo_command_is_helm args :
  is_repo_command args = true -> is_helm args = true.
Proof. unfold is_repo_command. now intros H%andb_true_iff. Qed.

(** C1: when the release-presence query exits with status zero, [install]
    returns after the query, having started no other command; and in a
    world where that query always succeeds, no event of the whole run is a
    chart installation. *)
Theorem install_skipped_when_release_present :
  (forall h w hist,
     returncode (status_result w h hist) = 0%Z ->
     RancherDeployment.install h w hist
     = (Return tt,
        [Print (Log._stamp "INFO" RancherDeployment.checking_msg);
         Spawn RancherDeployment.helm_status_cmd (Some (kube_environ w h))
               (status_result w h hist);
         Print (Log._stamp "INFO" RancherDeployment.present_msg)]))
  /\ (forall fuel w,
        (forall hist env,
           fst (spawn w hist RancherDeployment.helm_status_cmd env) = 0%Z) ->
        Forall (fun e => on_spawn is_chart_install e = false)
               (snd (process fuel w)))
  /\ (forall h env cp,
        on_spawn is_chart_install
          (Spawn (RancherDeployment.helm_cmd h) env cp) = true).
Proof.
split; [|split].
- intros h w hist Hrc. now apply install_present.
- intros fuel w Hstatus.
  destruct (process_helm_only w fuel)
    as [Hq | [pre [h [hist [post [-> [Hpre Hpost]]]]]]].
  + now apply helm_free_weaken with (1 := chart_install_is_helm).
  + rewrite install_present by apply Hstatus.
    cbn [snd]. rewrite !Forall_app. repeat split.
    * now apply helm_free_weaken with (1 := chart_install_is_helm).
    * unfold install_skipped. repeat constructor.
    * now apply helm_free_weaken with (1 := chart_install_is_helm).
- intros h env cp. apply chart_install_helm_cmd.
Qed.

Lemma install_skipped_when_release_present_witness :
  Forall (fun e => on_spawn is_chart_install e = false)
         (snd (process 1 converged_world)).
Proof.
apply (proj1 (proj2 install_skipped_when_release_present) 1 converged_world).
intros hist env. reflexivity.
Defined.

(** ** Registration of the chart repository *)

(** C6, as stated, fails: on the already-converged host the run completes
    without any [helm repo] command. *)
Lemma repo_registration_counterexample :
  ~ (forall fuel w ev,
       process fuel w = (Return tt, ev) ->
       exists e, In e ev /\ on_spawn is_repo_command e = true).
Proof.
intros H.
destruct (H 1 converged_world (snd (process 1 converged_world)))
  as [e [Hin He]].
- vm_compute. reflexivity.
- assert (Hex : existsb (on_spawn is_repo_command)
                  (snd (process 1 converged_world)) = true)
    by (apply existsb_exists; eauto).
  vm_compute in Hex. discriminate.
Qed.

(** C6 (amended): the repository is registered and refreshed only when the
    release-presence query exits non-zero: with status zero [install]
    starts the query alone; with a non-zero status it starts
    [helm repo add] and [helm repo update], in this order and whatever they
    answer, before the chart installation; over a whole run a [helm repo]
    command occurs exactly when a release-presence query answered
    non-zero. *)
Theorem repo_registration_gated :
  (forall h w hist,
     returncode (status_result w h hist) = 0%Z ->
     snd (RancherDeployment.install h w hist) = install_skipped w h hist
     /\ Forall (fun e => on_spawn is_repo_command e = false)
               (install_skipped w h hist))
  /\ (forall h w hist,
        returncode (status_result w h hist) <> 0%Z ->
        exists add update chart,
          snd (RancherDeployment.install h w hist)
          = [Print (Log._stamp "INFO" RancherDeployment.checking_msg);
             Spawn RancherDeployment.helm_status_cmd (Some (kube_environ w h))
                   (status_result w h hist);
             Print (Log._stamp "INFO" RancherDeployment.absent_msg);
             Print (command_line RancherDeployment.repo_add_cmd);
             Spawn RancherDeployment.repo_add_cmd None add;
             Print (command_line RancherDeployment.repo_update_cmd);
             Spawn RancherDeployment.repo_update_cmd None update;
             Print (command_line (RancherDeployment.helm_cmd h));
             Spawn (RancherDeployment.helm_cmd h) (Some (kube_environ w h))
                   chart])
  /\ (forall fuel w,
        (exists e, In e (snd (process fuel w))
                   /\ on_spawn is_repo_command e = true)
        <-> (exists env cp,
               In (Spawn RancherDeployment.helm_status_cmd env cp)
                  (snd (process fuel w))
               /\ returncode cp <> 0%Z)).
Proof.
split; [|split].
- intros h w hist Hrc. rewrite install_present by assumption. split.
  + reflexivity.
  + repeat constructor.
- intros h w hist Hrc.
  destruct (install_absent h w hist Hrc) as [add [update [chart E]]].
  exists add, update, chart. now rewrite E.
- intros fuel w.
  assert (Hrepo : forall l e,
            Forall (fun e => on_spawn is_helm e = false) l ->
            In e l -> on_spawn is_repo_command e = true -> False).
  { intros l e Hl Hin He.
    pose proof (helm_free_weaken _ _ repo_command_is_helm Hl) as Hl'.
    rewrite Forall_forall in Hl'. specialize (Hl' _ Hin). congruence. }
  assert (Hquery : forall l env cp,
            Forall (fun e => on_spawn is_helm e = false) l ->
            In (Spawn RancherDeployment.helm_status_cmd env cp) l -> False).
  { intros l env cp Hl Hin.
    pose proof (helm_free_spawn _ _ _ _ Hl Hin) as Hh. discriminate. }
  destruct (process_helm_only w fuel)
    as [Hq | [pre [h [hist [post [-> [Hpre Hpost]]]]]]].
  + split.
    * intros [e [Hin He]]. exfalso. eauto.
    * intros [env [cp [Hin _]]]. exfalso. eauto.
  + destruct (Z.eq_dec (returncode (status_result w h hist)) 0) as [Hrc | Hrc].
    * rewrite install_present by assumption. cbn [snd]. split.
      -- intros [e [Hin He]]. exfalso.
         rewrite !in_app_iff in Hin. destruct Hin as [Hin | [Hin | Hin]];
           [eauto | | eauto].
         unfold install_skipped in Hin. cbn [In] in Hin.
         destruct Hin as [<- | [<- | [<- | []]]]; discriminate.
      -- intros [env [cp [Hin Hcp]]]. exfalso.
         rewrite !in_app_iff in Hin. destruct Hin as [Hin | [Hin | Hin]];
           [eauto | | eauto].
         unfold install_skipped in Hin. cbn [In] in Hin.
         destruct Hin as [Heq | [Heq | [Heq | []]]]; try discriminate.
         injection Heq as _ <-. contradiction.
    * destruct (install_absent h w hist Hrc) as [add [update [chart E]]].
      rewrite E. cbn [snd]. split; intros _.
      -- exists (Some (kube_environ w h)), (status_result w h hist).
         split; [|assumption].
         rewrite !in_app_iff. right; left.
         unfold install_performed. cbn [In]. tauto.
      -- exists (Spawn RancherDeployment.repo_add_cmd None add).
         split; [|reflexivity].
         rewrite !in_app_iff. right; left.
         unfold install_performed. cbn [In]. tauto.
Qed.

Lemma repo_registration_gated_witness :
  snd (RancherDeployment.install example_host converged_world [])
  = install_skipped converged_world example_host []
  /\ Forall (fun e => on_spawn is_repo_command e = false)
            (install_skipped converged_world example_host []).
Proof.
apply (proj1 repo_registration_gated example_host converged_world []).
reflexivity.
Defined.

(** ** How a run ends *)











Section EndsWell.
Variable w : World.






(** The credential wait ends by [break], or after [n] failed tests. *)
Lemma wait_kubeconfig_result n hist :
  fst (K3sCluster.wait_kubeconfig n w hist) = Return true
  \/ K3sCluster.wait_kubeconfig n w hist = (Return false, failed_tests n).
Proof.
revert hist. induction n as [|n IH]; intros hist.
- now right.
- rewrite wait_kubeconfig_step. cbv zeta.
  destruct (path_exists w hist K3sCluster.kcfg); [now left|].
  destruct (IH (hist ++ [Stat K3sCluster.kcfg false; Sleep 2])) as [H | H].
  + left. now rewrite fst_prepend.
  + right. rewrite H. reflexivity.
Qed.










End EndsWell.

(** ** Runs that are not cut off *)

Section Fueled.
Variable w : World.











End Fueled.

(** ** Fatal steps in a given world *)

Section FatalSteps.
Variable w : World.

Lemma bind_result_after_returns {A B} (m : M A) (f : A -> M B) (r : result B) :
  returns_in w m -> (forall a hist, fst (f a w hist) = r) ->
  forall hist, fst (bind m f w hist) = r.
Proof.
intros Hm Hf hist. destruct (Hm hist) as [a Ha].
destruct (m w hist) as [r1 e1] eqn:E. cbn [fst] in Ha. subst r1.
rewrite (bind_Return _ _ _ _ _ _ E), fst_prepend. apply Hf.
Qed.

Lemma bind_run_checked_ok {B} cmd capture env (f : CompletedProcess -> M B) hist :
  (forall h e, fst (spawn w h cmd e) = 0%Z) ->
  bind (run cmd true capture env None) f w hist
  = let cp := completed_of w (hist ++ [Print (command_line cmd)]) cmd capture env in
    prepend [Print (command_line cmd); Spawn cmd env cp]
      (f cp w (hist ++ [Print (command_line cmd); Spawn cmd env cp])).
Proof.
intros Hok. rewrite bind_run_checked. cbv zeta.
unfold completed_of at 1. cbn [returncode]. now rewrite Hok.
Qed.

Lemma credential_gate_closed h :
  (forall hist, path_exists w hist K3sCluster.kcfg = false) ->
  forall hist, fst (credential_gate h w hist) = Raise (SystemExit 1).
Proof.
intros Hnever. unfold credential_gate.
apply bind_result_after_returns; [apply returns_print | intros _ hist].
destruct (wait_kubeconfig_exhausted 60 w Hnever hist) as [H _].
destruct (K3sCluster.wait_kubeconfig 60 w hist) as [r e1] eqn:E.
cbn [fst] in H. subst r. rewrite (bind_Return _ _ _ _ _ _ E), fst_prepend.
cbv beta iota. unfold Log.error, sys_exit.
rewrite bind_assoc, bind_print. reflexivity.
Qed.


(** When the K3s installer, if it runs, exits with status zero,
    [install_or_verify] reaches the credential wait. *)
Lemma install_or_verify_gate h hist :
  (forall h' e, fst (spawn w h' K3sCluster.k3s_install_cmd e) = 0%Z) ->
  exists hist',
    fst (K3sCluster.install_or_verify h w hist) = fst (credential_gate h w hist').
Proof.
intros Hk3s. unfold K3sCluster.install_or_verify.
rewrite bind_subprocess_run_unchecked. cbv zeta. rewrite fst_prepend.
set (a := completed_of _ _ _ _ _).
destruct (returncode a =? 0)%Z.
- rewrite bind_exists, fst_prepend.
  destruct (path_exists w _ K3sCluster.kcfg).
  + unfold Log.info at 1. rewrite bind_print, fst_prepend. cbv beta.
    eexists. reflexivity.
  + unfold Log.info at 1. rewrite bind_assoc, bind_print, fst_prepend. cbv beta.
    rewrite bind_assoc, (bind_run_checked_ok _ _ _ _ _ Hk3s). cbv zeta.
    rewrite fst_prepend, bind_ret. eexists. reflexivity.
- rewrite bind_ret.
  unfold Log.info at 1. rewrite bind_assoc, bind_print, fst_prepend. cbv beta.
  rewrite bind_assoc, (bind_run_checked_ok _ _ _ _ _ Hk3s). cbv zeta.
  rewrite fst_prepend, bind_ret. eexists. reflexivity.
Qed.

Lemma install_or_verify_without_credential h :
  (forall hist, path_exists w hist K3sCluster.kcfg = false) ->
  (forall hist e, fst (spawn w hist K3sCluster.k3s_install_cmd e) = 0%Z) ->
  forall hist,
    fst (K3sCluster.install_or_verify h w hist) = Raise (SystemExit 1).
Proof.
intros Hnever Hk3s hist.
destruct (install_or_verify_gate h hist Hk3s) as [hist' ->].
now apply credential_gate_closed.
Qed.






End FatalSteps.

(** ** Exit statuses *)













(** ** Bounded waits: the three loops *)

(** C3, as stated, fails for the pod-phase wait: it has no number of
    attempts; with probes that never converge, the number of probes
    follows the clock (100 when a probe takes no time, 10 when it takes 27
    seconds). *)
Lemma pod_wait_attempts_counterexample :
  ~ (exists N : nat,
       forall w fuel hist ev,
         (forall h' e,
            RancherDeployment.phases_converged
              (RancherDeployment.phases_of
                 (snd (spawn w h' RancherDeployment.get_pods_cmd e))) = false) ->
         returncode (rollout_result w example_host 300 hist) <> 0%Z ->
         RancherDeployment.wait_ready fuel example_host 300 w hist
         = (Return tt, ev) ->
         length (outputs_of RancherDeployment.get_pods_cmd ev) = N).
Proof.
intros [N H].
assert (Hfast : N = 100).
{ symmetry.
  apply (H (pending_world 0) 200 []
           (snd (RancherDeployment.wait_ready 200 example_host 300
                   (pending_world 0) []))).
  - intros h' e. reflexivity.
  - vm_compute. discriminate.
  - vm_compute. reflexivity. }
assert (Hslow : N = 10).
{ symmetry.
  apply (H (pending_world 27) 200 []
           (snd (RancherDeployment.wait_ready 200 example_host 300
                   (pending_world 27) []))).
  - intros h' e. reflexivity.
  - vm_compute. discriminate.
  - vm_compute. reflexivity. }
lia.
Qed.

(** C3 (amended): with a node probe that never converges the
    node-readiness wait starts the probe exactly 60 times (exactly [n]
    times for a budget of [n]) and then prints its timeout warning and
    returns; with a credential file that never appears the credential wait
    tests the file exactly 60 times and answers [false], and
    [install_or_verify] ends in [sys.exit(1)]; the pod-phase wait
    is bounded by a deadline, not by a number of attempts: with a clock
    that moves forward, and by three seconds at least with every sleep, and
    pod probes that never converge, it starts at most
    [pod_probe_bound timeout_sec] probes (100 for 300 seconds), prints its
    timeout warning and returns. *)
Theorem bounded_waits :
  (forall w,
     (forall h', K3sCluster.nodes_converged
                   (snd (spawn w h' K3sCluster.get_nodes_cmd None)) = false) ->
     forall h,
       fst (K3sCluster._wait_nodes_ready w h) = Return tt
       /\ length (outputs_of K3sCluster.get_nodes_cmd
                    (snd (K3sCluster._wait_nodes_ready w h))) = 60
       /\ ends_with [Print (Log._stamp "WARN" K3sCluster.nodes_timeout_msg)]
            (snd (K3sCluster._wait_nodes_ready w h)))
  /\ (forall n w,
        (forall h', K3sCluster.nodes_converged
                      (snd (spawn w h' K3sCluster.get_nodes_cmd None)) = false) ->
        forall h,
          fst (K3sCluster.wait_nodes_loop n w h) = Return false
          /\ length (outputs_of K3sCluster.get_nodes_cmd
                       (snd (K3sCluster.wait_nodes_loop n w h))) = n)
  /\ (forall w,
        (forall h', path_exists w h' K3sCluster.kcfg = false) ->
        forall h,
          fst (K3sCluster.wait_kubeconfig 60 w h) = Return false
          /\ stats_of K3sCluster.kcfg
               (snd (K3sCluster.wait_kubeconfig 60 w h)) = 60)
  /\ (forall w h0,
        (forall h', path_exists w h' K3sCluster.kcfg = false) ->
        (forall h' e, fst (spawn w h' K3sCluster.k3s_install_cmd e) = 0%Z) ->
        forall h,
          fst (K3sCluster.install_or_verify h0 w h) = Raise (SystemExit 1))
  /\ (forall w h0 timeout_sec fuel hist,
        clock_monotone w -> sleep_elapses w ->
        (forall h' e,
           RancherDeployment.phases_converged
             (RancherDeployment.phases_of
                (snd (spawn w h' RancherDeployment.get_pods_cmd e))) = false) ->
        returncode (rollout_result w h0 timeout_sec hist) <> 0%Z ->
        pod_probe_bound timeout_sec < fuel ->
        fst (RancherDeployment.wait_ready fuel h0 timeout_sec w hist) = Return tt
        /\ length (outputs_of RancherDeployment.get_pods_cmd
                     (snd (RancherDeployment.wait_ready fuel h0 timeout_sec
                             w hist)))
           <= pod_probe_bound timeout_sec
        /\ ends_with [Print (Log._stamp "WARN" RancherDeployment.not_ready_msg)]
             (snd (RancherDeployment.wait_ready fuel h0 timeout_sec w hist))).
Proof.
split; [|split; [|split; [|split]]].
- intros w Hnever h. rewrite wait_nodes_ready_unfold. cbv zeta.
  set (line := Print _).
  destruct (wait_nodes_loop_exhausted 60 w Hnever (h ++ [line])) as [H1 [H2 _]].
  rewrite H1. cbn [fst snd]. repeat split.
  + change (line :: ?l) with ([line] ++ l).
    rewrite !outputs_of_app, !List.length_app, H2. reflexivity.
  + change (line :: ?l) with ([line] ++ l). rewrite app_assoc.
    apply ends_with_refl_app.
- intros n w Hnever h.
  destruct (wait_nodes_loop_exhausted n w Hnever h) as [H1 [H2 _]]. now split.
- intros w Hnever h.
  destruct (wait_kubeconfig_exhausted 60 w Hnever h) as [H1 [H2 _]]. now split.
- intros w h0 Hnever Hk3s h.
  now apply install_or_verify_without_credential.
- intros w h0 timeout_sec fuel hist Hmono Hsleep Hnever Hrc Hfuel.
  destruct (fallback_poll_terminates fuel w h0 timeout_sec hist
              Hmono Hsleep Hfuel) as [Hres Hlen].
  assert (Hfalse : fst (fallback_poll fuel w h0 timeout_sec hist) = Return false).
  { destruct Hres as [Htrue | Hfalse]; [|exact Hfalse].
    unfold fallback_poll in Htrue. apply poll_pods_true_iff in Htrue.
    destruct Htrue as [out [Hin Hout]]. exfalso.
    revert Hin Hout. generalize (hist ++ fallback_prefix w h0 timeout_sec hist).
    generalize (fallback_start w h0 timeout_sec hist + inject_Z timeout_sec)%Q.
    intros deadline. clear Hlen Hfuel. induction fuel as [|fuel IH]; intros h.
    - simpl. tauto.
    - rewrite poll_pods_step. cbv zeta.
      destruct (RancherDeployment.Qltb _ _); [|simpl; tauto].
      change (stdout (completed_of w (h ++ [Clock (time_time w h)])
                        RancherDeployment.get_pods_cmd true
                        (Some (kube_environ w h0))))
        with (snd (spawn w (h ++ [Clock (time_time w h)])
                     RancherDeployment.get_pods_cmd (Some (kube_environ w h0)))).
      rewrite Hnever. rewrite snd_prepend, outputs_of_app.
      cbn [outputs_of]. rewrite args_eqb_refl. cbn [app In].
      intros [Heq | Hin] Hout.
      + subst out. cbn [stdout completed_of] in Hout. rewrite Hnever in Hout.
        discriminate.
      + exact (IH _ Hin Hout). }
  destruct (wait_ready_fallback fuel h0 timeout_sec w hist Hrc) as [_ Hf].
  rewrite (Hf Hfalse). cbn [fst snd]. repeat split.
  + rewrite !outputs_of_app.
    rewrite outputs_of_fallback_prefix by apply rollout_not_pods.
    cbn [outputs_of app]. now rewrite app_nil_r.
  + rewrite app_assoc. apply ends_with_refl_app.
Qed.

Lemma bounded_waits_witness :
  (fst (K3sCluster._wait_nodes_ready no_nodes_world []) = Return tt
   /\ length (outputs_of K3sCluster.get_nodes_cmd
                (snd (K3sCluster._wait_nodes_ready no_nodes_world []))) = 60
   /\ ends_with [Print (Log._stamp "WARN" K3sCluster.nodes_timeout_msg)]
        (snd (K3sCluster._wait_nodes_ready no_nodes_world [])))
  /\ (fst (RancherDeployment.wait_ready 101 example_host 300
             (pending_world 0) []) = Return tt
      /\ length (outputs_of RancherDeployment.get_pods_cmd
                   (snd (RancherDeployment.wait_ready 101 example_host 300
                           (pending_world 0) [])))
         <= pod_probe_bound 300
      /\ ends_with [Print (Log._stamp "WARN" RancherDeployment.not_ready_msg)]
           (snd (RancherDeployment.wait_ready 101 example_host 300
                   (pending_world 0) []))).
Proof.
split.
- apply (proj1 bounded_waits no_nodes_world).
  intros h'. reflexivity.
- apply (proj2 (proj2 (proj2 (proj2 bounded_waits))) (pending_world 0)
           example_host 300%Z 101 []).
  + apply scripted_clock_monotone. lia.
  + apply scripted_sleep_elapses.
  + intros h' e. reflexivity.
  + vm_compute. discriminate.
  + vm_compute. lia.
Defined.

(** ** Runs of the example worlds *)

Example split_example :
  PyStr.split ("  10.0.0.7   192.168.1.10 " ++ Log.NL)%string
  = ["10.0.0.7"; "192.168.1.10"]%string.
Proof. reflexivity. Qed.

Example strip_example :
  PyStr.strip ("  node1 " ++ Log.NL)%string = "node1"%string.
Proof. reflexivity. Qed.

Example splitlines_example :
  PyStr.splitlines ("a" ++ Log.NL ++ Log.NL ++ "b" ++ Log.NL)%string
  = ["a"; ""; "b"]%string.
Proof. reflexivity. Qed.

Example stamp_example :
  Log._stamp "WARN" "x" = ("[WARN] " ++ Log.ESC ++ "[33mx" ++ Log.ESC ++ "[0m")%string.
Proof. reflexivity. Qed.

Example invoking_user_examples :
  HostEnv.invoking_user [("SUDO_USER", "alice"); ("USER", "root")]%string
  = "alice"%string
  /\ HostEnv.invoking_user [("SUDO_USER", ""); ("USER", "root")]%string
     = "root"%string
  /\ HostEnv.invoking_user [] = "unknown"%string.
Proof. repeat split. Qed.

Example not_ready_counts :
  K3sCluster.total_of not_ready_output = 2
  /\ K3sCluster.ready_of not_ready_output = 2.
Proof. split; reflexivity. Qed.

Example phases_example :
  RancherDeployment.phases_of
    ("Running" ++ Log.NL ++ Log.NL ++ "  Pending " ++ Log.NL)%string
  = ["Running"; "Pending"]%string.
Proof. reflexivity. Qed.

Example host_of_converged_world :
  host_of converged_world [] = example_host.
Proof. reflexivity. Qed.

(** The already-converged host: status 0, three [helm]-free checks aside
    from the release query, and nothing installed. *)
Example converged_run :
  exit_status (fst (process 1 converged_world)) = Some 0%Z
  /\ outputs_of RancherDeployment.helm_status_cmd
       (snd (process 1 converged_world)) = [""%string]
  /\ existsb (on_spawn is_helm)
       (filter (fun e => negb (on_spawn is_release_query e))
               (snd (process 1 converged_world))) = false.
Proof. vm_compute. repeat split. Qed.

(** A run with both warnings still ends with status 0. *)
Example run_with_warnings :
  exit_status (fst (process 101 (pending_world 0))) = Some 0%Z
  /\ printed (Log._stamp "WARN" RancherDeployment.rollout_warn_msg)
             (snd (process 101 (pending_world 0))) = true
  /\ printed (Log._stamp "WARN" RancherDeployment.not_ready_msg)
             (snd (process 101 (pending_world 0))) = true
  /\ last_event (snd (process 101 (pending_world 0)))
     = Some (Print (final_line example_host)).
Proof. vm_compute. repeat split. Qed.

(** The chart installation fails: status 1 through [CalledProcessError]. *)
Example chart_failure_run :
  fst (process 1 chart_failure_world)
  = Raise (CalledProcessError 1 (RancherDeployment.helm_cmd example_host)).
Proof. vm_compute. reflexivity. Qed.

(** * Further properties of the script *)

(** ** The invoking user and the paths derived from it *)





(** ** The environment handed to the cluster tools *)

Lemma env_get_set_same k v (e : environ) : env_get k (env_set k v e) = Some v.
Proof.
induction e as [|[k' v'] e IH]; cbn [env_set env_get].
- now rewrite String.eqb_refl.
- destruct (k' =? k)%string eqn:E; cbn [env_get].
  + now rewrite String.eqb_refl.
  + now rewrite E.
Qed.

Lemma env_get_set_other k k0 v (e : environ) :
  k0 <> k -> env_get k0 (env_set k v e) = env_get k0 e.
Proof.
intros Hne. induction e as [|[k' v'] e IH]; cbn [env_set env_get].
- apply not_eq_sym in Hne. apply String.eqb_neq in Hne. now rewrite Hne.
- destruct (k' =? k)%string eqn:E; cbn [env_get].
  + apply String.eqb_eq in E. subst k'.
    apply not_eq_sym in Hne. apply String.eqb_neq in Hne. now rewrite Hne.
  + now rewrite IH.
Qed.

(** X2: [kube_env] reads the environment of the process without any event,
    sets KUBECONFIG to the kubeconfig path of the host and leaves every
    other variable as it is; for a host built by [HostEnv()] that path is
    the home directory followed by "/.kube/config". *)
Theorem kube_env_sets_kubeconfig :
  (forall h w hist,
     exists e,
       HostEnv.kube_env h w hist = (Return e, [])
       /\ env_get "KUBECONFIG" e = Some (HostEnv.kubeconfig_path h)
       /\ (forall k, k <> "KUBECONFIG"%string ->
                     env_get k e = env_get k (os_environ w)))
  /\ (forall w hist h ev,
        HostEnv.__init__ w hist = (Return h, ev) ->
        HostEnv.kubeconfig_path h
        = (HostEnv.user_home h ++ "/.kube/config")%string).
Proof.
split.
- intros h w hist.
  exists (env_set "KUBECONFIG" (HostEnv.kubeconfig_path h) (os_environ w)).
  split; [|split].
  + unfold HostEnv.kube_env. now rewrite bind_get_environ.
  + apply env_get_set_same.
  + intros k Hk. now apply env_get_set_other.
- intros w hist h ev E. rewrite init_unfold in E. injection E as <- _.
  unfold HostEnv.kubeconfig_path, host_of. cbn [HostEnv.user_home].
  destruct (negb (HostEnv.invoking_user (os_environ w) =? "root")%string).
  + unfold path_join. simpl. rewrite !append_assoc. reflexivity.
  + reflexivity.
Qed.

Lemma kube_env_sets_kubeconfig_witness :
  HostEnv.kubeconfig_path example_host = "/home/alice/.kube/config"%string.
Proof.
exact (proj2 kube_env_sets_kubeconfig converged_world [] example_host
         [address_probe converged_world []] eq_refl).
Defined.

(** ** The primary address is a token *)

Lemma first_token_solid tok s :
  first_token tok s -> tok <> ""%string /\ solid tok = true.
Proof. intros [ws [rest [_ [_ [H1 [H2 _]]]]]]. now split. Qed.

(** X3: the primary address that [HostEnv()] records is never empty and
    holds no whitespace, whatever [hostname -I] prints; so the fallback
    "127.0.1.1" of [ensure_hosts] is never taken for such a host. *)
Theorem primary_ip_is_a_token :
  (forall out,
     HostEnv.primary_ip_of_output out <> ""%string
     /\ solid (HostEnv.primary_ip_of_output out) = true)
  /\ (forall w hist h ev,
        HostEnv.__init__ w hist = (Return h, ev) ->
        HostEnv.primary_ip h <> ""%string
        /\ PyStr.or_ (HostEnv.primary_ip h) "127.0.1.1" = HostEnv.primary_ip h).
Proof.
assert (Htok : forall out,
          HostEnv.primary_ip_of_output out <> ""%string
          /\ solid (HostEnv.primary_ip_of_output out) = true).
{ intros out. unfold HostEnv.primary_ip_of_output.
  assert (Hor : PyStr.or_ out "" = out)
    by (unfold PyStr.or_, PyStr.truthy; now destruct out).
  rewrite Hor.
  destruct (split_first_token out) as [[_ Hs] | [_ [tok [l [Hs Hf]]]]];
    rewrite Hs.
  - split; [discriminate | reflexivity].
  - now apply first_token_solid with (s := out). }
split; [exact Htok|].
intros w hist h ev E. rewrite init_unfold in E. injection E as <- _.
unfold HostEnv.primary_ip, host_of. cbn [HostEnv._primary_ip].
destruct (Htok (snd (spawn w hist ["hostname"; "-I"]%string None))) as [Hne _].
split; [exact Hne|].
unfold PyStr.or_, PyStr.truthy. apply String.eqb_neq in Hne. now rewrite Hne.
Qed.

Lemma primary_ip_is_a_token_witness :
  HostEnv.primary_ip example_host <> ""%string.
Proof.
exact (proj1 (proj2 primary_ip_is_a_token converged_world [] example_host
                [address_probe converged_world []] eq_refl)).
Defined.

(** ** Log lines *)

Lemma append_cancel_l (a x y : string) :
  (a ++ x = a ++ y)%string -> x = y.
Proof.
induction a as [|c a IH]; cbn [append]; intros H; [exact H|].
injection H as H. now apply IH.
Qed.

Lemma append_cancel_r (b x y : string) :
  (x ++ b = y ++ b)%string -> x = y.
Proof.
revert y. induction x as [|c x IH]; intros [|d y] H; cbn [append] in H.
- reflexivity.
- apply (f_equal String.length) in H. cbn [String.length] in H.
  rewrite length_append in H. lia.
- apply (f_equal String.length) in H. cbn [String.length] in H.
  rewrite length_append in H. lia.
- injection H as -> H. f_equal. now apply IH.
Qed.

(** X4: [Log._stamp] keeps messages apart: for any level, two messages
    that give the same line are equal; a level without a colour (a key
    missing from COLORS) gives the plain line "[LEVEL] message", with no
    escape sequence. *)
Theorem stamp_injective :
  (forall level m1 m2,
     Log._stamp level m1 = Log._stamp level m2 -> m1 = m2)
  /\ (forall level msg,
        env_get level Log.COLORS = None ->
        Log._stamp level msg = ("[" ++ level ++ "] " ++ msg)%string).
Proof.
split.
- intros level m1 m2. unfold Log._stamp.
  destruct (PyStr.truthy (Log.color_of level)); intros H.
  + rewrite <- !append_assoc in H.
    apply append_cancel_r in H.
    rewrite !append_assoc in H.
    now do 4 apply append_cancel_l in H.
  + rewrite <- !append_assoc in H. now apply append_cancel_l in H.
- intros level msg Hnone. unfold Log._stamp, Log.color_of.
  rewrite Hnone. reflexivity.
Qed.

Lemma stamp_injective_witness :
  Log._stamp "DEBUG" "x" = "[DEBUG] x"%string.
Proof. exact (proj2 stamp_injective "DEBUG"%string "x"%string eq_refl). Defined.

(** ** Which commands are logged *)

Lemma logged_app (a b : list event) : logged a -> logged b -> logged (a ++ b).
Proof.
intros Ha Hb. induction Ha; cbn [app]; [assumption | | |].
- now apply logged_other.
- now apply logged_probe.
- now apply logged_run.
Qed.

(** In a [logged] list, a child process that is not one of the unlogged
    probes comes right after its command line. *)
Lemma logged_spec (ev : list event) :
  logged ev ->
  forall pre cmd env cp post,
    ev = pre ++ Spawn cmd env cp :: post ->
    unlogged_command cmd = true \/ ends_with [Print (command_line cmd)] pre.
Proof.
intros Hl. induction Hl as [| e ev He Hl IH | args env0 cp0 ev Hp Hl IH
                            | c env0 cp0 ev Hl IH];
  intros pre cmd env cp post E.
- destruct pre; discriminate.
- destruct pre as [|e' pre]; cbn [app] in E.
  + injection E as -> _. discriminate.
  + injection E as _ E. destruct (IH _ _ _ _ _ E) as [H | H]; [now left|].
    right. now apply (ends_with_app _ [e']).
- destruct pre as [|e' pre]; cbn [app] in E.
  + injection E as <- _ _ _. now left.
  + injection E as _ E. destruct (IH _ _ _ _ _ E) as [H | H]; [now left|].
    right. now apply (ends_with_app _ [e']).
- destruct pre as [|e1 [|e2 pre]]; cbn [app] in E.
  + discriminate.
  + injection E as E1 E2 _ _ _. subst e1 c. right. now exists [].
  + injection E as _ _ E. destruct (IH _ _ _ _ _ E) as [H | H]; [now left|].
    right. now apply (ends_with_app _ [e1; e2]).
Qed.

Section Logged.
Variable w : World.

Lemma logged_ret {A} (a : A) : logged_in w (ret a).
Proof. intros h. constructor. Qed.

Lemma logged_raise {A} x : logged_in w (@raise A x).
Proof. intros h. constructor. Qed.

Lemma logged_bind {A B} (m : M A) (f : A -> M B) :
  logged_in w m -> (forall a, logged_in w (f a)) -> logged_in w (bind m f).
Proof.
intros Hm Hf h. specialize (Hm h). unfold bind.
destruct (m w h) as [[a|x|] e1]; cbn [snd] in *; try assumption.
specialize (Hf a (h ++ e1)). destruct (f a w (h ++ e1)) as [r e2].
cbn [snd] in *. now apply logged_app.
Qed.

Lemma logged_try_except {A} (body : M A) catches handler :
  logged_in w body -> (forall x, logged_in w (handler x)) ->
  logged_in w (try_except body catches handler).
Proof.
intros Hb Hh h. specialize (Hb h). unfold try_except.
destruct (body w h) as [[a|x|] e1]; cbn [snd] in *; try assumption.
destruct (catches x); [|assumption].
specialize (Hh x (h ++ e1)). destruct (handler x w (h ++ e1)) as [r e2].
cbn [snd] in *. now apply logged_app.
Qed.

Lemma logged_print s : logged_in w (print s).
Proof. intros h. now repeat constructor. Qed.

Lemma logged_sleep z : logged_in w (time_sleep z).
Proof. intros h. now repeat constructor. Qed.

Lemma logged_time : logged_in w time_now.
Proof. intros h. now repeat constructor. Qed.

Lemma logged_exists path : logged_in w (exists_ path).
Proof. intros h. now repeat constructor. Qed.

Lemma logged_which n : logged_in w (which n).
Proof. intros h. now repeat constructor. Qed.

Lemma logged_geteuid : logged_in w geteuid.
Proof. intros h. now repeat constructor. Qed.

Lemma logged_get_environ : logged_in w get_environ.
Proof. intros h. constructor. Qed.

Lemma logged_get_script_dir : logged_in w get_script_dir.
Proof. intros h. constructor. Qed.

Lemma logged_write_file path contents : logged_in w (write_file path contents).
Proof.
intros h. unfold write_file.
destruct (open_write _ _ _ _); now repeat constructor.
Qed.

Lemma logged_chmod path mode : logged_in w (chmod path mode).
Proof.
intros h. unfold chmod. destruct (os_chmod _ _ _ _); now repeat constructor.
Qed.

Lemma logged_subprocess_run args check capture env :
  unlogged_command args = true ->
  logged_in w (subprocess_run args check capture env).
Proof.
intros Hp h. unfold subprocess_run. destruct (spawn w h args env) as [rc out].
destruct (check && _)%bool; cbn [snd];
  (apply logged_probe; [exact Hp | constructor]).
Qed.

Lemma logged_run_helper cmd check capture env :
  logged_in w (run cmd check capture env None).
Proof.
intros h. destruct check.
- rewrite run_checked. cbv zeta.
  destruct (returncode _ =? 0)%Z; cbn [snd]; apply logged_run; constructor.
- rewrite run_unchecked. cbn [snd]. apply logged_run; constructor.
Qed.

Lemma logged_kube_env h : logged_in w (HostEnv.kube_env h).
Proof.
unfold HostEnv.kube_env. apply logged_bind; [apply logged_get_environ|].
intros e. apply logged_ret.
Qed.

Lemma logged_wait_kubeconfig n : logged_in w (K3sCluster.wait_kubeconfig n).
Proof.
induction n as [|n IH]; [apply logged_ret|].
cbn [K3sCluster.wait_kubeconfig].
apply logged_bind; [apply logged_exists | intros b].
destruct b; [apply logged_ret|].
apply logged_bind; [apply logged_sleep | intros _; exact IH].
Qed.

Lemma logged_wait_nodes_loop n : logged_in w (K3sCluster.wait_nodes_loop n).
Proof.
induction n as [|n IH]; [apply logged_ret|].
cbn [K3sCluster.wait_nodes_loop].
apply logged_bind; [now apply logged_subprocess_run | intros cp].
destruct (K3sCluster.nodes_converged _).
- apply logged_bind; [apply logged_print | intros _; apply logged_ret].
- apply logged_bind; [apply logged_sleep | intros _; exact IH].
Qed.

Lemma logged_poll_pods fuel e deadline :
  logged_in w (RancherDeployment.poll_pods fuel e deadline).
Proof.
induction fuel as [|fuel IH]; [intros h; constructor|].
cbn [RancherDeployment.poll_pods].
apply logged_bind; [apply logged_time | intros now].
destruct (RancherDeployment.Qltb now deadline); [|apply logged_ret].
apply logged_bind; [now apply logged_subprocess_run | intros cp].
destruct (RancherDeployment.phases_converged _).
- apply logged_bind; [apply logged_print | intros _; apply logged_ret].
- apply logged_bind; [apply logged_sleep | intros _; exact IH].
Qed.

End Logged.

Ltac logged_step :=
  first
    [ apply logged_ret
    | apply logged_raise
    | apply logged_print
    | apply logged_sleep
    | apply logged_time
    | apply logged_exists
    | apply logged_which
    | apply logged_geteuid
    | apply logged_get_environ
    | apply logged_get_script_dir
    | apply logged_write_file
    | apply logged_chmod
    | apply logged_kube_env
    | apply logged_wait_kubeconfig
    | apply logged_wait_nodes_loop
    | apply logged_poll_pods
    | apply logged_run_helper
    | apply logged_subprocess_run; reflexivity
    | apply logged_try_except; [|intros ?]
    | apply logged_bind; [|intros ?]
    | match goal with
      | |- logged_in _ (if ?b then _ else _) => destruct b
      end ].

Ltac logged_auto :=
  unfold Log.info, Log.success, Log.warn, Log.error, Log.section, sys_exit;
  repeat logged_step.

Lemma process_logged fuel w : logged (snd (process fuel w)).
Proof.
unfold process. revert fuel. enough (H : forall fuel, logged_in w (main fuel)).
{ intros fuel. exact (H fuel []). }
intros fuel. unfold main, BootstrapOrchestrator.__init__.
apply logged_bind.
{ unfold HostEnv.__init__, HostEnv._detect_primary_ip. logged_auto. }
intros h. unfold BootstrapOrchestrator.run.
apply logged_bind.
{ unfold BootstrapOrchestrator.require_sudo. logged_auto. }
intros _. apply logged_bind.
{ unfold BootstrapOrchestrator.show_mode. logged_auto. }
intros _. apply logged_bind.
{ unfold K3sCluster.ensure_hosts. logged_auto. }
intros _. apply logged_bind.
{ unfold K3sCluster.install_or_verify, K3sCluster._fix_kubeconfig_permissions,
    K3sCluster._wait_nodes_ready, HostEnv.ensure_kube_dir. logged_auto. }
intros _. apply logged_bind.
{ unfold K3sCluster.ensure_kubectl. logged_auto. }
intros _. apply logged_bind.
{ unfold K3sCluster.apply_bootstrap_yaml. logged_auto. }
intros _. apply logged_bind.
{ unfold K3sCluster.ensure_helm. logged_auto. }
intros _. apply logged_bind.
{ unfold RancherDeployment.install. logged_auto. }
intros _. apply logged_bind.
{ unfold RancherDeployment.wait_ready. logged_auto. }
intros _. apply logged_bind.
{ unfold ClusterBanner.verify_cluster. logged_auto. }
intros _. apply logged_bind.
{ unfold ClusterBanner.access. logged_auto. }
intros _. unfold ClusterBanner.final. logged_auto.
Qed.

(** X5: the [run] helper prints the command line, "$ " followed by the
    arguments joined by spaces, right before it starts the process, also
    when the process then fails; over a whole run every child process is
    either one of the probes that the script starts without [run] or comes
    right after its own command line. *)
Theorem commands_are_logged :
  (forall cmd check capture env w hist,
     exists cp,
       snd (run cmd check capture env None w hist)
       = [Print (Log._stamp "INFO" ("$ " ++ PyStr.join " " cmd));
          Spawn cmd env cp]
       /\ (fst (run cmd check capture env None w hist) = Return cp
           \/ check = true /\ returncode cp <> 0%Z
              /\ fst (run cmd check capture env None w hist)
                 = Raise (CalledProcessError (returncode cp) cmd)))
  /\ (forall fuel w pre cmd env cp post,
        snd (process fuel w) = pre ++ Spawn cmd env cp :: post ->
        unlogged_command cmd = true
        \/ ends_with [Print (Log._stamp "INFO" ("$ " ++ PyStr.join " " cmd))]
                     pre).
Proof.
assert (Hcl : forall cmd,
          command_line cmd = Log._stamp "INFO" ("$ " ++ PyStr.join " " cmd)).
{ intros cmd. unfold command_line. now rewrite append_nil_r. }
split.
- intros cmd check capture env w hist.
  exists (completed_of w (hist ++ [Print (command_line cmd)]) cmd capture env).
  rewrite <- Hcl. destruct check.
  + rewrite run_checked. cbv zeta.
    destruct (returncode _ =? 0)%Z eqn:E; cbn [fst snd].
    * split; [reflexivity | now left].
    * split; [reflexivity | right]. repeat split. now apply Z.eqb_neq.
  + rewrite run_unchecked. cbn [fst snd]. split; [reflexivity | now left].
- intros fuel w pre cmd env cp post E. rewrite <- Hcl.
  exact (logged_spec _ (process_logged fuel w) _ _ _ _ _ E).
Qed.

Lemma commands_are_logged_witness :
  unlogged_command ["hostname"; "-I"]%string = true
  \/ ends_with [Print (Log._stamp "INFO" "$ hostname -I")] [].
Proof.
apply (proj2 commands_are_logged 0 unprivileged_world []
         ["hostname"; "-I"]%string None
         (completed_of unprivileged_world [] ["hostname"; "-I"]%string true None)
         [GetEuid 1000;
          Print (Log._stamp "ERROR" BootstrapOrchestrator.sudo_msg)]).
reflexivity.
Defined.


(** ** The wait for the credential file *)

Lemma failed_tests_snoc (hist : history) (j : nat) :
  (hist ++ [Stat K3sCluster.kcfg false; Sleep 2]) ++ failed_tests j
  = hist ++ failed_tests (S j).
Proof. now rewrite <- app_assoc. Qed.

(** X6: the wait for the credential file tests the file up to [n] times,
    two seconds apart; it stops at the first test that finds the file,
    after exactly one test and one sleep for each earlier attempt, and it
    gives up after [n] failed tests.  A file that is there at the first
    test costs no sleep. *)
Theorem credential_wait_outcomes (n : nat) (w : World) (hist : history) :
  (exists k,
     k < n
     /\ K3sCluster.wait_kubeconfig n w hist
        = (Return true, failed_tests k ++ [Stat K3sCluster.kcfg true])
     /\ path_exists w (hist ++ failed_tests k) K3sCluster.kcfg = true
     /\ forall j, j < k ->
          path_exists w (hist ++ failed_tests j) K3sCluster.kcfg = false)
  \/ (K3sCluster.wait_kubeconfig n w hist = (Return false, failed_tests n)
      /\ forall j, j < n ->
           path_exists w (hist ++ failed_tests j) K3sCluster.kcfg = false).
Proof.
revert hist. induction n as [|n IH]; intros hist.
- right. split; [reflexivity | intros j Hj; lia].
- rewrite wait_kubeconfig_step. cbv zeta.
  destruct (path_exists w hist K3sCluster.kcfg) eqn:E.
  + left. exists 0. split; [lia|]. split; [reflexivity|].
    cbn [failed_tests]. rewrite app_nil_r. split; [exact E | intros j Hj; lia].
  + destruct (IH (hist ++ [Stat K3sCluster.kcfg false; Sleep 2]))
      as [[k [Hk [Hr [Hp Hf]]]] | [Hr Hf]].
    * left. exists (S k). split; [lia|]. rewrite Hr. split; [reflexivity|].
      rewrite failed_tests_snoc in Hp. split; [exact Hp|].
      intros [|j] Hj.
      -- cbn [failed_tests]. now rewrite app_nil_r.
      -- rewrite <- failed_tests_snoc. apply Hf. lia.
    * right. rewrite Hr. split; [reflexivity|].
      intros [|j] Hj.
      -- cbn [failed_tests]. now rewrite app_nil_r.
      -- rewrite <- failed_tests_snoc. apply Hf. lia.
Qed.

(** ** When the K3s installer runs *)

Lemma outputs_of_quiet cmd (ev : list event) :
  Forall (fun e => on_spawn (fun args => args_eqb args cmd) e = false) ev ->
  outputs_of cmd ev = [].
Proof.
induction 1 as [|e ev He _ IH]; [reflexivity|].
destruct e; cbn [outputs_of]; try exact IH.
cbn [on_spawn] in He. now rewrite He.
Qed.

Lemma runs_of_app cmd (a b : list event) :
  runs_of cmd (a ++ b) = runs_of cmd a + runs_of cmd b.
Proof. unfold runs_of. now rewrite outputs_of_app, length_app. Qed.

Lemma credential_gate_no_installer h w :
  quiet_in w (on_spawn (fun args => args_eqb args K3sCluster.k3s_install_cmd))
    (credential_gate h).
Proof.
unfold credential_gate, K3sCluster._fix_kubeconfig_permissions,
  K3sCluster._wait_nodes_ready, HostEnv.ensure_kube_dir.
quiet_auto.
Qed.

(** The credential wait and what follows it either return or end in
    [sys.exit(1)]. *)
Lemma credential_gate_result h w hist :
  (exists u, fst (credential_gate h w hist) = Return u)
  \/ fst (credential_gate h w hist) = Raise (SystemExit 1).
Proof.
unfold credential_gate, Log.info. rewrite !bind_print, !fst_prepend.
cbv beta.
destruct (wait_kubeconfig_result w 60 (hist ++ [Print (Log._stamp "INFO" "Waiting for K3s kubeconfig...")]))
  as [H | H].
- left.
  destruct (K3sCluster.wait_kubeconfig 60 w _) as [r e1] eqn:E.
  cbn [fst] in H. subst r. rewrite (bind_Return _ _ _ _ _ _ E), fst_prepend.
  cbv beta iota. rewrite bind_ret.
  apply returns_bind; [apply returns_fix_kubeconfig_permissions | intros _].
  apply returns_wait_nodes_ready.
- right. rewrite (bind_Return _ _ _ _ _ _ H), fst_prepend.
  cbv beta iota. unfold Log.error, sys_exit.
  rewrite bind_assoc, bind_print. reflexivity.
Qed.

(** [install_or_verify] up to the credential wait. *)
Lemma install_or_verify_cases h w hist :
  (exists pre hist',
     K3sCluster.install_or_verify h w hist
     = prepend pre (credential_gate h w hist')
     /\ runs_of K3sCluster.k3s_install_cmd pre
        = (if k3s_active w hist then 0 else 1))
  \/ (k3s_active w hist = false
      /\ exists pre cp,
           returncode cp <> 0%Z /\ stdout cp = ""%string
           /\ K3sCluster.install_or_verify h w hist
              = (Raise (CalledProcessError (returncode cp)
                          K3sCluster.k3s_install_cmd),
                 pre ++ [Print (command_line K3sCluster.k3s_install_cmd);
                         Spawn K3sCluster.k3s_install_cmd None cp])
           /\ runs_of K3sCluster.k3s_install_cmd pre = 0
           /\ stats_of K3sCluster.kcfg pre <= 1 /\ sleeps pre = 0).
Proof.
remember (K3sCluster.install_or_verify h w hist) as r eqn:Er.
unfold K3sCluster.install_or_verify in Er. unfold k3s_active.
rewrite bind_subprocess_run_unchecked in Er. cbv zeta in Er.
change ["systemctl"; "is-active"; "--quiet"; "k3s"]%string with systemctl_cmd
  in Er.
set (a := completed_of w hist systemctl_cmd false None) in *.
destruct (returncode a =? 0)%Z; cbn [andb].
- rewrite bind_exists in Er.
  destruct (path_exists w _ K3sCluster.kcfg).
  + left. unfold Log.info at 1 in Er. rewrite bind_print in Er. cbv beta in Er.
    rewrite !prepend_prepend in Er. eexists. eexists.
    split; [exact Er | reflexivity].
  + unfold Log.info at 1 in Er. rewrite bind_assoc, bind_print in Er.
    cbv beta in Er. rewrite bind_assoc, bind_run_checked in Er.
    cbv zeta in Er.
    match type of Er with
    | context [(returncode ?c =? 0)%Z] =>
        set (cp := c) in *; destruct (returncode cp =? 0)%Z eqn:E
    end.
    * left. rewrite bind_ret, !prepend_prepend in Er.
      eexists. eexists. split; [exact Er | reflexivity].
    * right. split; [reflexivity|].
      exists [Spawn systemctl_cmd None a; Stat K3sCluster.kcfg false;
              Print (Log._stamp "INFO" "Installing K3s server (traefik disabled)...")].
      exists cp. split; [now apply Z.eqb_neq|]. split; [reflexivity|].
      split; [exact Er|]. split; [reflexivity|]. split; [|reflexivity].
      cbn. lia.
- rewrite bind_ret in Er.
  unfold Log.info at 1 in Er. rewrite bind_assoc, bind_print in Er.
  cbv beta in Er. rewrite bind_assoc, bind_run_checked in Er. cbv zeta in Er.
  match type of Er with
  | context [(returncode ?c =? 0)%Z] =>
      set (cp := c) in *; destruct (returncode cp =? 0)%Z eqn:E
  end.
  + left. rewrite bind_ret, !prepend_prepend in Er.
    eexists. eexists. split; [exact Er | reflexivity].
  + right. split; [reflexivity|].
    exists [Spawn systemctl_cmd None a;
            Print (Log._stamp "INFO" "Installing K3s server (traefik disabled)...")].
    exists cp. split; [now apply Z.eqb_neq|]. split; [reflexivity|].
    split; [exact Er|]. split; [reflexivity|]. split; [|reflexivity].
    cbn. lia.
Qed.

(** X7: [install_or_verify] starts the K3s installer exactly once when the
    service is not active or its credential file is missing, and never
    otherwise; the only command whose failure ends the method is that
    installer, and the method then stops at once, without waiting for the
    credential file. *)
Theorem k3s_installer_gating (h : HostEnv.t) (w : World) (hist : history) :
  runs_of K3sCluster.k3s_install_cmd
    (snd (K3sCluster.install_or_verify h w hist))
  = (if k3s_active w hist then 0 else 1)
  /\ forall rc cmd,
       fst (K3sCluster.install_or_verify h w hist)
       = Raise (CalledProcessError rc cmd) ->
       k3s_active w hist = false
       /\ cmd = K3sCluster.k3s_install_cmd /\ rc <> 0%Z
       /\ ends_with [Print (command_line K3sCluster.k3s_install_cmd);
                     Spawn K3sCluster.k3s_install_cmd None
                       (mkCompleted rc "")]
            (snd (K3sCluster.install_or_verify h w hist))
       /\ sleeps (snd (K3sCluster.install_or_verify h w hist)) = 0.
Proof.
destruct (install_or_verify_cases h w hist)
  as [[pre [hist' [E Hruns]]] | [Hact [pre [cp [Hrc [Hout [E [Hruns [_ Hsl]]]]]]]]];
  rewrite E.
- split.
  + rewrite snd_prepend, runs_of_app, Hruns.
    unfold runs_of at 1.
    rewrite (outputs_of_quiet _ _ (credential_gate_no_installer h w hist')).
    cbn [length]. lia.
  + intros rc cmd H. rewrite fst_prepend in H.
    destruct (credential_gate_result h w hist') as [[u Hu] | Hx];
      rewrite H in *; discriminate.
- split.
  + cbn [snd]. rewrite runs_of_app, Hruns, Hact. reflexivity.
  + intros rc cmd H. cbn [fst] in H. injection H as <- <-.
    split; [exact Hact|]. split; [reflexivity|]. split; [exact Hrc|].
    cbn [snd]. split.
    * exists pre. destruct cp as [c o]. cbn [stdout returncode] in *.
      now subst o.
    * rewrite sleeps_app, Hsl. reflexivity.
Qed.

Lemma k3s_installer_gating_witness :
  k3s_active k3s_failure_world [] = false
  /\ K3sCluster.k3s_install_cmd = K3sCluster.k3s_install_cmd /\ 7%Z <> 0%Z
  /\ ends_with [Print (command_line K3sCluster.k3s_install_cmd);
                Spawn K3sCluster.k3s_install_cmd None (mkCompleted 7 "")]
       (snd (K3sCluster.install_or_verify example_host k3s_failure_world []))
  /\ sleeps (snd (K3sCluster.install_or_verify example_host
                    k3s_failure_world [])) = 0.
Proof.
apply (proj2 (k3s_installer_gating example_host k3s_failure_world [])
         7%Z K3sCluster.k3s_install_cmd).
reflexivity.
Defined.


(** ** The helm installer *)

(** The four ways through [ensure_helm]. *)
Lemma ensure_helm_cases w hist :
  let a := shutil_which w hist "helm" in
  (truthy_opt a = true
   /\ K3sCluster.ensure_helm w hist
      = (Return tt, [Which "helm" a; Print (Log._stamp "INFO" "helm present.")]))
  \/ (truthy_opt a = false
      /\ exists cp,
           let pre := [Which "helm" a;
                       Print (Log._stamp "INFO" "Installing helm (get-helm-3)...");
                       Print (command_line K3sCluster.get_helm_cmd);
                       Spawn K3sCluster.get_helm_cmd None cp] in
           (returncode cp <> 0%Z
            /\ K3sCluster.ensure_helm w hist
               = (Raise (CalledProcessError (returncode cp)
                           K3sCluster.get_helm_cmd), pre))
           \/ (returncode cp = 0%Z
               /\ exists b,
                    (truthy_opt b = true
                     /\ K3sCluster.ensure_helm w hist
                        = (Return tt, pre ++ [Which "helm" b]))
                    \/ (truthy_opt b = false
                        /\ K3sCluster.ensure_helm w hist
                           = (Raise (SystemExit 2),
                              pre ++ [Which "helm" b;
                                      Print (Log._stamp "ERROR"
                                               K3sCluster.helm_missing_msg)])))).
Proof.
cbv zeta. remember (K3sCluster.ensure_helm w hist) as r eqn:Er.
unfold K3sCluster.ensure_helm in Er. rewrite bind_which in Er.
destruct (truthy_opt (shutil_which w hist "helm")) eqn:Ea.
- left. split; [reflexivity | exact Er].
- right. split; [reflexivity|].
  unfold Log.info in Er. rewrite bind_print in Er. cbv beta in Er.
  rewrite bind_run_checked in Er. cbv zeta in Er.
  match type of Er with
  | context [(returncode ?c =? 0)%Z] =>
      set (cp := c) in *; destruct (returncode cp =? 0)%Z eqn:E
  end.
  + exists cp. right. split; [now apply Z.eqb_eq|].
    rewrite bind_which in Er.
    match type of Er with
    | context [truthy_opt ?x] => exists x; destruct (truthy_opt x) eqn:Eb
    end.
    * left. split; [reflexivity | exact Er].
    * right. split; [reflexivity|]. cbn [negb] in Er.
      unfold Log.error, sys_exit in Er. rewrite bind_print in Er. exact Er.
  + exists cp. left. split; [now apply Z.eqb_neq | exact Er].
Qed.

(** X8: when [ensure_helm] returns, the last lookup of [helm] found it;
    the only command it starts is the helm installer, once, and only when
    the first lookup found nothing; it stops the run only with
    [sys.exit(2)] or with the failure of that installer. *)
Theorem helm_present_on_return (w : World) (hist : history) :
  (forall u,
     fst (K3sCluster.ensure_helm w hist) = Return u ->
     exists found,
       last_which "helm" (snd (K3sCluster.ensure_helm w hist)) = Some found
       /\ truthy_opt found = true)
  /\ spawn_args (snd (K3sCluster.ensure_helm w hist))
     = (if truthy_opt (shutil_which w hist "helm") then []
        else [K3sCluster.get_helm_cmd])
  /\ (forall x,
        fst (K3sCluster.ensure_helm w hist) = Raise x ->
        x = SystemExit 2
        \/ exists rc,
             rc <> 0%Z /\ x = CalledProcessError rc K3sCluster.get_helm_cmd)
  /\ fst (K3sCluster.ensure_helm w hist) <> OutOfFuel.
Proof.
destruct (ensure_helm_cases w hist)
  as [[Ha E] | [Ha [cp [[Hrc E] | [Hrc [b [[Hb E] | [Hb E]]]]]]]];
  rewrite E, Ha; cbn [fst snd].
- split; [|split; [reflexivity | split; [discriminate | discriminate]]].
  intros _ _. eexists. split; [reflexivity | exact Ha].
- split; [discriminate|]. split; [reflexivity|]. split; [|discriminate].
  intros x [= <-]. right. now exists (returncode cp).
- split; [|split; [reflexivity | split; [discriminate | discriminate]]].
  intros _ _. exists b. split; [reflexivity | exact Hb].
- split; [discriminate|]. split; [reflexivity|]. split; [|discriminate].
  intros x [= <-]. now left.
Qed.

Lemma helm_present_on_return_witness :
  exists found,
    last_which "helm" (snd (K3sCluster.ensure_helm converged_world []))
    = Some found
    /\ truthy_opt found = true.
Proof.
apply (proj1 (helm_present_on_return converged_world []) tt).
reflexivity.
Defined.


(** ** The kubectl shim *)

(** X9: [ensure_kubectl] always returns and starts no process.  It touches
    the file system only when [kubectl] is not on the PATH, [k3s] is, and
    nothing exists at /usr/local/bin/kubectl; it then writes the shim and,
    only after a successful write, sets its mode to 0o755.  A failing write
    or mode change is reported in an error line and not raised. *)
Theorem kubectl_shim (w : World) (hist : history) :
  fst (K3sCluster.ensure_kubectl w hist) = Return tt
  /\ spawned (snd (K3sCluster.ensure_kubectl w hist)) = 0
  /\ if shim_wanted w hist then
       (exists msg,
          file_ops (snd (K3sCluster.ensure_kubectl w hist))
          = [WriteFile shim_target K3sCluster.shim_contents (Some msg)]
          /\ last_event (snd (K3sCluster.ensure_kubectl w hist))
             = Some (Print (Log._stamp "ERROR"
                              ("Failed to create kubectl shim: " ++ msg))))
       \/ (exists msg,
             file_ops (snd (K3sCluster.ensure_kubectl w hist))
             = [WriteFile shim_target K3sCluster.shim_contents None;
                Chmod shim_target 493 (Some msg)]
             /\ last_event (snd (K3sCluster.ensure_kubectl w hist))
                = Some (Print (Log._stamp "ERROR"
                                 ("Failed to create kubectl shim: " ++ msg))))
       \/ (file_ops (snd (K3sCluster.ensure_kubectl w hist))
           = [WriteFile shim_target K3sCluster.shim_contents None;
              Chmod shim_target 493 None]
           /\ last_event (snd (K3sCluster.ensure_kubectl w hist))
              = Some (Print (Log._stamp "SUCCESS"
                               "kubectl shim created at /usr/local/bin/kubectl")))
     else file_ops (snd (K3sCluster.ensure_kubectl w hist)) = [].
Proof.
remember (K3sCluster.ensure_kubectl w hist) as r eqn:Er.
unfold K3sCluster.ensure_kubectl in Er. unfold shim_wanted. cbv zeta.
rewrite bind_which in Er.
destruct (truthy_opt (shutil_which w hist "kubectl")) eqn:Ek; cbn [negb andb].
{ subst r. repeat split. }
rewrite bind_which in Er.
destruct (truthy_opt (shutil_which w _ "k3s")) eqn:Ek3s; cbn [negb andb] in *.
2:{ subst r. repeat split. }
rewrite bind_exists in Er. fold shim_target in Er.
destruct (path_exists w _ shim_target) eqn:Ep; cbn [negb] in *.
{ subst r. repeat split. }
unfold Log.info in Er. rewrite bind_print in Er. cbv beta in Er.
unfold try_except, bind, write_file, chmod, Log.success, Log.error, print in Er.
match type of Er with
| context [open_write w ?h ?p ?c] => destruct (open_write w h p c) as [msg|]
end.
{ subst r. split; [reflexivity|]. split; [reflexivity|].
  left. exists msg. split; reflexivity. }
match type of Er with
| context [os_chmod w ?h ?p ?m] => destruct (os_chmod w h p m) as [msg|]
end.
{ subst r. split; [reflexivity|]. split; [reflexivity|].
  right. left. exists msg. split; reflexivity. }
subst r. split; [reflexivity|]. split; [reflexivity|].
right. right. split; reflexivity.
Qed.


(** ** The entry in /etc/hosts *)

(** X10: [ensure_hosts] always returns, whatever its commands answer.  It
    asks for the host name and greps /etc/hosts for it; it appends the line
    "<ip> <hostname>" through a shell exactly when that [grep] exits with a
    non-zero status, and starts nothing else. *)
Theorem hosts_entry_appended_when_missing
    (h : HostEnv.t) (w : World) (hist : history) :
  fst (K3sCluster.ensure_hosts h w hist) = Return tt
  /\ spawn_args (snd (K3sCluster.ensure_hosts h w hist))
     = ["hostname"]%string
       :: hosts_grep_cmd (hosts_name w hist)
       :: (if (returncode (hosts_grep h w hist) =? 0)%Z then []
           else [hosts_append_cmd (hosts_ip h) (hosts_name w hist)])
  /\ printed (Log._stamp "INFO" "Host entry already present.")
       (snd (K3sCluster.ensure_hosts h w hist))
     = (returncode (hosts_grep h w hist) =? 0)%Z.
Proof.
remember (K3sCluster.ensure_hosts h w hist) as r eqn:Er.
unfold K3sCluster.ensure_hosts in Er.
rewrite bind_subprocess_run_unchecked in Er. cbv zeta in Er.
unfold Log.info at 1 in Er. rewrite bind_print in Er. cbv beta in Er.
rewrite bind_subprocess_run_unchecked in Er. cbv zeta in Er.
rewrite <- !app_assoc in Er. cbn [app] in Er.
fold (hosts_name w hist) in Er. fold (hosts_ip h) in Er.
fold (hosts_grep_cmd (hosts_name w hist)) in Er.
fold (hosts_grep h w hist) in Er.
destruct (returncode (hosts_grep h w hist) =? 0)%Z eqn:E; cbn [negb] in Er.
- subst r. split; [reflexivity|]. split; [reflexivity|].
  unfold Log.info, print, prepend. cbn [snd app printed existsb].
  now rewrite String.eqb_refl, !orb_true_r.
- unfold Log.info at 1 in Er. rewrite bind_print in Er. cbv beta in Er.
  rewrite bind_run_unchecked in Er. cbv beta zeta in Er.
  subst r. split; [reflexivity|]. split; [reflexivity|].
  unfold ret, prepend. cbn [snd app printed existsb orb].
  reflexivity.
Qed.


(** ** The optional manifest *)


(** ** The copy of the credential file *)

(** X12: [_fix_kubeconfig_permissions] always returns.  When the K3s
    credential file exists it starts six commands in this order, each
    whatever the one before answered: create the user's .kube directory,
    give it to the user, mode 700, copy the credential file into it, give
    the directory to the user again, mode 600 on the copy; it then reports
    the copy.  When the file does not exist it starts nothing. *)
Theorem credential_copy_sequence
    (h : HostEnv.t) (w : World) (hist : history) :
  fst (K3sCluster._fix_kubeconfig_permissions h w hist) = Return tt
  /\ spawn_args (snd (K3sCluster._fix_kubeconfig_permissions h w hist))
     = (if path_exists w hist K3sCluster.kcfg then credential_copy_cmds h
        else [])
  /\ last_event (snd (K3sCluster._fix_kubeconfig_permissions h w hist))
     = Some (Print (Log._stamp
                      (if path_exists w hist K3sCluster.kcfg then "INFO"
                       else "ERROR")
                      (if path_exists w hist K3sCluster.kcfg
                       then "Kubeconfig copied to " ++ HostEnv.kubeconfig_path h
                       else "kubeconfig not found, skipping copy."))).
Proof.
remember (K3sCluster._fix_kubeconfig_permissions h w hist) as r eqn:Er.
unfold K3sCluster._fix_kubeconfig_permissions in Er. cbv zeta in Er.
rewrite bind_exists in Er. fold K3sCluster.kcfg in Er.
destruct (path_exists w hist K3sCluster.kcfg); cbn [negb] in Er.
- unfold HostEnv.ensure_kube_dir in Er. cbv zeta in Er.
  repeat (rewrite ?bind_assoc, ?bind_run_unchecked, ?bind_ret in Er;
          cbv beta zeta in Er).
  subst r. repeat split.
- subst r. repeat split.
Qed.

(** ** The verification banner *)

Lemma contains_not_ready (out : string) :
  PyStr.contains "NotReady" out = true -> PyStr.contains "Ready" out = true.
Proof.
rewrite !contains_iff. intros [pre [post ->]].
exists (pre ++ "Not")%string, post. now rewrite !append_assoc.
Qed.

Lemma verify_cluster_unfold h w hist :
  ClusterBanner.verify_cluster h w hist
  = let cp := nodes_report h w hist in
    (Return tt,
     [Print (section_line "Cluster Verification");
      Print (command_line get_nodes_banner_cmd);
      Spawn get_nodes_banner_cmd
        (Some (env_set "KUBECONFIG" (HostEnv.kubeconfig_path h) (os_environ w)))
        cp]
     ++ (if PyStr.truthy (stdout cp) then [Print (stdout cp)]
         else [Print (Log._stamp "WARN" "Could not get nodes output");
               Print "None"%string])
     ++ [Print (if PyStr.truthy (stdout cp)
                   && PyStr.contains "Ready" (stdout cp)
                then healthy_line else unhealthy_line)]).
Proof.
unfold ClusterBanner.verify_cluster, Log.section.
rewrite bind_print. cbv beta zeta.
rewrite bind_kube_env, bind_run_unchecked. cbv beta zeta.
rewrite <- !app_assoc. cbn [app].
fold (section_line "Cluster Verification"). fold get_nodes_banner_cmd.
fold (nodes_report h w hist).
destruct (PyStr.truthy (stdout (nodes_report h w hist))); cbn [andb].
- rewrite bind_print.
  destruct (PyStr.contains "Ready" (stdout (nodes_report h w hist)));
    reflexivity.
- unfold Log.warn at 1. rewrite bind_assoc, bind_print. cbv beta.
  rewrite bind_print. reflexivity.
Qed.

(** X13: [verify_cluster] always returns and starts one process,
    [kubectl get nodes] with KUBECONFIG set, whose exit status it ignores.
    With an empty output it prints a warning and then the text None;
    otherwise it prints the output.  Its verdict is the healthy line
    exactly when the output contains the text Ready, so an output that
    lists a node as NotReady gets the healthy line too. *)
Theorem verify_cluster_verdict (h : HostEnv.t) (w : World) (hist : history) :
  fst (ClusterBanner.verify_cluster h w hist) = Return tt
  /\ spawns (snd (ClusterBanner.verify_cluster h w hist))
     = [Spawn get_nodes_banner_cmd
          (Some (env_set "KUBECONFIG" (HostEnv.kubeconfig_path h)
                   (os_environ w)))
          (nodes_report h w hist)]
  /\ (stdout (nodes_report h w hist) = ""%string ->
      ends_with [Print (Log._stamp "WARN" "Could not get nodes output");
                 Print "None"%string; Print unhealthy_line]
        (snd (ClusterBanner.verify_cluster h w hist)))
  /\ (stdout (nodes_report h w hist) <> ""%string ->
      ends_with [Print (stdout (nodes_report h w hist));
                 Print (if PyStr.contains "Ready" (stdout (nodes_report h w hist))
                        then healthy_line else unhealthy_line)]
        (snd (ClusterBanner.verify_cluster h w hist)))
  /\ (PyStr.contains "NotReady" (stdout (nodes_report h w hist)) = true ->
      last_event (snd (ClusterBanner.verify_cluster h w hist))
      = Some (Print healthy_line)).
Proof.
rewrite verify_cluster_unfold. cbv zeta. cbn [fst snd].
set (cp := nodes_report h w hist).
split; [reflexivity|]. split.
{ destruct (PyStr.truthy (stdout cp)); reflexivity. }
split.
{ intros ->. cbn [PyStr.truthy String.eqb negb andb app]. now eexists [_; _; _]. }
split.
{ intros Hne. destruct (stdout cp) as [|c s] eqn:E; [congruence|].
  cbn [PyStr.truthy String.eqb negb andb app]. now eexists [_; _; _]. }
intros Hnr. pose proof (contains_not_ready _ Hnr) as Hr. rewrite Hr.
destruct (stdout cp) as [|c s] eqn:E; [discriminate|].
reflexivity.
Qed.

Lemma verify_cluster_verdict_witness :
  last_event (snd (ClusterBanner.verify_cluster example_host
                     banner_not_ready_world []))
  = Some (Print healthy_line).
Proof.
apply (proj2 (proj2 (proj2 (proj2
         (verify_cluster_verdict example_host banner_not_ready_world []))))).
reflexivity.
Defined.


(** ** What a completed run has seen *)

Section Ensures.
Variable w : World.
Variable G : event -> bool.

Lemma ensures_bind_l {A B} (m : M A) (f : A -> M B) :
  ensures_in w G m -> ensures_in w G (bind m f).
Proof.
intros Hm h b Hb. specialize (Hm h). unfold bind in *.
destruct (m w h) as [[a|x|] e1]; cbn [fst snd] in *; try discriminate.
destruct (f a w (h ++ e1)) as [r e2]. cbn [fst snd] in *.
rewrite existsb_app, (Hm a eq_refl). reflexivity.
Qed.

Lemma ensures_bind_r {A B} (m : M A) (f : A -> M B) :
  (forall a, ensures_in w G (f a)) -> ensures_in w G (bind m f).
Proof.
intros Hf h b Hb. unfold bind in *.
destruct (m w h) as [[a|x|] e1]; cbn [fst snd] in *; try discriminate.
specialize (Hf a (h ++ e1)). destruct (f a w (h ++ e1)) as [r e2].
cbn [fst snd] in *. rewrite existsb_app, (Hf b Hb). apply orb_true_r.
Qed.

End Ensures.

Lemma ensures_require_sudo w :
  ensures_in w root_checked BootstrapOrchestrator.require_sudo.
Proof.
intros h a. rewrite require_sudo_unfold.
destruct (os_geteuid w =? 0)%Z eqn:E; [|discriminate].
intros _. cbn [snd existsb root_checked]. now rewrite E.
Qed.

Lemma wait_kubeconfig_found n w hist :
  fst (K3sCluster.wait_kubeconfig n w hist) = Return true ->
  existsb credential_seen (snd (K3sCluster.wait_kubeconfig n w hist)) = true.
Proof.
revert hist. induction n as [|n IH]; intros hist; [discriminate|].
rewrite wait_kubeconfig_step. cbv zeta.
destruct (path_exists w hist K3sCluster.kcfg); [reflexivity|].
rewrite fst_prepend, snd_prepend, existsb_app. intros H.
rewrite (IH _ H). apply orb_true_r.
Qed.

Lemma ensures_credential_gate h w :
  ensures_in w credential_seen (credential_gate h).
Proof.
unfold credential_gate. apply ensures_bind_r. intros _ hist a.
destruct (wait_kubeconfig_result w 60 hist) as [H | H].
- intros _. pose proof (wait_kubeconfig_found 60 w hist H) as Hf.
  destruct (K3sCluster.wait_kubeconfig 60 w hist) as [r e1] eqn:E.
  cbn [fst snd] in *. subst r. rewrite (bind_Return _ _ _ _ _ _ E), snd_prepend.
  rewrite existsb_app, Hf. reflexivity.
- rewrite (bind_Return _ _ _ _ _ _ H), fst_prepend. cbv beta iota.
  unfold Log.error, sys_exit. rewrite bind_assoc, bind_print. discriminate.
Qed.

Lemma ensures_install_or_verify h w :
  ensures_in w credential_seen (K3sCluster.install_or_verify h).
Proof.
intros hist a.
destruct (install_or_verify_cases h w hist)
  as [[pre [hist' [E _]]] | [_ [pre [cp [_ [_ [E _]]]]]]]; rewrite E.
- rewrite fst_prepend, snd_prepend, existsb_app. intros H.
  rewrite (ensures_credential_gate h w hist' a H). apply orb_true_r.
- discriminate.
Qed.

Lemma ensures_ensure_helm w : ensures_in w helm_found K3sCluster.ensure_helm.
Proof.
intros hist u.
destruct (ensure_helm_cases w hist)
  as [[Ha E] | [Ha [cp [[Hrc E] | [Hrc [b [[Hb E] | [Hb E]]]]]]]];
  rewrite E; cbn [fst snd]; try discriminate; intros _.
- cbn [existsb helm_found]. now rewrite Ha.
- rewrite existsb_app. cbn [existsb helm_found]. rewrite Hb.
  cbn. apply orb_true_r.
Qed.

Lemma ensures_install h w :
  ensures_in w release_settled (RancherDeployment.install h).
Proof.
intros hist u.
destruct (returncode (status_result w h hist) =? 0)%Z eqn:E.
- apply Z.eqb_eq in E. rewrite (install_present h w hist E). intros _.
  cbn [snd install_skipped existsb release_settled]. rewrite E. reflexivity.
- apply Z.eqb_neq in E.
  destruct (install_absent h w hist E) as [add [update [chart ->]]].
  cbn [fst snd]. destruct (returncode chart =? 0)%Z eqn:Ec; [|discriminate].
  intros _. unfold install_performed.
  cbn [existsb release_settled]. rewrite chart_install_helm_cmd, Ec.
  rewrite !orb_true_r. reflexivity.
Qed.

(** X14: a run that completes has passed the privilege check as root, has
    seen the K3s credential file, has found [helm] on the PATH, and has
    either found the Rancher release or installed the chart with exit
    status zero. *)
Theorem completed_run_has_converged (fuel : nat) (w : World) (u : unit) :
  fst (process fuel w) = Return u ->
  existsb root_checked (snd (process fuel w)) = true
  /\ existsb credential_seen (snd (process fuel w)) = true
  /\ existsb helm_found (snd (process fuel w)) = true
  /\ existsb release_settled (snd (process fuel w)) = true.
Proof.
unfold process. revert u.
assert (H1 : ensures_in w root_checked (main fuel)).
{ unfold main. apply ensures_bind_r. intros h.
  unfold BootstrapOrchestrator.run.
  apply ensures_bind_l, ensures_require_sudo. }
assert (H2 : ensures_in w credential_seen (main fuel)).
{ unfold main. apply ensures_bind_r. intros h.
  unfold BootstrapOrchestrator.run.
  do 3 (apply ensures_bind_r; intros _).
  apply ensures_bind_l, ensures_install_or_verify. }
assert (H3 : ensures_in w helm_found (main fuel)).
{ unfold main. apply ensures_bind_r. intros h.
  unfold BootstrapOrchestrator.run.
  do 6 (apply ensures_bind_r; intros _).
  apply ensures_bind_l, ensures_ensure_helm. }
assert (H4 : ensures_in w release_settled (main fuel)).
{ unfold main. apply ensures_bind_r. intros h.
  unfold BootstrapOrchestrator.run.
  do 7 (apply ensures_bind_r; intros _).
  apply ensures_bind_l, ensures_install. }
intros u Hu. repeat split; [eapply H1 | eapply H2 | eapply H3 | eapply H4];
  exact Hu.
Qed.

Lemma completed_run_has_converged_witness :
  existsb root_checked (snd (process 1 converged_world)) = true
  /\ existsb credential_seen (snd (process 1 converged_world)) = true
  /\ existsb helm_found (snd (process 1 converged_world)) = true
  /\ existsb release_settled (snd (process 1 converged_world)) = true.
Proof.
apply (completed_run_has_converged 1 converged_world tt).
vm_compute. reflexivity.
Defined.

(** ** No [helm] before helm is found *)

Lemma guarded_quiet (G Q : event -> bool) (ev : list event) :
  Forall (fun e => Q e = false) ev -> guarded_by G Q ev.
Proof.
intros Hq pre e post -> He. apply Forall_app in Hq. destruct Hq as [_ Hq].
inversion Hq as [|x l Hx _]; subst. congruence.
Qed.

Lemma guarded_app_quiet (G Q : event -> bool) (a b : list event) :
  Forall (fun e => Q e = false) a -> guarded_by G Q b ->
  guarded_by G Q (a ++ b).
Proof.
intros Ha Hb pre e post E He.
apply app_eq_app in E. destruct E as [l [[-> E] | [-> E]]].
- destruct l as [|x l]; cbn [app] in E.
  + pose proof (Hb [] e post (eq_sym E) He) as H. discriminate H.
  + injection E as <- _. apply Forall_app in Ha. destruct Ha as [_ Ha].
    inversion Ha; subst. congruence.
- rewrite existsb_app. rewrite (Hb l e post E He). apply orb_true_r.
Qed.

Lemma guarded_app_seen (G Q : event -> bool) (a b : list event) :
  Forall (fun e => Q e = false) a -> existsb G a = true ->
  guarded_by G Q (a ++ b).
Proof.
intros Ha Hg pre e post E He.
apply app_eq_app in E. destruct E as [l [[-> E] | [-> E]]].
- destruct l as [|x l]; cbn [app] in E.
  + rewrite app_nil_r in Hg. exact Hg.
  + injection E as <- _. apply Forall_app in Ha. destruct Ha as [_ Ha].
    inversion Ha; subst. congruence.
- rewrite existsb_app, Hg. reflexivity.
Qed.

Section Guarded.
Variable w : World.
Variable G : event -> bool.
Variable Q : event -> bool.

(** Past a step without [Q] events, the rest has to be guarded. *)
Lemma guarded_bind_quiet {A B} (m : M A) (f : A -> M B) :
  quiet_in w Q m ->
  (forall a h, guarded_by G Q (snd (f a w h))) ->
  forall h, guarded_by G Q (snd (bind m f w h)).
Proof.
intros Hm Hf h. specialize (Hm h). unfold bind.
destruct (m w h) as [[a|x|] e1]; cbn [snd] in *;
  try (now apply guarded_quiet).
specialize (Hf a (h ++ e1)). destruct (f a w (h ++ e1)) as [r e2].
cbn [snd] in *. now apply guarded_app_quiet.
Qed.

(** Past a step without [Q] events that cannot return without a [G]
    event, anything may follow. *)
Lemma guarded_bind_gate {A B} (m : M A) (f : A -> M B) :
  quiet_in w Q m -> ensures_in w G m ->
  forall h, guarded_by G Q (snd (bind m f w h)).
Proof.
intros Hm Hg h. specialize (Hm h). specialize (Hg h). unfold bind.
destruct (m w h) as [[a|x|] e1]; cbn [fst snd] in *;
  try (now apply guarded_quiet).
destruct (f a w (h ++ e1)) as [r e2]. cbn [snd].
apply guarded_app_seen; [exact Hm | now apply (Hg a)].
Qed.

End Guarded.

Lemma process_helm_guarded fuel w :
  guarded_by helm_found (on_spawn is_helm) (snd (process fuel w)).
Proof.
unfold process, main, BootstrapOrchestrator.__init__.
apply guarded_bind_quiet.
{ unfold HostEnv.__init__, HostEnv._detect_primary_ip. quiet_auto. }
intros h hist. unfold BootstrapOrchestrator.run.
apply guarded_bind_quiet; [apply helm_free_require_sudo | intros _ hist1].
apply guarded_bind_quiet; [apply helm_free_show_mode | intros _ hist2].
apply guarded_bind_quiet; [apply helm_free_ensure_hosts | intros _ hist3].
apply guarded_bind_quiet; [apply helm_free_install_or_verify | intros _ hist4].
apply guarded_bind_quiet; [apply helm_free_ensure_kubectl | intros _ hist5].
apply guarded_bind_quiet; [apply helm_free_apply_bootstrap_yaml | intros _ hist6].
apply guarded_bind_gate; [apply helm_free_ensure_helm | apply ensures_ensure_helm].
Qed.

(** X15: a run never starts a [helm] command before a lookup has found
    [helm] on the PATH. *)
Theorem helm_started_only_when_found
    (fuel : nat) (w : World) (pre : list event) (args : list string)
    (env : option environ) (cp : CompletedProcess) (post : list event) :
  snd (process fuel w) = pre ++ Spawn args env cp :: post ->
  is_helm args = true ->
  exists path,
    In (Which "helm" (Some path)) pre /\ path <> ""%string.
Proof.
intros E Hh.
pose proof (process_helm_guarded fuel w pre (Spawn args env cp) post E Hh) as H.
apply existsb_exists in H. destruct H as [e [Hin He]].
destruct e; try discriminate. cbn [helm_found] in He.
apply andb_true_iff in He. destruct He as [Hn Hp].
apply String.eqb_eq in Hn. subst name.
destruct found as [path|]; [|discriminate].
exists path. split; [exact Hin|]. intros ->. discriminate.
Qed.

Lemma helm_started_only_when_found_witness :
  exists path,
    In (Which "helm" (Some path))
       (before (on_spawn is_helm) (snd (process 1 converged_world)))
    /\ path <> ""%string.
Proof.
apply (helm_started_only_when_found 1 converged_world
         (before (on_spawn is_helm) (snd (process 1 converged_world)))
         RancherDeployment.helm_status_cmd
         (Some (kube_environ converged_world example_host))
         (mkCompleted 0 "")
         (after (on_spawn is_helm) (snd (process 1 converged_world)))).
- vm_compute. reflexivity.
- reflexivity.
Defined.


(** ** Time spent sleeping *)

Lemma slept_app (a b : list event) : slept (a ++ b) = (slept a + slept b)%Z.
Proof.
induction a as [|e a IH]; [reflexivity|].
destruct e; cbn [app slept]; rewrite IH; lia.
Qed.

Section Naps.
Variable w : World.

Lemma naps_weaken {A} (b b' : Z) (m : M A) :
  naps_in w b m -> (b <= b')%Z -> naps_in w b' m.
Proof. intros Hm Hb h. specialize (Hm h). lia. Qed.

Lemma naps_bind {A B} (b1 b2 : Z) (m : M A) (f : A -> M B) :
  (0 <= b2)%Z ->
  naps_in w b1 m -> (forall a, naps_in w b2 (f a)) ->
  naps_in w (b1 + b2) (bind m f).
Proof.
intros Hb Hm Hf h. specialize (Hm h). unfold bind.
destruct (m w h) as [[a|x|] e1]; cbn [snd] in *; try lia.
specialize (Hf a (h ++ e1)). destruct (f a w (h ++ e1)) as [r e2].
cbn [snd] in *. rewrite slept_app. lia.
Qed.

Lemma naps0_bind {A B} (m : M A) (f : A -> M B) :
  naps_in w 0 m -> (forall a, naps_in w 0 (f a)) -> naps_in w 0 (bind m f).
Proof. intros Hm Hf. now apply (naps_bind 0 0). Qed.

Lemma naps0_try_except {A} (body : M A) catches handler :
  naps_in w 0 body -> (forall x, naps_in w 0 (handler x)) ->
  naps_in w 0 (try_except body catches handler).
Proof.
intros Hb Hh h. specialize (Hb h). unfold try_except.
destruct (body w h) as [[a|x|] e1]; cbn [snd] in *; try assumption.
destruct (catches x); [|assumption].
specialize (Hh x (h ++ e1)). destruct (handler x w (h ++ e1)) as [r e2].
cbn [snd] in *. rewrite slept_app. lia.
Qed.

Lemma naps0_ret {A} (a : A) : naps_in w 0 (ret a).
Proof. intros h. reflexivity. Qed.

Lemma naps0_raise {A} x : naps_in w 0 (@raise A x).
Proof. intros h. reflexivity. Qed.

Lemma naps0_print s : naps_in w 0 (print s).
Proof. intros h. reflexivity. Qed.

Lemma naps0_time : naps_in w 0 time_now.
Proof. intros h. reflexivity. Qed.

Lemma naps0_exists path : naps_in w 0 (exists_ path).
Proof. intros h. reflexivity. Qed.

Lemma naps0_which n : naps_in w 0 (which n).
Proof. intros h. reflexivity. Qed.

Lemma naps0_geteuid : naps_in w 0 geteuid.
Proof. intros h. reflexivity. Qed.

Lemma naps0_get_environ : naps_in w 0 get_environ.
Proof. intros h. reflexivity. Qed.

Lemma naps0_get_script_dir : naps_in w 0 get_script_dir.
Proof. intros h. reflexivity. Qed.

Lemma naps0_write_file path contents : naps_in w 0 (write_file path contents).
Proof.
intros h. unfold write_file. destruct (open_write _ _ _ _); reflexivity.
Qed.

Lemma naps0_chmod path mode : naps_in w 0 (chmod path mode).
Proof. intros h. unfold chmod. destruct (os_chmod _ _ _ _); reflexivity. Qed.

Lemma naps0_subprocess_run args check capture env :
  naps_in w 0 (subprocess_run args check capture env).
Proof.
intros h. unfold subprocess_run. destruct (spawn w h args env) as [rc out].
destruct (check && _)%bool; reflexivity.
Qed.

Lemma naps0_run cmd check capture env cwd :
  naps_in w 0 (run cmd check capture env cwd).
Proof.
unfold run. apply naps0_bind; [apply naps0_print | intros _].
apply naps0_subprocess_run.
Qed.

Lemma naps0_kube_env h : naps_in w 0 (HostEnv.kube_env h).
Proof.
unfold HostEnv.kube_env. apply naps0_bind; [apply naps0_get_environ|].
intros e. apply naps0_ret.
Qed.

Lemma naps_wait_kubeconfig n :
  naps_in w (2 * Z.of_nat n) (K3sCluster.wait_kubeconfig n).
Proof.
induction n as [|n IH]; intros h; [reflexivity|].
rewrite wait_kubeconfig_step. cbv zeta.
destruct (path_exists w h K3sCluster.kcfg).
- cbn [snd slept]. lia.
- rewrite snd_prepend, slept_app. cbn [slept].
  specialize (IH (h ++ [Stat K3sCluster.kcfg false; Sleep 2])). lia.
Qed.

Lemma naps_wait_nodes_loop n :
  naps_in w (2 * Z.of_nat n) (K3sCluster.wait_nodes_loop n).
Proof.
induction n as [|n IH]; intros h; [reflexivity|].
rewrite wait_nodes_loop_step. cbv zeta.
destruct (K3sCluster.nodes_converged _).
- cbn [snd slept]. lia.
- rewrite snd_prepend, slept_app. cbn [slept].
  match goal with
  | |- context [K3sCluster.wait_nodes_loop n w ?h'] => specialize (IH h')
  end.
  lia.
Qed.

(** Every sleep of the pod-phase loop follows a probe. *)
Lemma slept_poll_pods fuel e deadline h :
  (slept (snd (RancherDeployment.poll_pods fuel e deadline w h))
   <= 3 * Z.of_nat (length (outputs_of RancherDeployment.get_pods_cmd
                              (snd (RancherDeployment.poll_pods fuel e deadline
                                      w h)))))%Z.
Proof.
revert h. induction fuel as [|fuel IH]; intros h; [reflexivity|].
rewrite poll_pods_step. cbv zeta.
destruct (RancherDeployment.Qltb _ _); [|reflexivity].
destruct (RancherDeployment.phases_converged _).
- cbn [snd slept outputs_of]. rewrite args_eqb_refl. cbn [length]. lia.
- rewrite snd_prepend, slept_app, outputs_of_app, length_app.
  cbn [slept outputs_of]. rewrite args_eqb_refl. cbn [length].
  match goal with
  | |- context [RancherDeployment.poll_pods fuel e deadline w ?h'] =>
      specialize (IH h')
  end.
  lia.
Qed.

End Naps.

Ltac naps0_step :=
  first
    [ apply naps0_ret
    | apply naps0_raise
    | apply naps0_print
    | apply naps0_time
    | apply naps0_exists
    | apply naps0_which
    | apply naps0_geteuid
    | apply naps0_get_environ
    | apply naps0_get_script_dir
    | apply naps0_write_file
    | apply naps0_chmod
    | apply naps0_kube_env
    | apply naps0_subprocess_run
    | apply naps0_run
    | apply naps0_try_except; [|intros ?]
    | apply naps0_bind; [|intros ?]
    | match goal with
      | |- naps_in _ _ (if ?b then _ else _) => destruct b
      end ].

Ltac naps0_auto :=
  unfold Log.info, Log.success, Log.warn, Log.error, Log.section, sys_exit;
  repeat naps0_step.

Lemma naps_wait_nodes_ready w : naps_in w 120 K3sCluster._wait_nodes_ready.
Proof.
unfold K3sCluster._wait_nodes_ready.
apply (naps_weaken w (0 + (2 * Z.of_nat 60 + 0))); [|reflexivity].
apply naps_bind; [lia | naps0_auto | intros _].
apply naps_bind; [lia | apply naps_wait_nodes_loop | intros b].
naps0_auto.
Qed.

Lemma naps_install_or_verify h w :
  naps_in w 240 (K3sCluster.install_or_verify h).
Proof.
unfold K3sCluster.install_or_verify.
apply (naps_weaken w (0 + (0 + (0 + (0 + (2 * Z.of_nat 60 + (0 + (0 + 120))))))));
  [|reflexivity].
apply naps_bind; [lia | naps0_auto | intros a].
apply naps_bind; [lia | naps0_auto | intros active].
apply naps_bind; [lia | naps0_auto | intros _].
apply naps_bind; [lia | naps0_auto | intros _].
apply naps_bind; [lia | apply naps_wait_kubeconfig | intros found].
apply naps_bind; [lia | naps0_auto | intros _].
apply naps_bind; [lia | | intros _; apply naps_wait_nodes_ready].
unfold K3sCluster._fix_kubeconfig_permissions, HostEnv.ensure_kube_dir.
naps0_auto.
Qed.

Lemma naps_wait_ready fuel h w :
  clock_monotone w -> sleep_elapses w -> pod_probe_bound 300 < fuel ->
  naps_in w 300 (RancherDeployment.wait_ready fuel h 300).
Proof.
intros Hmono Hsleep Hfuel hist. rewrite wait_ready_unfold. cbv zeta.
destruct (returncode _ =? 0)%Z; [cbn [snd slept]; lia|].
destruct (fallback_poll_terminates fuel w h 300 hist Hmono Hsleep Hfuel)
  as [_ Hlen].
pose proof (slept_poll_pods w fuel (kube_environ w h)
              (fallback_start w h 300 hist + inject_Z 300)%Q
              (hist ++ fallback_prefix w h 300 hist)) as Hs.
fold (fallback_poll fuel w h 300 hist) in Hs.
assert (Hb : (Z.of_nat (pod_probe_bound 300) = 100)%Z) by reflexivity.
assert (Hp : slept (fallback_prefix w h 300 hist) = 0%Z) by reflexivity.
destruct (fst (fallback_poll fuel w h 300 hist)) as [[|]|x|];
  cbn [snd]; rewrite ?slept_app, Hp; cbn [slept]; lia.
Qed.

Lemma naps_process fuel w :
  clock_monotone w -> sleep_elapses w -> pod_probe_bound 300 < fuel ->
  naps_in w 540 (main fuel).
Proof.
intros Hmono Hsleep Hfuel. unfold main, BootstrapOrchestrator.__init__.
apply (naps_weaken w
         (0 + (0 + (0 + (0 + (240 + (0 + (0 + (0 + (0 + (300 + (0 + (0 + 0)))))))))))));
  [|reflexivity].
apply naps_bind; [lia | | intros h].
{ unfold HostEnv.__init__, HostEnv._detect_primary_ip. naps0_auto. }
unfold BootstrapOrchestrator.run.
apply naps_bind; [lia | | intros _].
{ unfold BootstrapOrchestrator.require_sudo. naps0_auto. }
apply naps_bind; [lia | | intros _].
{ unfold BootstrapOrchestrator.show_mode. naps0_auto. }
apply naps_bind; [lia | | intros _].
{ unfold K3sCluster.ensure_hosts. naps0_auto. }
apply naps_bind; [lia | apply naps_install_or_verify | intros _].
apply naps_bind; [lia | | intros _].
{ unfold K3sCluster.ensure_kubectl. naps0_auto. }
apply naps_bind; [lia | | intros _].
{ unfold K3sCluster.apply_bootstrap_yaml. naps0_auto. }
apply naps_bind; [lia | | intros _].
{ unfold K3sCluster.ensure_helm. naps0_auto. }
apply naps_bind; [lia | | intros _].
{ unfold RancherDeployment.install. naps0_auto. }
apply naps_bind; [lia | now apply naps_wait_ready | intros _].
apply naps_bind; [lia | | intros _].
{ unfold ClusterBanner.verify_cluster. naps0_auto. }
apply naps_bind; [lia | | intros _].
{ unfold ClusterBanner.access. naps0_auto. }
unfold ClusterBanner.final. naps0_auto.
Qed.

(** X16: [install_or_verify] asks for at most 240 seconds of sleep, 120
    waiting for the credential file and 120 for the nodes; with a clock that
    moves forward, and by the time of each sleep at least, [wait_ready] asks
    for at most 300 seconds and a whole run for at most 540. *)
Theorem run_sleeps_at_most_nine_minutes (fuel : nat) (w : World) :
  (forall h hist,
     (slept (snd (K3sCluster.install_or_verify h w hist)) <= 240)%Z)
  /\ (clock_monotone w -> sleep_elapses w -> pod_probe_bound 300 < fuel ->
      (forall h hist,
         (slept (snd (RancherDeployment.wait_ready fuel h 300 w hist))
          <= 300)%Z)
      /\ (slept (snd (process fuel w)) <= 540)%Z).
Proof.
split.
- intros h hist. apply naps_install_or_verify.
- intros Hmono Hsleep Hfuel. split.
  + intros h hist. now apply naps_wait_ready.
  + apply (naps_process fuel w Hmono Hsleep Hfuel []).
Qed.

Lemma run_sleeps_at_most_nine_minutes_witness :
  (slept (snd (process 101 (pending_world 0))) <= 540)%Z.
Proof.
apply (proj2 (proj2 (run_sleeps_at_most_nine_minutes 101 (pending_world 0))
                (scripted_clock_monotone _ _ _ _ 0 ltac:(lia))
                (scripted_sleep_elapses _ _ _ _ _)
                ltac:(vm_compute; lia))).
Defined.


(** ** The environment of the child processes *)

Section Every.
Variable w : World.
Variable P : event -> Prop.

Lemma every_ret {A} (a : A) : every_in w P (ret a).
Proof. intros h. constructor. Qed.

Lemma every_raise {A} x : every_in w P (@raise A x).
Proof. intros h. constructor. Qed.

Lemma every_bind {A B} (m : M A) (f : A -> M B) :
  every_in w P m -> (forall a, every_in w P (f a)) -> every_in w P (bind m f).
Proof.
intros Hm Hf h. specialize (Hm h). unfold bind.
destruct (m w h) as [[a|x|] e1]; cbn [snd] in *; try assumption.
specialize (Hf a (h ++ e1)). destruct (f a w (h ++ e1)) as [r e2].
cbn [snd] in *. apply Forall_app. now split.
Qed.

Lemma every_try_except {A} (body : M A) catches handler :
  every_in w P body -> (forall x, every_in w P (handler x)) ->
  every_in w P (try_except body catches handler).
Proof.
intros Hb Hh h. specialize (Hb h). unfold try_except.
destruct (body w h) as [[a|x|] e1]; cbn [snd] in *; try assumption.
destruct (catches x); [|assumption].
specialize (Hh x (h ++ e1)). destruct (handler x w (h ++ e1)) as [r e2].
cbn [snd] in *. apply Forall_app. now split.
Qed.

Lemma every_bind_kube_env {B} h (f : environ -> M B) :
  every_in w P (f (kube_environ w h)) ->
  every_in w P (bind (HostEnv.kube_env h) f).
Proof. intros Hf hist. rewrite bind_kube_env. apply Hf. Qed.

Lemma every_print s : P (Print s) -> every_in w P (print s).
Proof. intros H h. now repeat constructor. Qed.

Lemma every_sleep z : P (Sleep z) -> every_in w P (time_sleep z).
Proof. intros H h. now repeat constructor. Qed.

Lemma every_time : (forall t, P (Clock t)) -> every_in w P time_now.
Proof. intros H h. repeat constructor. apply H. Qed.

Lemma every_exists path :
  (forall b, P (Stat path b)) -> every_in w P (exists_ path).
Proof. intros H h. repeat constructor. apply H. Qed.

Lemma every_which n : (forall r, P (Which n r)) -> every_in w P (which n).
Proof. intros H h. repeat constructor. apply H. Qed.

Lemma every_geteuid : (forall uid, P (GetEuid uid)) -> every_in w P geteuid.
Proof. intros H h. repeat constructor. apply H. Qed.

Lemma every_get_environ : every_in w P get_environ.
Proof. intros h. constructor. Qed.

Lemma every_get_script_dir : every_in w P get_script_dir.
Proof. intros h. constructor. Qed.

Lemma every_write_file path contents :
  (forall err, P (WriteFile path contents err)) ->
  every_in w P (write_file path contents).
Proof.
intros H h. unfold write_file.
destruct (open_write _ _ _ _); repeat constructor; apply H.
Qed.

Lemma every_chmod path mode :
  (forall err, P (Chmod path mode err)) -> every_in w P (chmod path mode).
Proof.
intros H h. unfold chmod.
destruct (os_chmod _ _ _ _); repeat constructor; apply H.
Qed.

Lemma every_subprocess_run args check capture env :
  (forall cp, P (Spawn args env cp)) ->
  every_in w P (subprocess_run args check capture env).
Proof.
intros H h. unfold subprocess_run. destruct (spawn w h args env) as [rc out].
destruct (check && _)%bool; repeat constructor; apply H.
Qed.

Lemma every_run cmd check capture env cwd :
  (forall s, P (Print s)) -> (forall cp, P (Spawn cmd env cp)) ->
  every_in w P (run cmd check capture env cwd).
Proof.
intros Hp Hs. unfold run, Log.info.
apply every_bind; [apply every_print, Hp | intros _].
now apply every_subprocess_run.
Qed.

Lemma every_wait_kubeconfig n :
  (forall b, P (Stat K3sCluster.kcfg b)) -> P (Sleep 2) ->
  every_in w P (K3sCluster.wait_kubeconfig n).
Proof.
intros Hs Hz. induction n as [|n IH]; [apply every_ret|].
cbn [K3sCluster.wait_kubeconfig].
apply every_bind; [now apply every_exists | intros b].
destruct b; [apply every_ret|].
apply every_bind; [now apply every_sleep | intros _; exact IH].
Qed.

Lemma every_wait_nodes_loop n :
  (forall cp, P (Spawn K3sCluster.get_nodes_cmd None cp)) ->
  (forall s, P (Print s)) -> P (Sleep 2) ->
  every_in w P (K3sCluster.wait_nodes_loop n).
Proof.
intros Hs Hp Hz. induction n as [|n IH]; [apply every_ret|].
cbn [K3sCluster.wait_nodes_loop].
apply every_bind; [now apply every_subprocess_run | intros cp].
destruct (K3sCluster.nodes_converged _).
- apply every_bind; [apply every_print, Hp | intros _; apply every_ret].
- apply every_bind; [now apply every_sleep | intros _; exact IH].
Qed.

Lemma every_poll_pods fuel e deadline :
  (forall cp, P (Spawn RancherDeployment.get_pods_cmd (Some e) cp)) ->
  (forall s, P (Print s)) -> (forall t, P (Clock t)) -> P (Sleep 3) ->
  every_in w P (RancherDeployment.poll_pods fuel e deadline).
Proof.
intros Hs Hp Hc Hz. induction fuel as [|fuel IH]; [intros h; constructor|].
cbn [RancherDeployment.poll_pods].
apply every_bind; [now apply every_time | intros now].
destruct (RancherDeployment.Qltb now deadline); [|apply every_ret].
apply every_bind; [now apply every_subprocess_run | intros cp].
destruct (RancherDeployment.phases_converged _).
- apply every_bind; [apply every_print, Hp | intros _; apply every_ret].
- apply every_bind; [now apply every_sleep | intros _; exact IH].
Qed.

End Every.

Lemma helm_cmd_uses_kubeconfig h :
  uses_kubeconfig (RancherDeployment.helm_cmd h) = true.
Proof.
unfold uses_kubeconfig. rewrite chart_install_helm_cmd. apply orb_true_r.
Qed.

Ltac env_side :=
  intros;
  first
    [ exact I
    | reflexivity
    | cbn [env_as_expected]; rewrite helm_cmd_uses_kubeconfig; reflexivity ].

Ltac every_step :=
  first
    [ apply every_ret
    | apply every_raise
    | apply every_print; env_side
    | apply every_sleep; env_side
    | apply every_time; env_side
    | apply every_exists; env_side
    | apply every_which; env_side
    | apply every_geteuid; env_side
    | apply every_get_environ
    | apply every_get_script_dir
    | apply every_write_file; env_side
    | apply every_chmod; env_side
    | apply every_wait_kubeconfig; env_side
    | apply every_wait_nodes_loop; env_side
    | apply every_poll_pods; env_side
    | apply every_run; env_side
    | apply every_subprocess_run; env_side
    | apply every_bind_kube_env
    | apply every_try_except; [|intros ?]
    | apply every_bind; [|intros ?]
    | match goal with
      | |- every_in _ _ (if ?b then _ else _) => destruct b
      end ].

Ltac every_auto :=
  unfold Log.info, Log.success, Log.warn, Log.error, Log.section, sys_exit;
  repeat every_step.

Lemma run_env_as_expected fuel w h :
  every_in w (env_as_expected w h) (BootstrapOrchestrator.run fuel h).
Proof.
unfold BootstrapOrchestrator.run.
apply every_bind.
{ unfold BootstrapOrchestrator.require_sudo. every_auto. }
intros _. apply every_bind.
{ unfold BootstrapOrchestrator.show_mode. every_auto. }
intros _. apply every_bind.
{ unfold K3sCluster.ensure_hosts. every_auto. }
intros _. apply every_bind.
{ unfold K3sCluster.install_or_verify, K3sCluster._fix_kubeconfig_permissions,
    K3sCluster._wait_nodes_ready, HostEnv.ensure_kube_dir. every_auto. }
intros _. apply every_bind.
{ unfold K3sCluster.ensure_kubectl. every_auto. }
intros _. apply every_bind.
{ unfold K3sCluster.apply_bootstrap_yaml. every_auto. }
intros _. apply every_bind.
{ unfold K3sCluster.ensure_helm. every_auto. }
intros _. apply every_bind.
{ unfold RancherDeployment.install. every_auto. }
intros _. apply every_bind.
{ unfold RancherDeployment.wait_ready. every_auto. }
intros _. apply every_bind.
{ unfold ClusterBanner.verify_cluster. every_auto. }
intros _. apply every_bind.
{ unfold ClusterBanner.access. every_auto. }
intros _. unfold ClusterBanner.final. every_auto.
Qed.

(** X17: over a whole run, every [kubectl] command, the release query and
    the chart installation are started with the environment of the process
    in which KUBECONFIG is set to the kubeconfig of the invoking user; every
    other command, [k3s kubectl get nodes] and [helm repo] included,
    inherits the environment of the process unchanged. *)
Theorem kubeconfig_reaches_cluster_tools
    (fuel : nat) (w : World) (args : list string) (env : option environ)
    (cp : CompletedProcess) :
  In (Spawn args env cp) (snd (process fuel w)) ->
  env = if uses_kubeconfig args
        then Some (env_set "KUBECONFIG"
                     (HostEnv.kubeconfig_path (host_of w [])) (os_environ w))
        else None.
Proof.
unfold process. rewrite main_unfold, snd_prepend. cbn [app].
intros [H | H].
- unfold address_probe in H. injection H as <- <- _. reflexivity.
- pose proof (run_env_as_expected fuel w (host_of w [])
                ([] ++ [address_probe w []])) as Hall.
  rewrite Forall_forall in Hall. exact (Hall _ H).
Qed.

Lemma kubeconfig_reaches_cluster_tools_witness :
  Some (kube_environ converged_world example_host)
  = if uses_kubeconfig RancherDeployment.helm_status_cmd
    then Some (env_set "KUBECONFIG"
                 (HostEnv.kubeconfig_path (host_of converged_world []))
                 (os_environ converged_world))
    else None.
Proof.
apply (kubeconfig_reaches_cluster_tools 1 converged_world
         RancherDeployment.helm_status_cmd
         (Some (kube_environ converged_world example_host))
         (mkCompleted 0 "")).
vm_compute. repeat (first [left; reflexivity | right]).
Defined.
